(** * MagicRoute backend: the analytics recalculation engine and the order
      mutations that feed it (src/index.js).

    The development embeds [recalculateAnalytics], [getWeekNumber] and the
    object literals built by [POST /api/orders] and [PUT /api/orders/:id]
    as Rocq functions, and states the properties of the specification over
    them.  It goes on to the handlers around them: the deletion and the
    listing of orders, the customers, the analytics endpoint, the
    endpoints that read the stored collections, the predictions, and the
    loop of [loadData] that dates the orders of the data file.

    - JavaScript numbers are IEEE-754 binary64 values: Rocq's primitive
      [float].  Array lengths and counters, which are small naturals in
      every run, are kept as [nat] and converted where the source divides.
    - An order (and a request body) is a JavaScript object holding scalars:
      a finite map from property names to [value]s.  Text is kept as its
      UTF-8 bytes.
    - The objects the engine uses as dictionaries ([ordersByDate],
      [ordersByWeek], [shopRevenue]) are association lists in insertion
      order, because [Object.keys] is observable there.
    - What the engine takes from the host (date parsing, the time zone, the
      text/number conversions) is a [Runtime] record. *)

From Stdlib Require Import ZArith String Ascii List Floats DecimalString DecimalPos Lia.
From stdpp Require Import gmap strings list.

Module Js.

(** ** Values *)

(** The scalars a JSON document can put in a property. [VUndef] is what
    reading a missing property gives. *)
Inductive value : Type :=
| VUndef
| VNull
| VBool (b : bool)
| VNum (x : float)
| VStr (s : string).

Abbreviation object := (gmap string value).

(** [o.k] *)
Definition get (o : object) (k : string) : value := default VUndef (o !! k).

Definition js_nan : float := PrimFloat.nan.

(** ToBoolean. *)
Definition truthy (v : value) : bool :=
  match v with
  | VUndef | VNull => false
  | VBool b => b
  | VNum x => negb (PrimFloat.is_zero x || PrimFloat.is_nan x)
  | VStr s => negb (String.eqb s "")
  end.

(** [a || b] *)
Definition js_or (a b : value) : value := if truthy a then a else b.

(** [x || 0] on a number. *)
Definition num_or0 (x : float) : float :=
  if PrimFloat.is_zero x || PrimFloat.is_nan x then 0%float else x.

(** [v === 'lit'] for a string literal. *)
Definition is_str (lit : string) (v : value) : bool :=
  match v with
  | VStr s => String.eqb s lit
  | _ => false
  end.

(** [a > b] on numbers, that is [b < a]; false as soon as one is NaN. *)
Definition num_gt (a b : float) : bool := PrimFloat.ltb b a.

(** The number nearest to an integer (round to nearest, ties to even). *)
Definition float_of_Z (z : Z) : float :=
  SF2Prim (binary_normalize FloatOps.prec FloatOps.emax z 0 false).

(** ** What the host provides *)

Record Runtime : Type := {
  (** [Date.parse]: the time value in milliseconds, [None] for NaN. *)
  Date_parse : string -> option Z;
  (** The offset of local time from UTC, in milliseconds, at a time value. *)
  LocalTZA : Z -> Z;
  (** [parseFloat] on a string. *)
  parseFloat_string : string -> float;
  (** ToNumber on a string. *)
  StringToNumber : string -> float;
  (** ToString on a number. *)
  Number_toString : float -> string
}.

(** ToString, as a template literal or a property access applies it. *)
Definition ToString (rt : Runtime) (v : value) : string :=
  match v with
  | VUndef => "undefined"
  | VNull => "null"
  | VBool true => "true"
  | VBool false => "false"
  | VNum x => Number_toString rt x
  | VStr s => s
  end.

(** ToNumber. *)
Definition ToNumber (rt : Runtime) (v : value) : float :=
  match v with
  | VUndef => js_nan
  | VNull => 0%float
  | VBool true => 1%float
  | VBool false => 0%float
  | VNum x => x
  | VStr s => StringToNumber rt s
  end.

(** [parseFloat(v)]: the argument is first turned into text.  The text
    ToString gives for a number reads back as the same number (both zeros
    print as [0]); the texts of [undefined], [null], [true] and [false]
    have no numeric prefix. *)
Definition parseFloat (rt : Runtime) (v : value) : float :=
  match v with
  | VNum x => if PrimFloat.is_zero x then 0%float else x
  | VStr s => parseFloat_string rt s
  | _ => js_nan
  end.

(** ** Strings *)

Definition string_of_Z (z : Z) : string := NilZero.string_of_int (Z.to_int z).

(** [s.split('T')[0]]: what precedes the first [T], all of [s] when there
    is none. *)
Fixpoint split_T (s : string) : string :=
  match s with
  | EmptyString => EmptyString
  | String c r => if Ascii.eqb c "T" then EmptyString else String c (split_T r)
  end.

(** [s.replace(/-/g, '')] *)
Fixpoint remove_dashes (s : string) : string :=
  match s with
  | EmptyString => EmptyString
  | String c r => if Ascii.eqb c "-" then remove_dashes r else String c (remove_dashes r)
  end.

(** [s.replace('W', '')]: only the first occurrence goes. *)
Fixpoint remove_first_W (s : string) : string :=
  match s with
  | EmptyString => EmptyString
  | String c r => if Ascii.eqb c "W" then r else String c (remove_first_W r)
  end.

Definition digit_of (c : ascii) : option Z :=
  let n := Z.of_nat (nat_of_ascii c) in
  if ((48 <=? n) && (n <=? 57))%Z then Some (n - 48)%Z else None.

Definition hex_digit_of (c : ascii) : option Z :=
  let n := Z.of_nat (nat_of_ascii c) in
  if ((48 <=? n) && (n <=? 57))%Z then Some (n - 48)%Z
  else if ((97 <=? n) && (n <=? 102))%Z then Some (n - 87)%Z
  else if ((65 <=? n) && (n <=? 70))%Z then Some (n - 55)%Z
  else None.

(** The longest prefix of digits, read in the radix, after [acc]; [seen]
    tells whether a digit was read. *)
Fixpoint read_digits (digit : ascii -> option Z) (radix : Z) (s : string)
    (acc : Z) (seen : bool) : option Z :=
  match s with
  | EmptyString => if seen then Some acc else None
  | String c r =>
      match digit c with
      | Some d => read_digits digit radix r (acc * radix + d)%Z true
      | None => if seen then Some acc else None
      end
  end.

(** White space and line ends of one byte: TAB, LF, VT, FF, CR, SP. *)
Definition is_space (c : ascii) : bool :=
  let n := nat_of_ascii c in
  (n =? 32)%nat || ((9 <=? n)%nat && (n <=? 13)%nat).

(** The third byte of the white space that starts with E2 80: U+2000 to
    U+200A, U+2028, U+2029, U+202F. *)
Definition is_space_E2_80 (c : ascii) : bool :=
  let n := nat_of_ascii c in
  ((128 <=? n)%nat && (n <=? 138)%nat) || (n =? 168)%nat || (n =? 169)%nat
  || (n =? 175)%nat.

(** What follows the white space and line ends at the head of [s]; the
    ones beyond one byte are U+00A0, U+1680, U+2000 to U+200A, U+2028,
    U+2029, U+202F, U+205F, U+3000 and U+FEFF. *)
Fixpoint skip_spaces (s : string) : string :=
  match s with
  | EmptyString => EmptyString
  | String c r =>
      if is_space c then skip_spaces r
      else
        match s with
        | String "194" (String "160" r') => skip_spaces r'
        | String "225" (String "154" (String "128" r')) => skip_spaces r'
        | String "226" (String "128" (String c3 r')) =>
            if is_space_E2_80 c3 then skip_spaces r' else s
        | String "226" (String "129" (String "159" r')) => skip_spaces r'
        | String "227" (String "128" (String "128" r')) => skip_spaces r'
        | String "239" (String "187" (String "191" r')) => skip_spaces r'
        | _ => s
        end
  end.

Definition read_unsigned (s : string) : option Z :=
  match s with
  | String "0" (String x r) =>
      if Ascii.eqb x "x" || Ascii.eqb x "X"
      then read_digits hex_digit_of 16 r 0 false
      else read_digits digit_of 10 s 0 false
  | _ => read_digits digit_of 10 s 0 false
  end.

(** What [parseInt(s)] reads with no radix: leading white space, a sign,
    an optional [0x], then the longest run of digits; [None] when there is
    no digit.  This is the integer read, before it is made a number. *)
Definition parseInt (s : string) : option Z :=
  match skip_spaces s with
  | String "-" r => Z.opp <$> read_unsigned r
  | String "+" r => read_unsigned r
  | t => read_unsigned t
  end.

(** The number [parseInt] returns for what it read: the binary64 value
    nearest to the integer (ties to even, so 2^53 + 1 gives 2^53, and
    Infinity past the largest number), NaN when no digit was read.  (For
    a minus sign before zeros the call gives -0, which equals 0 and is
    printed 0.) *)
Definition parsed_number (n : option Z) : float :=
  match n with
  | Some z => float_of_Z z
  | None => js_nan
  end.

(** ** Time values (ECMAScript, Date objects) *)

Local Open Scope Z_scope.

Definition msPerDay : Z := 86400000.

Definition Day (t : Z) : Z := t / msPerDay.
Definition TimeWithinDay (t : Z) : Z := t mod msPerDay.
Definition WeekDay (t : Z) : Z := (Day t + 4) mod 7.

(** The civil date of a day number (days since 1970-01-01), proleptic
    Gregorian: year, month 0..11, day of the month 1..31. *)
Definition civil_of_days (days : Z) : Z * Z * Z :=
  let z := days + 719468 in
  let era := z / 146097 in
  let doe := z - era * 146097 in
  let yoe := (doe - doe / 1460 + doe / 36524 - doe / 146096) / 365 in
  let doy := doe - (365 * yoe + yoe / 4 - yoe / 100) in
  let mp := (5 * doy + 2) / 153 in
  let d := doy - (153 * mp + 2) / 5 + 1 in
  let m := if mp <? 10 then mp + 2 else mp - 10 in
  (yoe + era * 400 + (if m <=? 1 then 1 else 0), m, d).

(** The day number of the first day of month [m] (0..11) of year [y]. *)
Definition days_of_civil (y m : Z) : Z :=
  let y' := if m <=? 1 then y - 1 else y in
  let era := y' / 400 in
  let yoe := y' - era * 400 in
  let mp := if m <=? 1 then m + 10 else m - 2 in
  let doy := (153 * mp + 2) / 5 in
  let doe := yoe * 365 + yoe / 4 - yoe / 100 + doy in
  era * 146097 + doe - 719468.

Definition YearFromTime (t : Z) : Z := (civil_of_days (Day t)).1.1.
Definition MonthFromTime (t : Z) : Z := (civil_of_days (Day t)).1.2.
Definition DateFromTime (t : Z) : Z := (civil_of_days (Day t)).2.

Definition MakeDay (year month date : Z) : Z :=
  days_of_civil (year + month / 12) (month mod 12) + date - 1.

Definition MakeDate (day time : Z) : Z := day * msPerDay + time.

Definition TimeClip (t : Z) : option Z :=
  if Z.abs t <=? 8640000000000000 then Some t else None.

(** [Date.UTC(year, month, date)]: a year from 0 to 99 means 1900 + year. *)
Definition Date_UTC (year month date : Z) : option Z :=
  let yr := if (0 <=? year) && (year <=? 99) then 1900 + year else year in
  TimeClip (MakeDate (MakeDay yr month date) 0).

(** [d.setUTCDate(dt)] on a valid date: the new time value. *)
Definition setUTCDate (t dt : Z) : option Z :=
  TimeClip (MakeDate (MakeDay (YearFromTime t) (MonthFromTime t) dt) (TimeWithinDay t)).

Definition LocalTime (rt : Runtime) (t : Z) : Z := t + LocalTZA rt t.

(** [Math.ceil(n / 7)] for an integer [n]: the quotient of an integer below
    2^53 by 7 is either an integer or at least 1/7 away from one, so
    rounding the quotient to a number does not move its ceiling. *)
Definition ceil_div7 (n : Z) : Z := - ((- n) / 7).

End Js.

Module Analytics.
Import Js.

(** ** How a call ends *)

(** A call returns, or throws, or leaves what this development models: a
    shop whose name is that of a member of [Object.prototype] makes
    [shopRevenue[shop]] read an inherited function, and the revenue of that
    shop becomes a piece of text. *)
Inductive outcome (A : Type) : Type :=
| Returns (a : A)
| Throws (e : string)
| OutsideModel.

Arguments Returns {A} a.
Arguments Throws {A} e.
Arguments OutsideModel {A}.

#[export] Instance outcome_ret : MRet outcome := @Returns.

#[export] Instance outcome_bind : MBind outcome := fun A B f m =>
  match m with
  | Returns a => f a
  | Throws e => Throws e
  | OutsideModel => OutsideModel
  end.

(** ** Objects used as dictionaries *)

(** The own properties, in the order they were created. *)
Definition dict (A : Type) : Type := list (string * A).

Fixpoint own_get {A} (k : string) (o : dict A) : option A :=
  match o with
  | [] => None
  | (k', v) :: r => if String.eqb k' k then Some v else own_get k r
  end.

(** [o[k] = v]: an existing property keeps its place. *)
Fixpoint own_set {A} (k : string) (v : A) (o : dict A) : dict A :=
  match o with
  | [] => [(k, v)]
  | (k', v') :: r =>
      if String.eqb k' k then (k', v) :: r else (k', v') :: own_set k v r
  end.

(** The names every object literal inherits from [Object.prototype]. *)
Definition Object_prototype_keys : list string :=
  [ "constructor"; "__proto__"; "hasOwnProperty"; "isPrototypeOf";
    "propertyIsEnumerable"; "toLocaleString"; "toString"; "valueOf";
    "__defineGetter__"; "__defineSetter__"; "__lookupGetter__";
    "__lookupSetter__" ].

Definition inherited (k : string) : bool :=
  existsb (String.eqb k) Object_prototype_keys.

(** An array index: the canonical decimal text of an integer from 0 to
    2^32 - 2. *)
Definition array_index (k : string) : option Z :=
  match read_digits digit_of 10 k 0 false with
  | Some n =>
      if String.eqb (string_of_Z n) k && (n <=? 4294967294)%Z then Some n else None
  | None => None
  end.

Fixpoint insert_index (p : Z * string) (l : list (Z * string)) : list (Z * string) :=
  match l with
  | [] => [p]
  | q :: r => if (p.1 <? q.1)%Z then p :: q :: r else q :: insert_index p r
  end.

Definition index_keys (ks : list string) : list (Z * string) :=
  fold_right
    (fun k acc => match array_index k with
                  | Some n => insert_index (n, k) acc
                  | None => acc
                  end) [] ks.

Definition is_name (k : string) : bool :=
  match array_index k with Some _ => false | None => true end.

(** [Object.keys(o)]: the array indices in ascending order, then the other
    names in creation order. *)
Definition Object_keys {A} (o : dict A) : list string :=
  let ks := map fst o in
  map snd (index_keys ks) ++ List.filter is_name ks.

(** ** getWeekNumber (src/index.js, 340-346) *)

Section WithRuntime.

Variable rt : Runtime.

(** The date is the argument's time value, [None] for an invalid date.
    Every step on an invalid date gives NaN, printed [NaN].  [d] and
    [yearStart] are midnights, so the division by 86400000 is exact. *)
Definition getWeekNumber (date : option Z) : string :=
  match date with
  | None => "NaN-WNaN"
  | Some t =>
      let lt := LocalTime rt t in
      match Date_UTC (YearFromTime lt) (MonthFromTime lt) (DateFromTime lt) with
      | None => "NaN-WNaN"
      | Some d0 =>
          let dayNum := if (WeekDay d0 =? 0)%Z then 7%Z else WeekDay d0 in
          match setUTCDate d0 (DateFromTime d0 + 4 - dayNum)%Z with
          | None => "NaN-WNaN"
          | Some d =>
              let year := YearFromTime d in
              match Date_UTC year 0 1 with
              | None => string_of_Z year ++ "-WNaN"
              | Some yearStart =>
                  string_of_Z year ++ "-W"
                  ++ string_of_Z (ceil_div7 ((d - yearStart) / msPerDay + 1)%Z)
              end
          end
      end
  end.

(** ** The records of the derived collections *)

(** An entry of [dailySales] or of [weeklySales].  [period] is the property
    the source names [date] in the first and [week] in the second; the
    other properties have the same names and the same code in both. *)
Record Sale : Type := {
  id : float;
  period : string;
  totalRevenue : float;
  totalOrders : nat;
  deliveredOrders : nat;
  pendingOrders : nat;
  inProcessOrders : nat;
  averageOrderValue : float;
  topShop : string;
  topShopRevenue : float;
  paymentBreakdown : gmap string float
}.

Record Prediction : Type := {
  prediction_id : Z;
  prediction_type : string;
  timeframe : string;
  predictedValue : float;
  confidence : Z;
  factors : list string
}.

Record Report : Type := {
  report_id : Z;
  report_type : string;
  report_date : string;
  report_totalRevenue : float;
  report_totalOrders : nat;
  report_averageOrderValue : float;
  report_topShop : string;
  report_paymentBreakdown : gmap string float
}.

Record Notification : Type := {
  notification_id : Z;
  notification_type : string;
  message : string;
  timestamp : value;
  read : bool
}.

Record Analytics : Type := {
  dailySales : list Sale;
  weeklySales : list Sale;
  predictions : list Prediction;
  reports : list Report;
  notifications : list Notification
}.

(** ** recalculateAnalytics (src/index.js, 156-317) *)

(** [parseFloat(order.totalAmount || 0)] *)
Definition amount (order : object) : float :=
  parseFloat rt (js_or (get order "totalAmount") (VNum 0%float)).

(** [if (!byKey[k]) byKey[k] = []]: an inherited member is truthy too. *)
Definition ensure_list (k : string) (byKey : dict (list object)) : dict (list object) :=
  match own_get k byKey with
  | Some _ => byKey
  | None => if inherited k then byKey else own_set k [] byKey
  end.

(** [byKey[k].push(order)]: no inherited member has a [push]. *)
Definition push_order (k : string) (order : object) (byKey : dict (list object))
    : outcome (dict (list object)) :=
  match own_get k byKey with
  | Some members => Returns (own_set k (members ++ [order]) byKey)
  | None => Throws "TypeError: push is not a function"
  end.

(** The body of [orders.forEach] (163-178). *)
Definition group_order (groups : dict (list object) * dict (list object)) (order : object)
    : outcome (dict (list object) * dict (list object)) :=
  let '(ordersByDate, ordersByWeek) := groups in
  let createdAt := get order "createdAt" in
  if truthy createdAt then
    match createdAt with
    | VStr s =>
        let date := split_T s in
        let week := getWeekNumber (Date_parse rt s) in
        let ordersByDate := ensure_list date ordersByDate in
        let ordersByWeek := ensure_list week ordersByWeek in
        ordersByDate ← push_order date order ordersByDate;
        ordersByWeek ← push_order week order ordersByWeek;
        Returns (ordersByDate, ordersByWeek)
    | _ => Throws "TypeError: order.createdAt.split is not a function"
    end
  else Returns groups.

Definition group_orders (orders : list object)
    : outcome (dict (list object) * dict (list object)) :=
  fold_left (fun acc order => groups ← acc; group_order groups order)
            orders (Returns ([], [])).

Definition count_status (status : string) (members : list object) : nat :=
  length (List.filter (fun order => is_str status (get order "status")) members).

Definition emptyBreakdown : gmap string float :=
  <["Balance" := 0%float]> (<["Cash" := 0%float]> (<["Card" := 0%float]>
    (<["Bank" := 0%float]> ∅))).

(** [paymentBreakdown[k] += a] *)
Definition add_payment (k : string) (a : float) (pb : gmap string float) : gmap string float :=
  <[k := (default js_nan (pb !! k) + a)%float]> pb.

(** The body of the payment loop (191-199, 238-246). *)
Definition payment_step (pb : gmap string float) (order : object) : gmap string float :=
  let method := js_or (get order "paymentMethod") (VStr "Not Set") in
  if is_str "Bank Transfer" method then add_payment "Bank" (amount order) pb
  else if bool_decide (is_Some (pb !! ToString rt method))
       then add_payment (ToString rt method) (amount order) pb
       else pb.

(** The body of the shop loop (203-206, 250-253). *)
Definition shop_step (shopRevenue : dict float) (order : object) : outcome (dict float) :=
  let shop := ToString rt (get order "shopName") in
  match own_get shop shopRevenue with
  | Some r => Returns (own_set shop (num_or0 r + amount order)%float shopRevenue)
  | None =>
      if inherited shop then OutsideModel
      else Returns (own_set shop (0 + amount order)%float shopRevenue)
  end.

Definition shop_revenue (members : list object) : outcome (dict float) :=
  fold_left (fun acc order => sr ← acc; shop_step sr order) members (Returns []).

(** [shopRevenue[a] > shopRevenue[b]]: a missing property is [undefined],
    which compares as NaN. *)
Definition revenue_gt (shopRevenue : dict float) (a b : string) : bool :=
  match own_get a shopRevenue, own_get b shopRevenue with
  | Some x, Some y => num_gt x y
  | _, _ => false
  end.

(** [Object.keys(shopRevenue).reduce((a, b) => ... ? a : b, 'N/A')] *)
Definition top_shop (shopRevenue : dict float) : string :=
  fold_left (fun a b => if revenue_gt shopRevenue a b then a else b)
            (Object_keys shopRevenue) "N/A".

(** The callback of [Object.keys(...).map] (181-225, 228-272); [mk_id] is
    the only part on which the two differ. *)
Definition sale_of (mk_id : string -> float) (key : string) (members : list object)
    : outcome Sale :=
  shopRevenue ← shop_revenue members;
  let revenue := fold_left (fun sum order => (sum + amount order)%float) members 0%float in
  let n := length members in
  let top := top_shop shopRevenue in
  Returns {|
    id := mk_id key;
    period := key;
    totalRevenue := revenue;
    totalOrders := n;
    deliveredOrders := count_status "Delivered" members;
    pendingOrders := count_status "Pending" members;
    inProcessOrders := count_status "In Process" members;
    averageOrderValue :=
      if (0 <? n)%nat then (revenue / float_of_Z (Z.of_nat n))%float else 0%float;
    topShop := top;
    topShopRevenue :=
      match own_get top shopRevenue with Some r => num_or0 r | None => 0%float end;
    paymentBreakdown := fold_left payment_step members emptyBreakdown
  |}.

(** [Object.keys(byKey).map(key => ...)]; a key of [Object.keys] is an own
    property, so [byKey[key]] is never [undefined] there. *)
Definition sales_of (mk_id : string -> float) (byKey : dict (list object))
    : outcome (list Sale) :=
  mapM (fun key =>
          match own_get key byKey with
          | Some members => sale_of mk_id key members
          | None => Throws "TypeError: cannot read properties of undefined"
          end)
       (Object_keys byKey).

(** [parseInt(date.replace(/-/g, ''))] and [parseInt(week.replace('W', ''))] *)
Definition daily_id (date : string) : float := parsed_number (parseInt (remove_dashes date)).
Definition weekly_id (week : string) : float := parsed_number (parseInt (remove_first_W week)).

(** [clock k] is the text of [new Date().toISOString()] at the k-th reading
    of the clock during the call.  [0x1.199999999999ap+0] is the number the
    literal [1.1] denotes. *)
Definition recalculateAnalytics (clock : nat -> string) (orders : list object)
    : outcome Analytics :=
  '(ordersByDate, ordersByWeek) ← group_orders orders;
  dailySales ← sales_of daily_id ordersByDate;
  weeklySales ← sales_of weekly_id ordersByWeek;
  let predictions :=
    [ {| prediction_id := 1;
         prediction_type := "revenue";
         timeframe := "tomorrow";
         predictedValue :=
           match last dailySales with
           | Some day => (totalRevenue day * 0x1.199999999999ap+0)%float
           | None => 850%float
           end;
         confidence := 85;
         factors := ["historical_trend"; "day_of_week"; "seasonal_pattern"] |} ] in
  let latestWeekly := last weeklySales in
  let reports :=
    [ {| report_id := 1;
         report_type := "comprehensive";
         report_date := split_T (clock 0%nat);
         report_totalRevenue :=
           match latestWeekly with Some w => num_or0 (totalRevenue w) | None => 0%float end;
         report_totalOrders :=
           match latestWeekly with Some w => totalOrders w | None => 0%nat end;
         report_averageOrderValue :=
           match latestWeekly with Some w => num_or0 (averageOrderValue w) | None => 0%float end;
         report_topShop :=
           match latestWeekly with
           | Some w => if String.eqb (topShop w) "" then "N/A" else topShop w
           | None => "N/A"
           end;
         report_paymentBreakdown :=
           match latestWeekly with Some w => paymentBreakdown w | None => emptyBreakdown end |} ] in
  let notifications :=
    match last orders with
    | Some latestOrder =>
        if is_str "Delivered" (get latestOrder "status") then
          [ {| notification_id := 1;
               notification_type := "order_update";
               message := "Order #" ++ ToString rt (get latestOrder "id")
                          ++ " delivered successfully";
               timestamp := js_or (get latestOrder "deliveredAt") (VStr (clock 1%nat));
               read := false |} ]
        else []
    | None => []
    end in
  Returns {| dailySales := dailySales;
             weeklySales := weeklySales;
             predictions := predictions;
             reports := reports;
             notifications := notifications |}.

End WithRuntime.

End Analytics.

(** ** The order mutations (src/index.js, 513-623) *)
Module OrdersApi.
Import Js Analytics.

(** The ledger and the derived collections the process holds; the
    customers play no part here. *)
Record State : Type := {
  orders : list object;
  derived : Analytics
}.

(** What the handler answers: the status and the order it sends back. *)
Inductive response : Type :=
| Created (newOrder : object)
| Ok (updatedOrder : object)
| NotFound
| ServerError (e : string).

Section WithRuntime.

Variable rt : Runtime.

(** [Math.max] on two numbers: NaN wins, and +0 is above -0. *)
Definition Math_max2 (a b : float) : float :=
  if PrimFloat.is_nan a || PrimFloat.is_nan b then js_nan
  else if PrimFloat.ltb a b then b
  else if PrimFloat.ltb b a then a
  else match PrimFloat.classify a with
       | NZero => b
       | _ => a
       end.

(** [Math.max(...orders.map(order => order.id), 0)]: every argument goes
    through ToNumber. *)
Definition max_id (orders : list object) : float :=
  fold_left Math_max2
            (map (fun order => ToNumber rt (get order "id")) orders ++ [0%float])
            PrimFloat.neg_infinity.

(** [s.padStart(3, '0')] *)
Definition padStart3 (s : string) : string :=
  match String.length s with
  | 0%nat => "000" ++ s
  | 1%nat => "00" ++ s
  | 2%nat => "0" ++ s
  | _ => s
  end.

(** The object literal of [POST /api/orders] (517-527): what is written
    after [...req.body] replaces a property of the body, what is written
    before it is replaced by one. *)
Definition newOrder (now : string) (orders : list object) (body : object) : object :=
  let next := (max_id orders + 1)%float in
  <["paymentMethod" := js_or (get body "paymentMethod") (VStr "")]>
  (<["deliveredAt" := VNull]>
  (<["createdAt" := VStr now]>
  (<["deliveryNotes" := VStr ""]>
  (<["status" := VStr "Pending"]>
  (<["deliveryNo" := VStr ("D" ++ padStart3 (Number_toString rt next))]>
  (<["basketNo" := VNum next]>
  (body ∪ {["id" := VNum next]}))))))).

(** The derived collections after a mutation: replaced when the
    recalculation returns, kept when it throws (the handler answers 500). *)
Definition refresh (clock : nat -> string) (st : State) (orders' : list object)
    (answer : response) : outcome (State * response) :=
  match recalculateAnalytics rt clock orders' with
  | Returns a => Returns ({| orders := orders'; derived := a |}, answer)
  | Throws e => Returns ({| orders := orders'; derived := derived st |}, ServerError e)
  | OutsideModel => OutsideModel
  end.

(** [POST /api/orders] *)
Definition post_order (clock : nat -> string) (st : State) (body : object)
    : outcome (State * response) :=
  let order := newOrder (clock 0%nat) (orders st) body in
  refresh (fun k => clock (S k)) st (orders st ++ [order]) (Created order).

(** The properties spread under [req.body.status === 'Delivered' && {...}]
    (583-586); [false] spreads nothing. *)
Definition delivery_stamp (now : string) (body : object) : object :=
  if is_str "Delivered" (get body "status") then
    <["deliveryNotes" := js_or (get body "deliveryNotes") (VStr "")]>
    (<["deliveredAt" := js_or (get body "deliveredAt") (VStr now)]> ∅)
  else ∅.

(** The object literal of [PUT /api/orders/:id] (579-589). *)
Definition updatedOrder (now : string) (order body : object) : object :=
  <["paymentMethod" := js_or (get body "paymentMethod") (VStr "")]>
  (delivery_stamp now body ∪ (body ∪ order)).

(** [order.id === id] for the number [parseInt] gave. *)
Definition id_is (id : option Z) (order : object) : bool :=
  match id, get order "id" with
  | Some z, VNum x => PrimFloat.eqb x (float_of_Z z)
  | _, _ => false
  end.

Fixpoint findIndex (p : object -> bool) (l : list object) : option nat :=
  match l with
  | [] => None
  | o :: r => if p o then Some 0%nat else S <$> findIndex p r
  end.

(** Whether the literal reads the clock: [new Date()] stands to the right
    of [||]. *)
Definition reads_clock (body : object) : bool :=
  is_str "Delivered" (get body "status") && negb (truthy (get body "deliveredAt")).

(** [PUT /api/orders/:id] *)
Definition put_order (clock : nat -> string) (st : State) (param_id : string)
    (body : object) : outcome (State * response) :=
  match findIndex (id_is (parseInt param_id)) (orders st) with
  | None => Returns (st, NotFound)
  | Some orderIndex =>
      match orders st !! orderIndex with
      | None => Returns (st, NotFound)
      | Some order =>
          let updated := updatedOrder (clock 0%nat) order body in
          let used := if reads_clock body then 1%nat else 0%nat in
          refresh (fun k => clock (used + k)%nat) st
                  (<[orderIndex := updated]> (orders st)) (Ok updated)
      end
  end.

End WithRuntime.

End OrdersApi.

(** ** A reference host

    A [Runtime] on which closed examples run: UTC as the local time zone,
    the ISO format of [Date.prototype.toISOString] for dates, numeric
    literals read with correct rounding, numbers printed with the fewest
    digits that read back. *)
Module Host.
Import Js.

Local Open Scope Z_scope.

Fixpoint take_digits (n : nat) (s : string) (acc : Z) : option (Z * string) :=
  match n with
  | O => Some (acc, s)
  | S n' =>
      match s with
      | String c r =>
          match digit_of c with
          | Some d => take_digits n' r (acc * 10 + d)
          | None => None
          end
      | EmptyString => None
      end
  end.

Definition expect (c : ascii) (s : string) : option string :=
  match s with
  | String c' r => if Ascii.eqb c c' then Some r else None
  | EmptyString => None
  end.

(** [THH:mm:ss], an optional [.sss], then [Z]: the milliseconds in the day. *)
Definition iso_time (s : string) : option Z :=
  '(h, s) ← take_digits 2 s 0;
  s ← expect ":" s;
  '(mi, s) ← take_digits 2 s 0;
  s ← expect ":" s;
  '(sec, s) ← take_digits 2 s 0;
  '(ms, s) ← match s with
              | String "." r => take_digits 3 r 0
              | _ => Some (0, s)
              end;
  if (h <=? 23) && (mi <=? 59) && (sec <=? 59) && String.eqb s "Z"
  then Some (((h * 60 + mi) * 60 + sec) * 1000 + ms)
  else None.

(** [Date.parse] on [YYYY-MM-DD] and on [YYYY-MM-DDTHH:mm:ss(.sss)Z]; any
    other text is an invalid date for this host. *)
Definition iso_parse (s : string) : option Z :=
  '(y, s) ← take_digits 4 s 0;
  s ← expect "-" s;
  '(m, s) ← take_digits 2 s 0;
  s ← expect "-" s;
  '(d, s) ← take_digits 2 s 0;
  let day := MakeDay y (m - 1) d in
  if bool_decide (civil_of_days day = (y, m - 1, d)) then
    match s with
    | EmptyString => TimeClip (MakeDate day 0)
    | String c r =>
        if Ascii.eqb c "T" then time ← iso_time r; TimeClip (MakeDate day time)
        else None
    end
  else None.

(** The number nearest to [num / den], for [den > 0]: the quotient is
    taken with more than 64 bits, and one more bit tells whether anything
    was left. *)
Definition float_of_ratio (num den : Z) : float :=
  let s := 64 + Z.log2 den in
  let q := (Z.abs num * 2 ^ s) / den in
  let sticky := if (Z.abs num * 2 ^ s) mod den =? 0 then 0 else 1 in
  let m := 2 * q + sticky in
  SF2Prim (binary_normalize FloatOps.prec FloatOps.emax
             (if num <? 0 then - m else m) (- s - 1) false).

(** The digits at the head of [s]: their value after [acc], how many there
    are, and what follows. *)
Fixpoint digits_prefix (s : string) (acc : Z) (n : Z) : Z * Z * string :=
  match s with
  | String c r =>
      match digit_of c with
      | Some d => digits_prefix r (acc * 10 + d) (n + 1)
      | None => (acc, n, s)
      end
  | EmptyString => (acc, n, s)
  end.

(** An exponent part at the head of [s], if there is a complete one. *)
Definition exponent_prefix (s : string) : Z * string :=
  match s with
  | String c r =>
      if Ascii.eqb c "e" || Ascii.eqb c "E" then
        let '(sign, r') :=
          match r with
          | String "-" t => (-1, t)
          | String "+" t => (1, t)
          | _ => (1, r)
          end in
        let '(e, n, rest) := digits_prefix r' 0 0 in
        if n =? 0 then (0, s) else (sign * e, rest)
      else (0, s)
  | EmptyString => (0, s)
  end.

Definition signed (neg : bool) (x : float) : float :=
  if neg then (- x)%float else x.

(** The longest decimal literal at the head of [s], with what follows it;
    [None] when there is none. *)
Definition decimal_prefix (s : string) : option (float * string) :=
  let '(neg, s) :=
    match s with
    | String "-" r => (true, r)
    | String "+" r => (false, r)
    | _ => (false, s)
    end in
  if String.prefix "Infinity" s
  then Some (signed neg PrimFloat.infinity, String.substring 8 (String.length s - 8) s)
  else
    let '(int, ni, s1) := digits_prefix s 0 0 in
    let '(mant, nf, s2) :=
      match s1 with
      | String "." r => digits_prefix r int 0
      | _ => (int, 0, s1)
      end in
    if (ni =? 0) && (nf =? 0) then None
    else
      let '(e, s3) := exponent_prefix s2 in
      let e10 := e - nf in
      let x := if 0 <=? e10 then float_of_ratio (mant * 10 ^ e10) 1
               else float_of_ratio mant (10 ^ (- e10)) in
      Some (signed neg x, s3).

Definition parseFloat_text (s : string) : float :=
  match decimal_prefix (skip_spaces s) with
  | Some (x, _) => x
  | None => js_nan
  end.

Definition bit_of (c : ascii) : option Z :=
  match digit_of c with
  | Some d => if d <=? 1 then Some d else None
  | None => None
  end.

Definition octal_digit_of (c : ascii) : option Z :=
  match digit_of c with
  | Some d => if d <=? 7 then Some d else None
  | None => None
  end.

(** The digits at the head of [s] in a radix: their value and what
    follows, if there is a digit. *)
Fixpoint radix_prefix (digit : ascii -> option Z) (radix : Z) (s : string)
    (acc : Z) (seen : bool) : option (Z * string) :=
  match s with
  | String c r =>
      match digit c with
      | Some d => radix_prefix digit radix r (acc * radix + d) true
      | None => if seen then Some (acc, s) else None
      end
  | EmptyString => if seen then Some (acc, s) else None
  end.

(** A literal [0x..], [0o..] or [0b..] at the head of [s]. *)
Definition radix_literal (s : string) : option (Z * string) :=
  match s with
  | String "0" (String c r) =>
      if Ascii.eqb c "x" || Ascii.eqb c "X" then radix_prefix hex_digit_of 16 r 0 false
      else if Ascii.eqb c "o" || Ascii.eqb c "O" then radix_prefix octal_digit_of 8 r 0 false
      else if Ascii.eqb c "b" || Ascii.eqb c "B" then radix_prefix bit_of 2 r 0 false
      else None
  | _ => None
  end.

(** ToNumber on text: nothing but white space is 0; one numeric literal
    between white space is its value; anything else is NaN. *)
Definition number_of_text (s : string) : float :=
  match skip_spaces s with
  | EmptyString => 0%float
  | t =>
      match radix_literal t with
      | Some (z, rest) =>
          match skip_spaces rest with
          | EmptyString => float_of_Z z
          | _ => js_nan
          end
      | None =>
          match decimal_prefix t with
          | Some (x, rest) =>
              match skip_spaces rest with
              | EmptyString => x
              | _ => js_nan
              end
          | None => js_nan
          end
      end
  end.

(** [10^p <= num / den], for [den > 0]. *)
Definition pow10_le (p num den : Z) : bool :=
  if 0 <=? p then 10 ^ p * den <=? num else den <=? num * 10 ^ (- p).

(** The [n] with [10^(n-1) <= num / den < 10^n], for a positive ratio. *)
Definition decimal_exponent (num den : Z) : Z :=
  let guess := ((Z.log2 num - Z.log2 den) * 30103) / 100000 - 1 in
  let up := fun f => if pow10_le (f + 1) num den then f + 1 else f in
  up (up (up (up guess))) + 1.

(** [floor (num / den / 10^q)] *)
Definition scaled_floor (num den q : Z) : Z :=
  if 0 <=? q then num / (den * 10 ^ q) else (num * 10 ^ (- q)) / den.

(** Whether [s * 10^q] reads back as [x]. *)
Definition reads_back (x : float) (s q : Z) : bool :=
  PrimFloat.eqb x (if 0 <=? q then float_of_ratio (s * 10 ^ q) 1
                   else float_of_ratio s (10 ^ (- q))).

(** Which of [lo * 10^q] and [(lo + 1) * 10^q] is nearer to [num / den]:
    [Lt] for the first, [Gt] for the second. *)
Definition nearer (num den lo q : Z) : comparison :=
  let '(a, b) := if 0 <=? q then (num, den * 10 ^ q) else (num * 10 ^ (- q), den) in
  (* a / b lies between lo and lo + 1 *)
  (2 * a ?= (2 * lo + 1) * b).

(** The digits [s] and the exponent [n] of the shortest decimal
    [s * 10^(n-k)] that reads back as the positive number [x = num / den],
    trying [k] digits, then one more, [fuel] times (17 digits always
    suffice); of two decimals of one length the nearer to [x] is taken,
    the even one when they are as near. *)
Fixpoint shortest (fuel : nat) (x : float) (num den n k : Z) : Z * Z :=
  let q := n - k in
  let lo := scaled_floor num den q in
  let ok_lo := reads_back x lo q in
  let ok_hi := reads_back x (lo + 1) q in
  let pick_hi := if lo + 1 =? 10 ^ k then (10 ^ (k - 1), n + 1) else (lo + 1, n) in
  match fuel with
  | O => (lo, n)
  | S fuel' =>
      if ok_lo && ok_hi then
        match nearer num den lo q with
        | Lt => (lo, n)
        | Gt => pick_hi
        | Eq => if Z.even lo then (lo, n) else pick_hi
        end
      else if ok_lo then (lo, n)
      else if ok_hi then pick_hi
      else shortest fuel' x num den n (k + 1)
  end.

Fixpoint zeros (n : nat) : string :=
  match n with
  | O => ""
  | S n' => String "0" (zeros n')
  end.

(** Number::toString on a positive finite number. *)
Definition text_of_positive (x : float) (num den : Z) : string :=
  let '(s, n) := shortest 17 x num den (decimal_exponent num den) 1 in
  let digits := string_of_Z s in
  let k := Z.of_nat (String.length digits) in
  if (k <=? n) && (n <=? 21) then digits +:+ zeros (Z.to_nat (n - k))
  else if (0 <? n) && (n <=? 21) then
    String.substring 0 (Z.to_nat n) digits +:+ "."
    +:+ String.substring (Z.to_nat n) (Z.to_nat (k - n)) digits
  else if (-6 <? n) && (n <=? 0) then "0." +:+ zeros (Z.to_nat (- n)) +:+ digits
  else
    let e := n - 1 in
    let exponent := (if e <? 0 then "e-" else "e+") +:+ string_of_Z (Z.abs e) in
    if k =? 1 then digits +:+ exponent
    else String.substring 0 1 digits +:+ "."
         +:+ String.substring 1 (Z.to_nat (k - 1)) digits +:+ exponent.

(** ToString on a number. *)
Definition text_of_number (x : float) : string :=
  match Prim2SF x with
  | S754_nan => "NaN"
  | S754_zero _ => "0"
  | S754_infinity s => if s then "-Infinity" else "Infinity"
  | S754_finite s m e =>
      let '(num, den) := if 0 <=? e then (Z.pos m * 2 ^ e, 1) else (Z.pos m, 2 ^ (- e)) in
      (if s then "-" else "") +:+ text_of_positive (PrimFloat.abs x) num den
  end.

Definition utc : Runtime := {|
  Date_parse := iso_parse;
  LocalTZA := fun _ => 0;
  parseFloat_string := parseFloat_text;
  StringToNumber := number_of_text;
  Number_toString := text_of_number
|}.

(** A clock that gives the same instant at every reading. *)
Definition frozen (now : string) : nat -> string := fun _ => now.

End Host.

(** ** Words of the specification *)
Module Spec.
Import Js Analytics.

(** The day an order is filed under: the date part of its creation
    timestamp; an order without one is filed nowhere. *)
Definition date_of (order : object) : option string :=
  match get order "createdAt" with
  | VStr s => if String.eqb s "" then None else Some (split_T s)
  | _ => None
  end.

(** The week an order is filed under. *)
Definition week_of (rt : Runtime) (order : object) : option string :=
  match get order "createdAt" with
  | VStr s => if String.eqb s "" then None else Some (getWeekNumber rt (Date_parse rt s))
  | _ => None
  end.

Definition filed_under (key_of : object -> option string) (key : string)
    (order : object) : bool :=
  match key_of order with
  | Some k => String.eqb k key
  | None => false
  end.

(** The members of a bucket: the orders of the ledger filed under its key,
    in ledger order. *)
Definition members_of (key_of : object -> option string) (key : string)
    (orders : list object) : list object :=
  List.filter (filed_under key_of key) orders.

(** [s] is a bucket of the result [a] and [members] are its members. *)
Definition bucket (rt : Runtime) (orders : list object) (a : Analytics)
    (s : Sale) (members : list object) : Prop :=
  (In s (dailySales a) /\ members = members_of date_of (period s) orders)
  \/ (In s (weeklySales a) /\ members = members_of (week_of rt) (period s) orders).

(** The shop of an order, as a property name. *)
Definition shop_of (rt : Runtime) (order : object) : string :=
  ToString rt (get order "shopName").

(** An order the engine can file: its creation timestamp is missing,
    empty or a text, and neither the date part nor the shop is named like
    a member of [Object.prototype]. *)
Definition order_ok (rt : Runtime) (order : object) : bool :=
  match get order "createdAt" with
  | VStr s =>
      String.eqb s ""
      || (negb (inherited (split_T s)) && negb (inherited (shop_of rt order)))
  | v => negb (truthy v)
  end.

Definition ledger_ok (rt : Runtime) (orders : list object) : bool :=
  forallb (order_ok rt) orders.



(** The payment method of an order as the breakdown reads it. *)
Definition method_of (order : object) : value :=
  js_or (get order "paymentMethod") (VStr "Not Set").

(** Whether an order adds its amount to the key [k] of the breakdown. *)
Definition pays_into (rt : Runtime) (k : string) (order : object) : bool :=
  if is_str "Bank Transfer" (method_of order) then String.eqb k "Bank"
  else String.eqb (ToString rt (method_of order)) k.

Definition breakdown_keys : list string := ["Balance"; "Cash"; "Card"; "Bank"].

(** Amounts added one after the other, from 0. *)
Definition sum_amounts (rt : Runtime) (members : list object) : float :=
  fold_left (fun sum order => (sum + amount rt order)%float) members 0%float.



(** A report without the day it was made. *)
Definition undated (r : Report) : Report :=
  {| report_id := report_id r;
     report_type := report_type r;
     report_date := "";
     report_totalRevenue := report_totalRevenue r;
     report_totalOrders := report_totalOrders r;
     report_averageOrderValue := report_averageOrderValue r;
     report_topShop := report_topShop r;
     report_paymentBreakdown := report_paymentBreakdown r |}.

(** A notification without its timestamp. *)
Definition unstamped (n : Notification) : Notification :=
  {| notification_id := notification_id n;
     notification_type := notification_type n;
     message := message n;
     timestamp := VUndef;
     read := read n |}.

End Spec.

(** ** Sample ledgers *)
Module Samples.
Import Js Analytics.

Definition order_of (properties : list (string * value)) : object :=
  list_to_map properties.

Definition clock : nat -> string := Host.frozen "2024-03-01T09:30:00.000Z".

(** Two shops with the same revenue on the same day. *)
Definition tied_A : object :=
  order_of [ ("id", VNum 1%float); ("shopName", VStr "A");
             ("totalAmount", VNum 50%float); ("status", VStr "Pending");
             ("paymentMethod", VStr "Cash");
             ("createdAt", VStr "2024-01-02T10:00:00.000Z") ].

Definition tied_B : object :=
  order_of [ ("id", VNum 2%float); ("shopName", VStr "B");
             ("totalAmount", VNum 50%float); ("status", VStr "Delivered");
             ("paymentMethod", VStr "Bank");
             ("createdAt", VStr "2024-01-02T11:00:00.000Z");
             ("deliveredAt", VStr "2024-01-02T15:00:00.000Z") ].

Definition tied : list object := [tied_A; tied_B].

(** Two orders of one shop on one day, paid in cash and by bank transfer. *)
Definition cash_50 : object :=
  order_of [ ("id", VNum 1%float); ("shopName", VStr "A");
             ("totalAmount", VNum 50%float); ("status", VStr "Pending");
             ("paymentMethod", VStr "Cash");
             ("createdAt", VStr "2024-01-02T10:00:00.000Z") ].

Definition transfer_30 : object :=
  order_of [ ("id", VNum 2%float); ("shopName", VStr "A");
             ("totalAmount", VNum 30%float); ("status", VStr "In Process");
             ("paymentMethod", VStr "Bank Transfer");
             ("createdAt", VStr "2024-01-02T12:00:00.000Z") ].

Definition two_payments : list object := [cash_50; transfer_30].

Definition no_analytics : Analytics :=
  {| dailySales := []; weeklySales := []; predictions := [];
     reports := []; notifications := [] |}.

(** What the engine returns on a ledger, for the reference host. *)
Definition result_of (orders : list object) : Analytics :=
  match recalculateAnalytics Host.utc clock orders with
  | Returns a => a
  | _ => no_analytics
  end.

Definition tied_result : Analytics := Eval vm_compute in result_of tied.
Definition two_payments_result : Analytics := Eval vm_compute in result_of two_payments.

Definition first_sale (sales : list Sale) : Sale :=
  match sales with
  | s :: _ => s
  | [] => {| id := 0; period := ""; totalRevenue := 0; totalOrders := 0;
             deliveredOrders := 0; pendingOrders := 0; inProcessOrders := 0;
             averageOrderValue := 0; topShop := ""; topShopRevenue := 0;
             paymentBreakdown := ∅ |}
  end.

(** One order of 1 and forty-eight orders of nothing. *)
Definition one_of_49 : list object :=
  order_of [ ("shopName", VStr "A"); ("totalAmount", VNum 1%float) ]
  :: repeat (order_of [ ("shopName", VStr "A"); ("totalAmount", VNum 0%float) ]) 48.

(** The ledger of the specification's first scenario: one delivered order
    of 100.00 for shop A with no payment method. *)
Definition single_delivered : list object :=
  [ order_of [ ("id", VNum 1%float); ("shopName", VStr "A");
               ("totalAmount", VStr "100.00"); ("status", VStr "Delivered");
               ("createdAt", VStr "2024-01-02T10:00:00Z") ] ].

(** An order delivered on 2 January, with a note. *)
Definition delivered_order : object :=
  order_of [ ("id", VNum 7%float); ("shopName", VStr "A");
             ("totalAmount", VNum 20%float); ("status", VStr "Delivered");
             ("paymentMethod", VStr "Cash");
             ("createdAt", VStr "2024-01-02T10:00:00.000Z");
             ("deliveredAt", VStr "2024-01-02T15:00:00.000Z");
             ("deliveryNotes", VStr "left at the door") ].

Definition status_only : object := order_of [ ("status", VStr "Delivered") ].





Definition body_with_id : object :=
  order_of [ ("id", VNum 99%float); ("shopName", VStr "A");
             ("totalAmount", VNum 20%float); ("basketNo", VNum 99%float);
             ("status", VStr "Delivered") ].

End Samples.

(** ** Auxiliaries of the proofs *)
Module Aux.
Import Js Analytics Spec.

(** The value of a row of decimal digits read after [acc]. *)
Fixpoint uint_val (d : Decimal.uint) (acc : Z) : Z :=
  match d with
  | Decimal.Nil => acc
  | Decimal.D0 l => uint_val l (acc * 10 + 0)
  | Decimal.D1 l => uint_val l (acc * 10 + 1)
  | Decimal.D2 l => uint_val l (acc * 10 + 2)
  | Decimal.D3 l => uint_val l (acc * 10 + 3)
  | Decimal.D4 l => uint_val l (acc * 10 + 4)
  | Decimal.D5 l => uint_val l (acc * 10 + 5)
  | Decimal.D6 l => uint_val l (acc * 10 + 6)
  | Decimal.D7 l => uint_val l (acc * 10 + 7)
  | Decimal.D8 l => uint_val l (acc * 10 + 8)
  | Decimal.D9 l => uint_val l (acc * 10 + 9)
  end%Z.

Definition nonnil (d : Decimal.uint) : bool :=
  match d with Decimal.Nil => false | _ => true end.

Fixpoint all_digits (s : string) : bool :=
  match s with
  | EmptyString => true
  | String c r => match digit_of c with Some _ => all_digits r | None => false end
  end.

(** The decimal value of a row of digits, read after [acc]. *)
Fixpoint digits_value (s : string) (acc : Z) : Z :=
  match s with
  | EmptyString => acc
  | String c r => digits_value r (acc * 10 + default 0%Z (digit_of c))
  end.

(** A dictionary that files [orders] by [key_of]: each key with a member
    is a property holding its members in ledger order, and there is no
    other property. *)
Definition files (key_of : object -> option string) (orders : list object)
    (byKey : dict (list object)) : Prop :=
  forall k, own_get k byKey
            = match members_of key_of k orders with
              | [] => None
              | members => Some members
              end.

Fixpoint has_W (s : string) : bool :=
  match s with
  | EmptyString => false
  | String c r => Ascii.eqb c "W" || has_W r
  end.


Definition shop_fold (rt : Runtime) (members : list object) (acc : outcome (dict float))
    : outcome (dict float) :=
  fold_left (fun acc order => sr ← acc; shop_step rt sr order) members acc.

End Aux.

(** ** More words about the ledger and its buckets *)
Module Filing.
Import Js Analytics Spec.

(** [order.createdAt] is truthy: the test of the grouping loop (164). *)
Definition dated (order : object) : bool := truthy (get order "createdAt").

(** The keys of a list, each at the place of its first appearance. *)
Fixpoint first_seen (keys : list string) : list string :=
  match keys with
  | [] => []
  | k :: r => k :: List.filter (fun k' => negb (String.eqb k k')) (first_seen r)
  end.

(** The days and the weeks the orders of a ledger are filed under, in
    ledger order. *)
Definition dates_of (orders : list object) : list string := omap date_of orders.

Definition weeks_of (rt : Runtime) (orders : list object) : list string :=
  omap (week_of rt) orders.

(** The daily and weekly entries and the prediction of a call, leaving
    out the report and the notification. *)
Definition sales_part (r : outcome Analytics)
    : outcome (list Sale * list Sale * list Prediction) :=
  a ← r; Returns (dailySales a, weeklySales a, predictions a).

Definition sum_nat (l : list nat) : nat := fold_right Nat.add 0%nat l.

End Filing.

(** ** The deletion of an order (src/index.js, 625-664) *)
Module OrderDeletion.
Import Js Analytics OrdersApi.

(** What the handler answers: [{ message: 'Order deleted' }], 404, or 500
    with the message of the error. *)
Inductive deletion : Type :=
| Deleted
| NoSuchOrder
| DeletionError (e : string).

(** [DELETE /api/orders/:id]: [orders.splice(orderIndex, 1)], then the
    recalculation on the ledger that is left; when it throws, the order is
    gone and the derived collections are the ones of before. *)
Definition delete_order (rt : Runtime) (clock : nat -> string) (st : State)
    (param_id : string) : outcome (State * deletion) :=
  match findIndex (id_is (parseInt param_id)) (orders st) with
  | None => Returns (st, NoSuchOrder)
  | Some orderIndex =>
      let orders' := delete orderIndex (orders st) in
      match recalculateAnalytics rt clock orders' with
      | Returns a => Returns ({| orders := orders'; derived := a |}, Deleted)
      | Throws e => Returns ({| orders := orders'; derived := derived st |}, DeletionError e)
      | OutsideModel => OutsideModel
      end
  end.

End OrderDeletion.

(** ** Weeks as ISO 8601 counts them *)
Module IsoWeek.
Import Js.
Local Open Scope Z_scope.

(** The Thursday of the Monday-to-Sunday week of a day, both as day
    numbers; day 0, 1 January 1970, is a Thursday. *)
Definition thursday_of (day : Z) : Z := 7 * ((day + 3) / 7).

(** The year a week belongs to is the year of its Thursday; week 1 is the
    week of the year's first Thursday. *)
Definition iso_year (day : Z) : Z := (civil_of_days (thursday_of day)).1.1.

Definition iso_week (day : Z) : Z :=
  (thursday_of day - days_of_civil (iso_year day) 0) / 7 + 1.

Definition iso_key (day : Z) : string :=
  string_of_Z (iso_year day) ++ "-W" ++ string_of_Z (iso_week day).

(** The local days on which [getWeekNumber] is followed here: from
    March 1600 to the last days a Date can hold. *)
Definition in_range (day : Z) : Prop := -135000 <= day <= 99999000.

End IsoWeek.

(** ** More sample ledgers *)
Module MoreSamples.
Import Js Analytics OrdersApi Samples.

(** Orders entered out of calendar order: 5 January, then 2 January, then
    5 January again. *)
Definition on_5_January : object :=
  order_of [ ("id", VNum 1%float); ("shopName", VStr "A");
             ("totalAmount", VNum 10%float); ("status", VStr "Pending");
             ("createdAt", VStr "2024-01-05T10:00:00.000Z") ].

Definition on_2_January : object :=
  order_of [ ("id", VNum 2%float); ("shopName", VStr "B");
             ("totalAmount", VNum 20%float); ("status", VStr "Pending");
             ("createdAt", VStr "2024-01-02T10:00:00.000Z") ].

Definition again_on_5_January : object :=
  order_of [ ("id", VNum 3%float); ("shopName", VStr "A");
             ("totalAmount", VNum 40%float); ("status", VStr "Pending");
             ("createdAt", VStr "2024-01-05T18:00:00.000Z") ].

Definition out_of_order : list object :=
  [on_5_January; on_2_January; again_on_5_January].

Definition out_of_order_result : Analytics := Eval vm_compute in result_of out_of_order.

(** An order whose amount is not a number, after one of 50. *)
Definition amount_unreadable : object :=
  order_of [ ("id", VNum 2%float); ("shopName", VStr "A");
             ("totalAmount", VStr "n/a"); ("status", VStr "Pending");
             ("createdAt", VStr "2024-01-02T12:00:00.000Z") ].

Definition spoiled : list object := [cash_50; amount_unreadable].

Definition spoiled_result : Analytics := Eval vm_compute in result_of spoiled.

(** A process that holds one delivered order, number 7. *)
Definition one_delivered : State :=
  Eval vm_compute in
    {| orders := [delivered_order]; derived := result_of [delivered_order] |}.

(** A request body that brings no id. *)
Definition plain_body : object :=
  order_of [ ("shopName", VStr "B"); ("totalAmount", VNum 12%float) ].

(** An order the engine cannot file: its creation timestamp is a number. *)
Definition unfilable : object :=
  order_of [ ("id", VNum 3%float); ("shopName", VStr "A");
             ("createdAt", VNum 1704189600000%float) ].

Definition holds_unfilable : State :=
  {| orders := [unfilable]; derived := no_analytics |}.

(** What a handler gives at a sample request. *)
Definition returned {A} (r : outcome A) (otherwise : A) : A :=
  match r with
  | Returns a => a
  | _ => otherwise
  end.

Definition answered_order (r : response) : object :=
  match r with
  | Created o | Ok o => o
  | _ => ∅
  end.

(** The creation from [plain_body] in the process that holds order 7. *)
Definition created_from_plain_body : State * response :=
  Eval vm_compute in
    returned (post_order Host.utc clock one_delivered plain_body) (one_delivered, NotFound).

Definition created_order : object :=
  Eval vm_compute in answered_order created_from_plain_body.2.

(** The same creation in the process that holds the unfilable order. *)
Definition creation_failed : State * response :=
  Eval vm_compute in
    returned (post_order Host.utc clock holds_unfilable plain_body)
             (holds_unfilable, NotFound).

(** The update of order 7 by the body that is just the status Delivered. *)
Definition updated_by_status_only : State * response :=
  Eval vm_compute in
    returned (put_order Host.utc clock one_delivered "7" status_only)
             (one_delivered, NotFound).

Definition updated_order : object :=
  Eval vm_compute in answered_order updated_by_status_only.2.

(** The deletion of order 7. *)
Definition after_deletion : State * OrderDeletion.deletion :=
  Eval vm_compute in
    returned (OrderDeletion.delete_order Host.utc clock one_delivered "7")
             (one_delivered, OrderDeletion.NoSuchOrder).

End MoreSamples.

(** ** The customers (src/index.js, 829-905) *)
Module CustomersApi.
Import Js Analytics OrdersApi.

(** What the listing takes from the host besides [parseInt]: the case
    mapping and the collation of strings.  [localeCompare] gives a
    negative number, zero or a positive number. *)
Record Locale : Type := {
  toLowerCase : string -> string;
  localeCompare : string -> string -> Z
}.

(** The query of [GET /api/customers]: each parameter is absent or a
    text. *)
Record Query : Type := {
  page : option string;
  limit : option string;
  sortBy : option string;
  sortOrder : option string
}.

(** The answer as [res.json] prints it: a number that is NaN or infinite
    is printed [null], here [None]. *)
Record CustomersPage : Type := {
  page_customers : list object;
  currentPage : option Z;
  totalPages : option Z;
  totalCustomers : nat;
  customersPerPage : option Z;
  hasNextPage : bool;
  hasPrevPage : bool
}.

Section WithLocale.

Variable loc : Locale.

(** [(a.shopName || '').toLowerCase()]: a truthy name that is not a text
    has no [toLowerCase]. *)
Definition lower_name (customer : object) : option string :=
  match js_or (get customer "shopName") (VStr "") with
  | VStr s => Some (toLowerCase loc s)
  | _ => None
  end.

(** The comparator of the sort (836-845), on the lowered names. *)
Definition compare_names (descending : bool) (a b : string) : Z :=
  if descending then localeCompare loc b a else localeCompare loc a b.

(** [Array.prototype.sort] is stable; with a comparator that orders the
    elements consistently its result is the one of sorting by insertion,
    each element going before the first that does not come before it. *)
Fixpoint insert_by {A} (cmp : A -> A -> Z) (x : A) (l : list A) : list A :=
  match l with
  | [] => [x]
  | y :: r => if (cmp x y <=? 0)%Z then x :: y :: r else y :: insert_by cmp x r
  end.

Definition sort_by {A} (cmp : A -> A -> Z) (l : list A) : list A :=
  fold_right (insert_by cmp) [] l.

(** [sortedCustomers] (833-846).  The comparator is called as soon as
    there are two customers, on each of them. *)
Definition sorted_customers (q : Query) (customers : list object)
    : outcome (list object) :=
  if String.eqb (default "shopName" (sortBy q)) "shopName" then
    match customers with
    | [] | [_] => Returns customers
    | _ =>
        match mapM (fun c => name ← lower_name c; Some (name, c)) customers with
        | Some named =>
            let descending := String.eqb (default "asc" (sortOrder q)) "desc" in
            Returns (map snd (sort_by (fun a b => compare_names descending a.1 b.1) named))
        | None => Throws "TypeError: toLowerCase is not a function"
        end
    end
  else Returns customers.

(** The numbers of the pagination are followed where the arithmetic on
    them is exact: up to 2^26 in absolute value. *)
Definition exact (n : option Z) : bool :=
  match n with
  | Some z => (Z.abs z <=? 67108864)%Z
  | None => true
  end.

(** ToIntegerOrInfinity of an index, then its place from the start. *)
Definition relative_index (len : Z) (i : option Z) : Z :=
  match i with
  | None => 0
  | Some z => if (z <? 0)%Z then Z.max (len + z) 0 else Z.min z len
  end.

(** [l.slice(start, end)] *)
Definition slice {A} (l : list A) (start finish : option Z) : list A :=
  let len := Z.of_nat (length l) in
  let from := relative_index len start in
  let to := relative_index len finish in
  take (Z.to_nat (to - from)) (drop (Z.to_nat from) l).

(** [Math.ceil(len / limitNum)] as it is printed. *)
Definition ceil_quotient (len : Z) (limitNum : option Z) : option Z :=
  match limitNum with
  | Some l => if (l =? 0)%Z then None else Some (- ((- len) / l))%Z
  | None => None
  end.

(** [a < b] and [a > b] on numbers one of which may be NaN. *)
Definition lt_num (a b : option Z) : bool :=
  match a, b with
  | Some x, Some y => (x <? y)%Z
  | _, _ => false
  end.

(** [parseInt(page)] and [parseInt(limit)], with the defaults 1 and 10 of
    the destructuring. *)
Definition pageNum (q : Query) : option Z :=
  match page q with Some s => parseInt s | None => Some 1%Z end.

Definition limitNum (q : Query) : option Z :=
  match limit q with Some s => parseInt s | None => Some 10%Z end.

Definition startIndex (q : Query) : option Z :=
  p ← pageNum q; l ← limitNum q; Some ((p - 1) * l)%Z.

Definition endIndex (q : Query) : option Z :=
  s ← startIndex q; l ← limitNum q; Some (s + l)%Z.

(** [GET /api/customers] *)
Definition get_customers (q : Query) (customers : list object) : outcome CustomersPage :=
  sorted ← sorted_customers q customers;
  if exact (pageNum q) && exact (limitNum q) then
    let len := Z.of_nat (length sorted) in
    Returns {|
      page_customers := slice sorted (startIndex q) (endIndex q);
      currentPage := pageNum q;
      totalPages := ceil_quotient len (limitNum q);
      totalCustomers := length sorted;
      customersPerPage := limitNum q;
      hasNextPage := lt_num (endIndex q) (Some len);
      hasPrevPage := lt_num (Some 1%Z) (pageNum q)
    |}
  else OutsideModel.

End WithLocale.

(** [POST /api/customers]: the customers after the creation and the
    customer sent back.  A length is below 2^32, so adding 1 is exact. *)
Definition post_customer (customers : list object) (body : object)
    : list object * object :=
  let newCustomer := body ∪ {["id" := VNum (float_of_Z (Z.of_nat (length customers) + 1))]} in
  (customers ++ [newCustomer], newCustomer).

(** [PUT /api/customers/:id]: [None] is the answer 404. *)
Definition put_customer (customers : list object) (param_id : string) (body : object)
    : option (list object * object) :=
  customerIndex ← findIndex (id_is (parseInt param_id)) customers;
  customer ← customers !! customerIndex;
  let updated := body ∪ customer in
  Some (<[customerIndex := updated]> customers, updated).

(** [DELETE /api/customers/:id]: [None] is the answer 404. *)
Definition delete_customer (customers : list object) (param_id : string)
    : option (list object) :=
  customerIndex ← findIndex (id_is (parseInt param_id)) customers;
  Some (delete customerIndex customers).

(** The same query for another page. *)
Definition on_page (q : Query) (p : Z) : Query :=
  {| page := Some (string_of_Z p); limit := limit q;
     sortBy := sortBy q; sortOrder := sortOrder q |}.

(** The customers a page shows, nothing when the listing fails. *)
Definition shown (loc : Locale) (q : Query) (customers : list object) : list object :=
  match get_customers loc q customers with
  | Returns r => page_customers r
  | _ => []
  end.

(** The pages from 1 to [n]. *)
Definition pages (n : nat) : list Z := map Z.of_nat (seq 1 n).

End CustomersApi.

(** ** Sample customers *)
Module CustomerSamples.
Import Js Analytics OrdersApi CustomersApi Samples.

(** A host that lowers the 26 letters of ASCII and compares texts byte by
    byte. *)
Definition lower_ascii (c : ascii) : ascii :=
  let n := nat_of_ascii c in
  if (65 <=? n)%nat && (n <=? 90)%nat then ascii_of_nat (n + 32) else c.

Fixpoint lower_text (s : string) : string :=
  match s with
  | EmptyString => EmptyString
  | String c r => String (lower_ascii c) (lower_text r)
  end.

Definition by_bytes : Locale :=
  {| toLowerCase := lower_text;
     localeCompare := fun a b => match String.compare a b with
                                 | Lt => (-1)%Z
                                 | Eq => 0%Z
                                 | Gt => 1%Z
                                 end |}.

Definition named (shop : string) : object := order_of [ ("shopName", VStr shop) ].

(** Three customers created one after the other: ids 1, 2 and 3. *)
Definition three_customers : list object :=
  Eval vm_compute in
    (post_customer (post_customer (post_customer [] (named "Pear")).1 (named "apple")).1
                   (named "Fig")).1.

Definition customer_1 : object := Eval vm_compute in default ∅ (three_customers !! 0%nat).
Definition customer_2 : object := Eval vm_compute in default ∅ (three_customers !! 1%nat).
Definition customer_3 : object := Eval vm_compute in default ∅ (three_customers !! 2%nat).

Definition two_per_page : Query :=
  {| page := Some "1"; limit := Some "2"; sortBy := None; sortOrder := None |}.

Definition sorted_three : list object := [customer_2; customer_3; customer_1].

Definition page_abc : Query :=
  {| page := Some "abc"; limit := None; sortBy := None; sortOrder := None |}.

Definition page_abc_answer : CustomersPage :=
  Eval vm_compute in
    match get_customers by_bytes page_abc three_customers with
    | Returns r => r
    | _ => {| page_customers := three_customers; currentPage := Some 1%Z;
              totalPages := None; totalCustomers := 0; customersPerPage := None;
              hasNextPage := true; hasPrevPage := true |}
    end.

End CustomerSamples.

(** ** The endpoints that read the stored data (src/index.js, 1090-1149,
       1228-1285, 1288-1308, 1376-1386, 1492-1502, 1683-1801)

    These handlers call [loadData()], or
    [forceRecalculateAndSaveAnalytics()], and use what the call gives
    without [await].  Both are [async function]s: a call gives a promise
    at once, and a promise has no property named after a collection. *)
Module StoredApi.
Import Js Analytics OrdersApi.

(** What is stored: the seven collections, as [loadData] resolves them. *)
Record Data : Type := {
  d_orders : list object;
  d_customers : list object;
  d_dailySales : list object;
  d_weeklySales : list object;
  d_predictions : list object;
  d_reports : list object;
  d_notifications : list object
}.

(** The value of an expression that calls [loadData]: the promise itself
    where the call stands alone, the data where it is awaited. *)
Inductive loaded : Type :=
| Promise (resolves_to : Data)
| Awaited (data : Data).

(** [data.k] for a collection [k]: [None] is [undefined]. *)
Definition property (k : Data -> list object) (data : loaded) : option (list object) :=
  match data with
  | Promise _ => None
  | Awaited d => Some (k d)
  end.

(** [data.k || []] *)
Definition collection (k : Data -> list object) (data : loaded) : list object :=
  default [] (property k data).

(** The object handed to [saveData]: the collections it has. *)
Record Saved : Type := {
  s_orders : option (list object);
  s_customers : option (list object);
  s_dailySales : option (list object);
  s_weeklySales : option (list object);
  s_predictions : option (list object);
  s_reports : option (list object);
  s_notifications : option (list object)
}.

(** [{ ...data }]: the own enumerable properties; a promise has none. *)
Definition spread (data : loaded) : Saved :=
  match data with
  | Promise _ =>
      {| s_orders := None; s_customers := None; s_dailySales := None;
         s_weeklySales := None; s_predictions := None; s_reports := None;
         s_notifications := None |}
  | Awaited d =>
      {| s_orders := Some (d_orders d); s_customers := Some (d_customers d);
         s_dailySales := Some (d_dailySales d); s_weeklySales := Some (d_weeklySales d);
         s_predictions := Some (d_predictions d); s_reports := Some (d_reports d);
         s_notifications := Some (d_notifications d) |}
  end.

Definition with_dailySales (s : Saved) (l : list object) : Saved :=
  {| s_orders := s_orders s; s_customers := s_customers s; s_dailySales := Some l;
     s_weeklySales := s_weeklySales s; s_predictions := s_predictions s;
     s_reports := s_reports s; s_notifications := s_notifications s |}.

Definition with_weeklySales (s : Saved) (l : list object) : Saved :=
  {| s_orders := s_orders s; s_customers := s_customers s; s_dailySales := s_dailySales s;
     s_weeklySales := Some l; s_predictions := s_predictions s;
     s_reports := s_reports s; s_notifications := s_notifications s |}.

Definition with_notifications (s : Saved) (l : list object) : Saved :=
  {| s_orders := s_orders s; s_customers := s_customers s; s_dailySales := s_dailySales s;
     s_weeklySales := s_weeklySales s; s_predictions := s_predictions s;
     s_reports := s_reports s; s_notifications := Some l |}.

(** What a handler sends: the status and the body. *)
Inductive reply : Type :=
| Entries (status : Z) (entries : list object)
| Entry (status : Z) (entry : object)
| Message (status : Z) (message : string)
| Sent (status : Z) (notification : object)
| Recalculated (status : Z) (dailySales weeklySales totalOrders : nat) (totalRevenue : float).

(** The answer and, when the handler calls [saveData], its argument. *)
Definition outcome_of : Type := reply * option Saved.

Section Handlers.

(** What is stored when the request arrives. *)
Variable stored : Data.

(** [GET /api/daily-sales], [/api/weekly-sales], [/api/predictions],
    [/api/reports] and [/api/notifications] (1090-1099, 1140-1149,
    1376-1386, 1492-1502, 1683-1692). *)
Definition get_collection (k : Data -> list object) : outcome_of :=
  let data := Promise stored in
  (Entries 200 (collection k data), None).

(** [sales.find(sale => sale[key] === param)] *)
Definition find_by (key param : string) (sales : list object) : option object :=
  List.find (fun sale => is_str param (get sale key)) sales.

(** [GET /api/daily-sales/:date] (1101-1117). *)
Definition get_daily_sale (date : string) : outcome_of :=
  let data := Promise stored in
  match find_by "date" date (collection d_dailySales data) with
  | Some dailySale => (Entry 200 dailySale, None)
  | None => (Message 404 "Daily sale not found", None)
  end.

(** [GET /api/weekly-sales/:week] (1228-1244). *)
Definition get_weekly_sale (week : string) : outcome_of :=
  let data := Promise stored in
  match find_by "week" week (collection d_weeklySales data) with
  | Some weeklySale => (Entry 200 weeklySale, None)
  | None => (Message 404 "Weekly sale not found", None)
  end.

(** [{ id: sales.length + 1, ...req.body, createdAt: new Date().toISOString() }] *)
Definition new_sale (now : string) (sales : list object) (body : object) : object :=
  <["createdAt" := VStr now]>
    (body ∪ {["id" := VNum (float_of_Z (Z.of_nat (length sales) + 1))]}).

(** [POST /api/daily-sales] (1119-1137). *)
Definition post_daily_sale (now : string) (body : object) : outcome_of :=
  let data := Promise stored in
  let dailySales := collection d_dailySales data in
  let newDailySale := new_sale now dailySales body in
  (Entry 201 newDailySale,
   Some (with_dailySales (spread data) (dailySales ++ [newDailySale]))).

(** [POST /api/weekly-sales] (1246-1264). *)
Definition post_weekly_sale (now : string) (body : object) : outcome_of :=
  let data := Promise stored in
  let weeklySales := collection d_weeklySales data in
  let newWeeklySale := new_sale now weeklySales body in
  (Entry 201 newWeeklySale,
   Some (with_weeklySales (spread data) (weeklySales ++ [newWeeklySale]))).

(** [POST /api/recalculate-analytics] (1267-1285).  The call of
    [forceRecalculateAndSaveAnalytics] gives a promise too; [updated] is
    the data it resolves to later.  Reading [length] in a property that is
    [undefined] throws, and the handler answers 500. *)
Definition post_recalculate_analytics (rt : Runtime) (updated : Data) : outcome_of :=
  let updatedData := Promise updated in
  match property d_dailySales updatedData, property d_weeklySales updatedData,
        property d_orders updatedData with
  | Some dailySales, Some weeklySales, Some orders =>
      (Recalculated 200 (length dailySales) (length weeklySales) (length orders)
         (fold_left (fun sum order => (sum + amount rt order)%float) orders 0%float),
       None)
  | _, _, _ => (Message 500 "Error recalculating analytics", None)
  end.

(** [POST /api/calculate-daily-sales/:date] (1787-1801) and
    [POST /api/calculate-weekly-sales/:week] (1288-1308), up to the answer
    404: the orders are read in what [loadData()] gives, the ones of the
    day (of the week) are selected, and an empty selection is answered
    404.  [selects] is the callback of the filter, which can throw, and
    [summary] what the handler goes on to do with a selection that is not
    empty; the handler answers 500 when something throws. *)
Fixpoint select (selects : object -> outcome bool) (orders : list object)
    : outcome (list object) :=
  match orders with
  | [] => Returns []
  | order :: rest =>
      keep ← selects order;
      selected ← select selects rest;
      Returns (if keep : bool then order :: selected else selected)
  end.

Definition calculate_sales (not_found failed : string)
    (selects : object -> outcome bool) (summary : list object -> outcome outcome_of)
    : outcome_of :=
  let data := Promise stored in
  let orders := collection d_orders data in
  match select selects orders with
  | Returns [] => (Message 404 not_found, None)
  | Returns selected =>
      match summary selected with
      | Returns answer => answer
      | _ => (Message 500 failed, None)
      end
  | _ => (Message 500 failed, None)
  end.

Definition calculate_daily_sales :=
  calculate_sales "No orders found for this date" "Error calculating daily sales".

Definition calculate_weekly_sales :=
  calculate_sales "No orders found for this week" "Error calculating weekly sales".

(** [POST /api/notifications] (1694-1713): [now_ms] is [Date.now()]. *)
Definition post_notification (now_ms : Z) (now : string) (body : object) : outcome_of :=
  let data := Promise stored in
  let notifications := collection d_notifications data in
  let newNotification :=
    <["read" := VBool false]>
      (<["timestamp" := VStr now]> (body ∪ {["id" := VNum (float_of_Z now_ms)]})) in
  (Entry 201 newNotification,
   Some (with_notifications (spread data) (newNotification :: notifications))).

(** [PUT /api/notifications/:id] (1715-1734). *)
Definition put_notification (param_id : string) (body : object) : outcome_of :=
  let data := Promise stored in
  let notifications := collection d_notifications data in
  match findIndex (id_is (parseInt param_id)) notifications with
  | None => (Message 404 "Notification not found", None)
  | Some notificationIndex =>
      match notifications !! notificationIndex with
      | None => (Message 404 "Notification not found", None)
      | Some n =>
          (Entry 200 (body ∪ n),
           Some (with_notifications (spread data)
                   (<[notificationIndex := body ∪ n]> notifications)))
      end
  end.

(** [DELETE /api/notifications/:id] (1736-1750). *)
Definition delete_notification (param_id : string) : outcome_of :=
  let data := Promise stored in
  let notifications := collection d_notifications data in
  let filteredNotifications :=
    List.filter (fun n => negb (id_is (parseInt param_id) n)) notifications in
  (Message 200 "Notification deleted successfully",
   Some (with_notifications (spread data) filteredNotifications)).

(** [POST /api/notifications/send] (1753-1784). *)
Definition send_notification (now_ms : Z) (now : string) (body : object) : outcome_of :=
  let notification : object :=
    <["sent" := VBool true]>
    (<["timestamp" := VStr now]>
    (<["priority" := js_or (get body "priority") (VStr "medium")]>
    (<["type" := js_or (get body "type") (VStr "info")]>
    (<["body" := get body "body"]>
    (<["title" := get body "title"]>
    (<["id" := VNum (float_of_Z now_ms)]> ∅)))))) in
  let data := Promise stored in
  let notifications := collection d_notifications data in
  (Sent 200 notification,
   Some (with_notifications (spread data) (notification :: notifications))).

End Handlers.

(** What [saveData] is handed when only one collection is known. *)
Definition only_dailySales (l : list object) : Saved :=
  {| s_orders := None; s_customers := None; s_dailySales := Some l;
     s_weeklySales := None; s_predictions := None; s_reports := None;
     s_notifications := None |}.

Definition only_weeklySales (l : list object) : Saved :=
  {| s_orders := None; s_customers := None; s_dailySales := None;
     s_weeklySales := Some l; s_predictions := None; s_reports := None;
     s_notifications := None |}.

Definition only_notifications (l : list object) : Saved :=
  {| s_orders := None; s_customers := None; s_dailySales := None;
     s_weeklySales := None; s_predictions := None; s_reports := None;
     s_notifications := Some l |}.

End StoredApi.

(** ** The predictions (src/index.js, 1388-1489) *)
Module Predictions.
Import Js Analytics OrdersApi CustomersApi.

(** [values.reduce((sum, val) => sum + val, 0)] *)
Definition sum_values (values : list float) : float :=
  fold_left (fun sum val => (sum + val)%float) values 0%float.

(** [a.length] as a number. *)
Definition length_num {A} (l : list A) : float := float_of_Z (Z.of_nat (length l)).

(** [l.slice(start)]: the end is the length. *)
Definition slice_from {A} (l : list A) (start : Z) : list A :=
  slice l (Some start) (Some (Z.of_nat (length l))).

(** calculateTrend (1440-1450). *)
Definition calculateTrend (values : list float) : float :=
  if (length values <? 2)%nat then 1%float
  else
    let recent := slice_from values (-10) in
    let older := slice values (Some (-20)%Z) (Some (-10)%Z) in
    let recentAvg := (sum_values recent / length_num recent)%float in
    let olderAvg := (sum_values older / length_num older)%float in
    if num_gt olderAvg 0%float then (recentAvg / olderAvg)%float else 1%float.

(** What calculateAdvancedPredictions takes from the host: [Math.round],
    [Math.floor], the number [Math.random()] gives, [toFixed(1)], and the
    clock: [Date_now i] is what [Date.now()] gives in step [i] of the
    loop, which calls it once per step. *)
Record Host : Type := {
  Math_round : float -> float;
  Math_floor : float -> float;
  Math_random : float;
  Date_now : nat -> Z;
  toFixed1 : float -> string
}.

(** [s.padStart(n, '0')] *)
Fixpoint zeros (n : nat) : string :=
  match n with
  | O => EmptyString
  | S k => String "0" (zeros k)
  end.

Definition pad_zeros (n : nat) (s : string) : string :=
  zeros (n - String.length s) +:+ s.

(** The date part of [new Date(t).toISOString()] for a time value in the
    range of Date: years from 0 to 9999 have four digits, the others a
    sign and six. *)
Definition iso_date (t : Z) : string :=
  let '(y, m, d) := civil_of_days (Day t) in
  let year :=
    if (0 <=? y)%Z && (y <=? 9999)%Z then pad_zeros 4 (string_of_Z y)
    else (if (y <? 0)%Z then "-" else "+") +:+ pad_zeros 6 (string_of_Z (Z.abs y)) in
  year +:+ "-" +:+ pad_zeros 2 (string_of_Z (m + 1)) +:+ "-" +:+ pad_zeros 2 (string_of_Z d).

Record Predicted : Type := {
  predicted_date : string;
  predicted_value : float;
  predicted_confidence : float
}.

Inductive trend : Type := stable | up | down.

(** What the function returns; [growthRate] is absent from the object
    returned for fewer than two values, here [None]. *)
Record Forecast : Type := {
  forecast_predictions : list Predicted;
  accuracy : float;
  forecast_trend : trend;
  growthRate : option string
}.

Section WithHost.

Variable rt : Runtime.
Variable host : Host.

(** [timeframe === '7days' ? 7 : timeframe === '30days' ? 30 : 90]; the
    time frame is any value of the request body. *)
Definition days_of (timeframe : value) : nat :=
  if is_str "7days" timeframe then 7
  else if is_str "30days" timeframe then 30
  else 90.

(** [x.reduce((sum, xi, i) => sum + xi * values[i], 0)] for [x] the
    indices from [i] on. *)
Fixpoint sum_products (i : Z) (values : list float) (sum : float) : float :=
  match values with
  | [] => sum
  | v :: rest => sum_products (i + 1) rest (sum + float_of_Z i * v)%float
  end.

(** The sum of [f i] over the indices from [i] on, one per value. *)
Fixpoint sum_indices {A} (f : Z -> float) (i : Z) (values : list A) (sum : float) : float :=
  match values with
  | [] => sum
  | _ :: rest => sum_indices f (i + 1) rest (sum + f i)%float
  end.

(** The time value of the date of step [i]:
    [Date.now() + i * 24 * 60 * 60 * 1000], read anew in every step. *)
Definition time_of_step (i : nat) : Z :=
  Date_now host i + Z.of_nat i * 24 * 60 * 60 * 1000.

(** The body of the loop (1474-1481) at step [i]; [toISOString] throws on
    a time value beyond the range of Date.  [0x1.3333333333333p-1] and
    [0x1.eb851eb851eb8p-7] are the numbers the literals [0.6] and [0.015]
    denote. *)
Definition predicted (n : nat) (slope intercept : float) (i : nat) : outcome Predicted :=
  let predictedValue :=
    (slope * (float_of_Z (Z.of_nat n) + float_of_Z (Z.of_nat i)) + intercept)%float in
  match TimeClip (time_of_step i) with
  | Some t =>
      Returns
        {| predicted_date := iso_date t;
           predicted_value :=
             Math_max2 0%float (Math_round host (predictedValue * 100) / 100)%float;
           predicted_confidence :=
             Math_max2 0x1.3333333333333p-1%float
                       (1 - float_of_Z (Z.of_nat i) * 0x1.eb851eb851eb8p-7)%float |}
  | None => Throws "RangeError: Invalid time value"
  end.

(** calculateAdvancedPredictions (1452-1489) on the items of
    [historicalData]. *)
Definition calculateAdvancedPredictions (historicalData : list object) (timeframe : value)
    : outcome Forecast :=
  let values :=
    map (fun item => parseFloat rt (js_or (get item "value") (VNum 0%float))) historicalData in
  let n := length values in
  if (n <? 2)%nat then
    Returns {| forecast_predictions := []; accuracy := 0%float; forecast_trend := stable;
               growthRate := None |}
  else
    let nf := float_of_Z (Z.of_nat n) in
    let sumX := sum_indices float_of_Z 0 values 0%float in
    let sumY := sum_values values in
    let sumXY := sum_products 0 values 0%float in
    let sumX2 := sum_indices (fun i => (float_of_Z i * float_of_Z i)%float) 0 values 0%float in
    let slope := ((nf * sumXY - sumX * sumY) / (nf * sumX2 - sumX * sumX))%float in
    let intercept := ((sumY - slope * sumX) / nf)%float in
    predictions ← mapM (predicted n slope intercept) (seq 0 (days_of timeframe));
    Returns {| forecast_predictions := predictions;
               accuracy := (Math_floor host (Math_random host * 10) + 90)%float;
               forecast_trend := if num_gt slope 0%float then up else down;
               growthRate := Some (toFixed1 host (slope * 100)%float) |}.

End WithHost.

End Predictions.

(** ** A reference host for the predictions, and sample histories *)
Module PredictionSamples.
Import Js Analytics OrdersApi Predictions Samples.
Local Open Scope Z_scope.

(** A finite number as a fraction: numerator and denominator (a power of
    two). *)
Definition fraction_of (x : float) : option (Z * Z) :=
  match Prim2SF x with
  | S754_zero _ => Some (0, 1)
  | S754_finite s m e =>
      let n := if s then Z.neg m else Z.pos m in
      if 0 <=? e then Some (n * 2 ^ e, 1) else Some (n, 2 ^ (- e))
  | _ => None
  end.

(** [Math.floor] *)
Definition floor (x : float) : float :=
  match fraction_of x with
  | Some (n, d) => if d =? 1 then x else float_of_Z (n / d)
  | None => x
  end.

(** [Math.round]: the nearest integer, a half going up; what rounds to
    zero keeps the sign. *)
Definition round (x : float) : float :=
  match fraction_of x with
  | Some (n, d) =>
      if d =? 1 then x
      else
        let r := (2 * n + d) / (2 * d) in
        if r =? 0 then (if n <? 0 then (-0)%float else 0%float) else float_of_Z r
  | None => x
  end.

(** [x.toFixed(1)]: the tenths nearest to [x], a half going up in
    absolute value; from 10^21 on, and for what is not finite, the text of
    the number. *)
Definition fixed1 (x : float) : string :=
  match fraction_of x with
  | Some (n, d) =>
      if 1000000000000000000000 * d <=? Z.abs n then Host.text_of_number x
      else
        let tenths := (20 * Z.abs n + d) / (2 * d) in
        let sign : string := if n <? 0 then "-" else "" in
        sign +:+ string_of_Z (tenths / 10) +:+ "." +:+ string_of_Z (tenths mod 10)
  | None => Host.text_of_number x
  end.

(** The host at 9:30 on 1 March 2024, with 0.5 as its random number; a
    step of the loop takes a millisecond. *)
Definition at_9_30 : Host :=
  {| Math_round := round;
     Math_floor := floor;
     Math_random := 0.5%float;
     Date_now := fun i => 1709285400000 + Z.of_nat i;
     toFixed1 := fixed1 |}.

(** The same host a millisecond before midnight. *)
Definition before_midnight : Host :=
  {| Math_round := round;
     Math_floor := floor;
     Math_random := 0.5%float;
     Date_now := fun i => 1709337599999 + Z.of_nat i;
     toFixed1 := fixed1 |}.

Definition valued (x : float) : object := order_of [ ("value", VNum x) ].

(** A history that grows by 10 a day. *)
Definition growing : list object := [valued 10; valued 20; valued 30].

Definition no_forecast : Forecast :=
  {| forecast_predictions := []; accuracy := 0; forecast_trend := stable;
     growthRate := None |}.

Definition growing_forecast : Forecast :=
  Eval vm_compute in
    match calculateAdvancedPredictions Host.utc at_9_30 growing (VStr "7days") with
    | Returns forecast => forecast
    | _ => no_forecast
    end.

Definition midnight_forecast : Forecast :=
  Eval vm_compute in
    match calculateAdvancedPredictions Host.utc before_midnight growing (VStr "7days") with
    | Returns forecast => forecast
    | _ => no_forecast
    end.

End PredictionSamples.

(** ** The analytics endpoint (src/index.js, 1152-1226) *)
Module AnalyticsApi.
Import Js Analytics OrdersApi CustomersApi.

(** An entry of [topShops]: [{ shop, ...stats }]. *)
Record ShopStats : Type := {
  shop : string;
  count : nat;
  revenue : float
}.

(** The object the endpoint sends. *)
Record Dashboard : Type := {
  totalOrders : nat;
  pendingOrders : nat;
  inProcessOrders : nat;
  deliveredOrders : nat;
  cancelledOrders : nat;
  totalRevenue : float;
  averageOrderValue : float;
  topShops : list ShopStats;
  todaysOrders : nat;
  dailySales : list Sale;
  weeklySales : list Sale;
  predictions : list Prediction;
  reports : list Report
}.

Inductive answer : Type :=
| Sent (analytics : Dashboard)
| Failed (message : string).

Section WithRuntime.

Variable rt : Runtime.

(** The callback of the reduce (1170-1178): a shop named like a member of
    [Object.prototype] is not given an entry, and the counter is then
    written into that member. *)
Definition count_shop (acc : dict (nat * float)) (order : object)
    : outcome (dict (nat * float)) :=
  let shopName := ToString rt (get order "shopName") in
  match own_get shopName acc with
  | Some (n, r) => Returns (own_set shopName (S n, (r + amount rt order)%float) acc)
  | None =>
      if inherited shopName then OutsideModel
      else Returns (own_set shopName (1%nat, (0 + amount rt order)%float) acc)
  end.

Definition shopStats (orders : list object) : outcome (dict (nat * float)) :=
  fold_left (fun acc order => stats ← acc; count_shop stats order) orders (Returns []).

(** [Object.entries(shopStats).map(([shop, stats]) => ({ shop, ...stats }))] *)
Definition entries (stats : dict (nat * float)) : list ShopStats :=
  omap (fun k => match own_get k stats with
                 | Some (n, r) => Some {| shop := k; count := n; revenue := r |}
                 | None => None
                 end)
       (Object_keys stats).

(** The sign of [b.revenue - a.revenue], for revenues that are numbers. *)
Definition by_revenue (a b : ShopStats) : Z :=
  if PrimFloat.ltb (revenue a) (revenue b) then 1%Z
  else if PrimFloat.ltb (revenue b) (revenue a) then (-1)%Z
  else 0%Z.

(** [.sort((a, b) => b.revenue - a.revenue).slice(0, 5)]: with a revenue
    that is NaN the comparator orders nothing consistently, and the order
    is the engine's own. *)
Definition top_five (stats : list ShopStats) : outcome (list ShopStats) :=
  if existsb (fun s => PrimFloat.is_nan (revenue s)) stats then OutsideModel
  else Returns (take 5 (sort_by by_revenue stats)).

(** How many times the recalculation reads the clock: for the report, and
    for the notification of a last order delivered without a delivery
    time. *)
Definition clock_readings (orders : list object) : nat :=
  match last orders with
  | Some latestOrder =>
      if is_str "Delivered" (get latestOrder "status")
         && negb (truthy (get latestOrder "deliveredAt"))
      then 2%nat else 1%nat
  | None => 1%nat
  end.

(** The callback of the filter (1190-1194), with the number of readings of
    the clock so far: whether the order is of today, and the readings
    after it. *)
Definition of_today (clock : nat -> string) (today : string) (order : object) (k : nat)
    : outcome (bool * nat) :=
  let createdAt := get order "createdAt" in
  if truthy createdAt then
    match createdAt with
    | VStr s => Returns (String.eqb (split_T s) today, k)
    | _ => Throws "TypeError: order.createdAt.split is not a function"
    end
  else Returns (String.eqb (split_T (clock k)) today, S k).

Fixpoint count_today (clock : nat -> string) (today : string) (orders : list object)
    (k : nat) : outcome nat :=
  match orders with
  | [] => Returns 0%nat
  | order :: rest =>
      '(is_today, k') ← of_today clock today order k;
      n ← count_today clock today rest k';
      Returns (if is_today : bool then S n else n)
  end.

(** What the handler computes between [try] and [res.json]. *)
Definition analytics_of (clock : nat -> string) (orders : list object) : outcome Dashboard :=
  a ← recalculateAnalytics rt clock orders;
  let totalRevenue :=
    fold_left (fun sum order => (sum + amount rt order)%float) orders 0%float in
  let totalOrders := length orders in
  stats ← shopStats orders;
  topShops ← top_five (entries stats);
  let k := clock_readings orders in
  let today := split_T (clock k) in
  todaysOrders ← count_today clock today orders (S k);
  Returns {|
    totalOrders := totalOrders;
    pendingOrders := count_status "Pending" orders;
    inProcessOrders := count_status "In Process" orders;
    deliveredOrders := count_status "Delivered" orders;
    cancelledOrders := count_status "Cancelled" orders;
    totalRevenue := totalRevenue;
    averageOrderValue :=
      if (0 <? totalOrders)%nat
      then (totalRevenue / float_of_Z (Z.of_nat totalOrders))%float else 0%float;
    topShops := topShops;
    todaysOrders := todaysOrders;
    dailySales := Analytics.dailySales a;
    weeklySales := Analytics.weeklySales a;
    predictions := Analytics.predictions a;
    reports := Analytics.reports a
  |}.

(** [GET /api/analytics]: what throws is answered 500. *)
Definition get_analytics (clock : nat -> string) (orders : list object) : outcome answer :=
  match analytics_of clock orders with
  | Returns analytics => Returns (Sent analytics)
  | Throws _ => Returns (Failed "Error calculating analytics")
  | OutsideModel => OutsideModel
  end.

End WithRuntime.

(** An order that counts as of today: it is of the day, or it has no
    creation time. *)
Definition counted_today (today : string) (order : object) : bool :=
  match get order "createdAt" with
  | VStr s => String.eqb s "" || String.eqb (split_T s) today
  | _ => true
  end.

(** Each entry has a revenue that is not below the revenue of the next. *)
Fixpoint descending (l : list ShopStats) : Prop :=
  match l with
  | a :: (b :: _) as rest => PrimFloat.ltb (revenue a) (revenue b) = false /\ descending rest
  | _ => True
  end.

(** The orders of a shop. *)
Definition orders_of_shop (rt : Runtime) (name : string) (orders : list object)
    : list object :=
  List.filter (fun order => String.eqb (ToString rt (get order "shopName")) name) orders.

End AnalyticsApi.

(** ** A sample ledger for the analytics endpoint *)
Module DashboardSamples.
Import Js Analytics OrdersApi Samples MoreSamples AnalyticsApi.

(** An order of the day of the sample clock, 1 March 2024. *)
Definition on_1_March : object :=
  order_of [ ("id", VNum 4%float); ("shopName", VStr "C");
             ("totalAmount", VNum 5%float); ("status", VStr "Cancelled");
             ("createdAt", VStr "2024-03-01T08:00:00.000Z") ].

(** An order without a creation time. *)
Definition undated_order : object :=
  order_of [ ("id", VNum 5%float); ("shopName", VStr "A");
             ("totalAmount", VNum 7%float); ("status", VStr "Pending") ].

Definition mixed : list object := [on_2_January; undated_order; on_1_March].

Definition mixed_dashboard : Dashboard :=
  Eval vm_compute in
    match analytics_of Host.utc clock mixed with
    | Returns d => d
    | _ => {| totalOrders := 0; pendingOrders := 0; inProcessOrders := 0;
              deliveredOrders := 0; cancelledOrders := 0; totalRevenue := 0;
              averageOrderValue := 0; topShops := []; todaysOrders := 0;
              dailySales := []; weeklySales := []; predictions := []; reports := [] |}
    end.

End DashboardSamples.

(** ** The listing of the orders (src/index.js, 414-511) *)
Module OrdersListing.
Import Js Analytics OrdersApi CustomersApi.

(** The query of [GET /api/orders]: each parameter is absent or a text. *)
Record Filters : Type := {
  search : option string;
  status : option string;
  paymentMethod : option string;
  minAmount : option string;
  maxAmount : option string;
  startDate : option string;
  endDate : option string;
  shopName : option string;
  customerName : option string;
  customerPhone : option string
}.

(** A parameter that passes [if (p)]: a text that is not empty. *)
Definition given (p : option string) : option string :=
  match p with
  | Some s => if String.eqb s "" then None else Some s
  | None => None
  end.

(** [s.includes(sub)] *)
Fixpoint includes (s sub : string) : bool :=
  String.prefix sub s
  || match s with
     | EmptyString => false
     | String _ r => includes r sub
     end.

(** [a || b] in the callback of a filter, of which only the truth counts:
    [b] is evaluated when [a] is falsy. *)
Definition or_else (a b : outcome bool) : outcome bool :=
  x ← a; if x : bool then Returns true else b.

(** [a >= b] and [a <= b] on dates: the time values are compared, and a
    date that is invalid is neither before nor after another. *)
Definition ge_time (a b : option Z) : bool :=
  match a, b with
  | Some x, Some y => (y <=? x)%Z
  | _, _ => false
  end.

(** ToIntegerOrInfinity of a number that is finite, then TimeClip. *)
Definition time_of_number (x : float) : option Z :=
  match Prim2SF x with
  | S754_zero _ => Some 0%Z
  | S754_finite s m e =>
      let a := if (0 <=? e)%Z then (Z.pos m * 2 ^ e)%Z else (Z.pos m / 2 ^ (- e))%Z in
      TimeClip (if s then (- a)%Z else a)
  | _ => None
  end.

Section WithHost.

Variable loc : Locale.
Variable rt : Runtime.

(** [v?.toLowerCase().includes(needle)]: [undefined] when [v] is
    [undefined] or [null]; a number and a boolean have no [toLowerCase]. *)
Definition lowered_includes (v : value) (needle : string) : outcome bool :=
  match v with
  | VUndef | VNull => Returns false
  | VStr s => Returns (includes (toLowerCase loc s) needle)
  | _ => Throws "TypeError: toLowerCase is not a function"
  end.

(** [v?.includes(needle)] *)
Definition text_includes (v : value) (needle : string) : outcome bool :=
  match v with
  | VUndef | VNull => Returns false
  | VStr s => Returns (includes s needle)
  | _ => Throws "TypeError: includes is not a function"
  end.

(** [v?.toString().includes(needle)] *)
Definition printed_includes (v : value) (needle : string) : outcome bool :=
  match v with
  | VUndef | VNull => Returns false
  | _ => Returns (includes (ToString rt v) needle)
  end.

(** The callback of the search (431-440). *)
Definition matches_search (search : string) (order : object) : outcome bool :=
  let searchLower := toLowerCase loc search in
  or_else (lowered_includes (get order "shopName") searchLower)
  (or_else (lowered_includes (get order "customerName") searchLower)
  (or_else (text_includes (get order "customerPhone") search)
  (or_else (lowered_includes (get order "customerAddress") searchLower)
  (or_else (lowered_includes (get order "customerPostcode") searchLower)
  (or_else (printed_includes (get order "basketNo") search)
  (or_else (printed_includes (get order "id") search)
           (lowered_includes (get order "deliveryNo") searchLower))))))).

(** [l.filter(p)] for a callback that can throw. *)
Fixpoint filter_orders (p : object -> outcome bool) (l : list object)
    : outcome (list object) :=
  match l with
  | [] => Returns []
  | order :: rest =>
      keep ← p order;
      kept ← filter_orders p rest;
      Returns (if keep : bool then order :: kept else kept)
  end.

(** The callback of the amount filter (454-465), for the bounds that are
    given. *)
Definition in_amounts (lo hi : option string) (order : object) : bool :=
  let amount := parseFloat rt (get order "totalAmount") in
  match lo, hi with
  | Some minAmount, Some maxAmount =>
      PrimFloat.leb (parseFloat_string rt minAmount) amount
      && PrimFloat.leb amount (parseFloat_string rt maxAmount)
  | Some minAmount, None => PrimFloat.leb (parseFloat_string rt minAmount) amount
  | None, Some maxAmount => PrimFloat.leb amount (parseFloat_string rt maxAmount)
  | None, None => true
  end.

(** [new Date(v)] for a scalar that is truthy. *)
Definition time_of (v : value) : option Z :=
  match v with
  | VStr s => Date_parse rt s
  | VNum x => time_of_number x
  | VBool true => Some 1%Z
  | _ => None
  end.

(** [new Date(order.deliveredAt || order.createdAt || new Date())]: the
    time value, and the readings of the clock after it; [now k] is the time
    value of reading [k]. *)
Definition orderDate (now : nat -> Z) (order : object) (k : nat) : option Z * nat :=
  if truthy (get order "deliveredAt") then (time_of (get order "deliveredAt"), k)
  else if truthy (get order "createdAt") then (time_of (get order "createdAt"), k)
  else (Some (now k), S k).

(** The callback of the date filter (470-484), for the bounds that are
    given. *)
Definition in_dates (lo hi : option string) (date : option Z) : bool :=
  match lo, hi with
  | Some startDate, Some endDate =>
      ge_time date (Date_parse rt startDate) && ge_time (Date_parse rt endDate) date
  | Some startDate, None => ge_time date (Date_parse rt startDate)
  | None, Some endDate => ge_time (Date_parse rt endDate) date
  | None, None => true
  end.

Fixpoint filter_dates (now : nat -> Z) (lo hi : option string) (l : list object) (k : nat)
    : list object :=
  match l with
  | [] => []
  | order :: rest =>
      let '(date, k') := orderDate now order k in
      if in_dates lo hi date then order :: filter_dates now lo hi rest k'
      else filter_dates now lo hi rest k'
  end.

(** The eight steps of the handler, each on what the one before leaves. *)
Definition by_search (q : Filters) (l : list object) : outcome (list object) :=
  match given (search q) with
  | Some s => filter_orders (matches_search s) l
  | None => Returns l
  end.

Definition by_status (q : Filters) (l : list object) : list object :=
  match given (status q) with
  | Some s => List.filter (fun order => is_str s (get order "status")) l
  | None => l
  end.

Definition by_paymentMethod (q : Filters) (l : list object) : list object :=
  match given (paymentMethod q) with
  | Some s => List.filter (fun order => is_str s (get order "paymentMethod")) l
  | None => l
  end.

Definition by_amount (q : Filters) (l : list object) : list object :=
  match given (minAmount q), given (maxAmount q) with
  | None, None => l
  | lo, hi => List.filter (in_amounts lo hi) l
  end.

Definition by_date (now : nat -> Z) (q : Filters) (l : list object) : list object :=
  match given (startDate q), given (endDate q) with
  | None, None => l
  | lo, hi => filter_dates now lo hi l 0
  end.

Definition by_text (param : option string) (key : string) (l : list object)
    : outcome (list object) :=
  match given param with
  | Some s =>
      filter_orders (fun order => lowered_includes (get order key) (toLowerCase loc s)) l
  | None => Returns l
  end.

Definition by_customerPhone (q : Filters) (l : list object) : outcome (list object) :=
  match given (customerPhone q) with
  | Some s => filter_orders (fun order => text_includes (get order "customerPhone") s) l
  | None => Returns l
  end.

(** [GET /api/orders]: the orders sent; what throws in a callback is not
    caught by the handler. *)
Definition get_orders (now : nat -> Z) (q : Filters) (orders : list object)
    : outcome (list object) :=
  found ← by_search q orders;
  let of_period := by_date now q (by_amount q (by_paymentMethod q (by_status q found))) in
  of_shop ← by_text (shopName q) "shopName" of_period;
  of_customer ← by_text (customerName q) "customerName" of_shop;
  by_customerPhone q of_customer.

End WithHost.

(** The query without a parameter. *)
Definition no_filter : Filters :=
  {| search := None; status := None; paymentMethod := None; minAmount := None;
     maxAmount := None; startDate := None; endDate := None; shopName := None;
     customerName := None; customerPhone := None |}.

End OrdersListing.

(** ** The orders as they are loaded from the data file (src/index.js,
       122-129) *)
Module Loading.
Import Js Analytics.

(** The callback of the [forEach]: an order without a creation time takes
    its delivery time, or else the time of the clock; [k] counts the
    readings of the clock. *)
Definition add_createdAt (clock : nat -> string) (order : object) (k : nat)
    : object * nat * bool :=
  if truthy (get order "createdAt") then (order, k, false)
  else if truthy (get order "deliveredAt")
  then (<["createdAt" := get order "deliveredAt"]> order, k, true)
  else (<["createdAt" := VStr (clock k)]> order, S k, true).

(** The loop, with [updated] as it stands: the orders after it, the
    readings of the clock, and [updated]. *)
Fixpoint stamp_orders (clock : nat -> string) (orders : list object) (k : nat)
    (updated : bool) : list object * nat * bool :=
  match orders with
  | [] => ([], k, updated)
  | order :: rest =>
      let '(order', k', u) := add_createdAt clock order k in
      let '(rest', k'', updated') := stamp_orders clock rest k' (updated || u) in
      (order' :: rest', k'', updated')
  end.

(** The orders [loadData] returns for the orders of the file, and whether
    it saves them. *)
Definition loaded_orders (clock : nat -> string) (orders : list object) : list object :=
  (stamp_orders clock orders 0 false).1.1.

Definition saves (clock : nat -> string) (orders : list object) : bool :=
  (stamp_orders clock orders 0 false).2.

End Loading.

(** ** Sample requests for the listing, and a sample data file *)
Module ListingSamples.
Import Js Analytics OrdersApi CustomersApi OrdersListing Loading Samples MoreSamples
  CustomerSamples DashboardSamples.

(** The clock of the samples as time values: 1 March 2024, 9:30 UTC. *)
Definition now : nat -> Z := fun _ => 1709285400000%Z.

Definition pending_from_15 : Filters :=
  {| search := None; status := Some "Pending"; paymentMethod := Some "";
     minAmount := Some "15"; maxAmount := None; startDate := None; endDate := None;
     shopName := None; customerName := None; customerPhone := None |}.

Definition up_to_abc : Filters :=
  {| search := None; status := None; paymentMethod := None;
     minAmount := None; maxAmount := Some "abc"; startDate := None; endDate := None;
     shopName := None; customerName := None; customerPhone := None |}.

(** An order whose shop name is a number, and a search. *)
Definition numbered_shop : object :=
  order_of [ ("id", VNum 9%float); ("shopName", VNum 7%float);
             ("totalAmount", VNum 3%float); ("status", VStr "Pending") ].

Definition searching_a : Filters :=
  {| search := Some "a"; status := None; paymentMethod := None;
     minAmount := None; maxAmount := None; startDate := None; endDate := None;
     shopName := None; customerName := None; customerPhone := None |}.

(** A delivered order that has no creation time. *)
Definition delivered_undated : object :=
  order_of [ ("id", VNum 6%float); ("shopName", VStr "B");
             ("totalAmount", VNum 9%float); ("status", VStr "Delivered");
             ("deliveredAt", VStr "2024-02-10T16:00:00.000Z") ].

Definition file_orders : list object := [on_2_January; undated_order; delivered_undated].

Definition file_orders_loaded : list object :=
  Eval vm_compute in loaded_orders clock file_orders.

Definition file_orders_result : Analytics :=
  Eval vm_compute in result_of file_orders_loaded.

End ListingSamples.
(** * Properties *)

(** ** Numbers *)
Module JsFacts.
Import Js Aux.

(** Comparing in the other direction gives the opposite answer. *)
Lemma SFcompare_swap (x y : spec_float) :
  SFcompare y x = CompOpp <$> SFcompare x y.
Proof.
  destruct x as [sx| sx | |sx mx ex], y as [sy|sy| |sy my ey]; simpl;
    try reflexivity;
    try (destruct sx; reflexivity);
    try (destruct sy; reflexivity);
    try (destruct sx, sy; reflexivity).
  destruct sx, sy; simpl; try reflexivity;
    rewrite (Z.compare_antisym ex ey);
    destruct (ex ?= ey)%Z eqn:E; simpl; try reflexivity;
    rewrite !Pos.compare_cont_spec; simpl;
    rewrite (Pos.compare_antisym mx my);
    destruct (mx ?= my)%positive; reflexivity.
Qed.


Lemma num_gt_irrefl (x : float) : num_gt x x = false.
Proof.
  unfold num_gt. rewrite FloatAxioms.ltb_spec. unfold SFltb.
  pose proof (SFcompare_swap (Prim2SF x) (Prim2SF x)) as H.
  destruct (SFcompare (Prim2SF x) (Prim2SF x)) as [[]|]; try reflexivity.
  discriminate H.
Qed.


(** [b < a] rules out [b > a]. *)
Lemma num_gt_asym (a b : float) : num_gt a b = true -> num_gt b a = false.
Proof.
  unfold num_gt. rewrite !FloatAxioms.ltb_spec. unfold SFltb.
  rewrite (SFcompare_swap (Prim2SF b) (Prim2SF a)).
  destruct (SFcompare (Prim2SF b) (Prim2SF a)) as [[]|]; simpl; congruence.
Qed.


(** ** Printing and reading integers *)

Ltac eval_digit :=
  match goal with
  | |- context [digit_of ?c] =>
      let v := eval vm_compute in (digit_of c) in
      change (digit_of c) with v; cbv iota
  end.

Lemma read_printed_digits (d : Decimal.uint) (rest : string) (acc : Z) (seen : bool) :
  read_digits digit_of 10 (NilEmpty.string_of_uint d +:+ rest) acc seen
  = read_digits digit_of 10 rest (uint_val d acc) (seen || nonnil d).
Proof.
  revert acc seen.
  induction d; intros acc seen; cbn [NilEmpty.string_of_uint uint_val nonnil];
    [ now rewrite orb_false_r | .. ];
    change (String.append (String ?c ?s) rest) with (String c (String.append s rest));
    cbn [read_digits]; eval_digit; rewrite IHd, orb_true_r; reflexivity.
Qed.

Lemma uint_val_acc (d : Decimal.uint) (acc : positive) :
  uint_val d (Z.pos acc) = Z.pos (Pos.of_uint_acc d acc).
Proof.
  revert acc. induction d; intros acc; cbn [uint_val Pos.of_uint_acc];
    [ reflexivity | .. ];
    rewrite <- IHd; f_equal; lia.
Qed.

Lemma uint_val_of_uint (d : Decimal.uint) : uint_val d 0 = Z.of_N (Pos.of_uint d).
Proof.
  induction d; cbn [uint_val Pos.of_uint]; [ reflexivity | exact IHd | .. ];
    cbn; apply (uint_val_acc d).
Qed.

Lemma uint_val_to_uint (p : positive) : uint_val (Pos.to_uint p) 0 = Z.pos p.
Proof. now rewrite uint_val_of_uint, DecimalPos.Unsigned.of_to. Qed.

Lemma to_uint_nonnil (p : positive) : nonnil (Pos.to_uint p) = true.
Proof.
  destruct (Pos.to_uint p) eqn:E; try reflexivity.
  pose proof (uint_val_to_uint p) as H. rewrite E in H. discriminate H.
Qed.

(** Reading what [string_of_Z] printed, whatever follows a hyphen. *)
Lemma parseInt_printed (y : Z) (w : string) :
  parseInt (string_of_Z y +:+ "-" +:+ w) = Some y.
Proof.
  assert (P : forall p, read_unsigned (NilEmpty.string_of_uint (Pos.to_uint p) +:+ "-" +:+ w)
                        = Some (Z.pos p)).
  { intros p. pose proof (to_uint_nonnil p) as N.
    pose proof (uint_val_to_uint p) as V.
    pose proof (read_printed_digits (Pos.to_uint p) ("-" +:+ w) 0 false) as R.
    rewrite V, N in R.
    transitivity (read_digits digit_of 10
                    (NilEmpty.string_of_uint (Pos.to_uint p) +:+ "-" +:+ w) 0 false).
    - destruct (Pos.to_uint p) as [|l|l|l|l|l|l|l|l|l|l];
        try discriminate N; try reflexivity.
      destruct l; reflexivity.
    - rewrite R. reflexivity. }
  assert (Q : forall p, NilZero.string_of_uint (Pos.to_uint p)
                        = NilEmpty.string_of_uint (Pos.to_uint p)).
  { intros p. pose proof (to_uint_nonnil p) as N.
    destruct (Pos.to_uint p); try discriminate N; reflexivity. }
  unfold string_of_Z. destruct y as [|p|p]; cbn [Z.to_int NilZero.string_of_int].
  - reflexivity.
  - rewrite Q. specialize (P p). pose proof (to_uint_nonnil p) as N.
    destruct (Pos.to_uint p) as [|l|l|l|l|l|l|l|l|l|l]; try discriminate N; exact P.
  - rewrite Q. change (String.append (String "-" ?s) ?r) with (String "-" (String.append s r)).
    change (Z.opp <$> read_unsigned
              (NilEmpty.string_of_uint (Pos.to_uint p) +:+ "-" +:+ w) = Some (Z.neg p)).
    rewrite P. reflexivity.
Qed.

Lemma remove_first_W_printed (y : Z) (w : string) :
  remove_first_W (string_of_Z y +:+ "-W" +:+ w) = string_of_Z y +:+ "-" +:+ w.
Proof.
  assert (P : forall d r, remove_first_W (NilEmpty.string_of_uint d +:+ r)
                          = NilEmpty.string_of_uint d +:+ remove_first_W r).
  { induction d; intros r; cbn [NilEmpty.string_of_uint]; [ reflexivity | .. ];
      change (String.append (String ?c ?s) r) with (String c (String.append s r));
      cbn; now rewrite IHd. }
  assert (Q : forall d r, remove_first_W (NilZero.string_of_uint d +:+ r)
                          = NilZero.string_of_uint d +:+ remove_first_W r).
  { intros d r. destruct d; try apply P. reflexivity. }
  unfold string_of_Z. destruct (Z.to_int y); cbn [NilZero.string_of_int].
  - now rewrite Q.
  - change (String.append (String "-" ?s) ?r) with (String "-" (String.append s r)).
    cbn. now rewrite Q.
Qed.

(** ** Rows of digits *)

Lemma digit_not_dash (c : ascii) (d : Z) : digit_of c = Some d -> Ascii.eqb c "-" = false.
Proof.
  destruct (Ascii.eqb_spec c "-") as [->|]; [discriminate | reflexivity].
Qed.

Lemma remove_dashes_digits (s r : string) :
  all_digits s = true -> remove_dashes (s +:+ r) = s +:+ remove_dashes r.
Proof.
  induction s as [|c s IH]; intros H; [reflexivity|].
  cbn in H. destruct (digit_of c) eqn:E; [|discriminate].
  change (String c s +:+ r) with (String c (s +:+ r)).
  cbn [remove_dashes]. rewrite (digit_not_dash _ _ E), (IH H). reflexivity.
Qed.

Lemma remove_dashes_all_digits (s : string) :
  all_digits s = true -> remove_dashes s = s.
Proof.
  induction s as [|c s IH]; intros H; [reflexivity|].
  cbn in H. destruct (digit_of c) eqn:E; [|discriminate].
  cbn [remove_dashes]. rewrite (digit_not_dash _ _ E), (IH H). reflexivity.
Qed.

Lemma read_digits_all (s : string) (acc : Z) (seen : bool) :
  all_digits s = true ->
  read_digits digit_of 10 s acc seen
  = if seen || negb (String.eqb s "") then Some (digits_value s acc) else None.
Proof.
  revert acc seen. induction s as [|c s IH]; intros acc seen H.
  - cbn. now destruct seen.
  - cbn in H. cbn [read_digits digits_value].
    destruct (digit_of c) eqn:E; [|discriminate].
    rewrite (IH _ _ H). cbn. now rewrite orb_true_r.
Qed.

Lemma digit_chars (c : ascii) (d : Z) :
  digit_of c = Some d ->
  Ascii.eqb c "-" = false /\ Ascii.eqb c "+" = false
  /\ Ascii.eqb c "x" = false /\ Ascii.eqb c "X" = false.
Proof.
  intros H.
  destruct (Ascii.eqb_spec c "-") as [->|]; [discriminate|].
  destruct (Ascii.eqb_spec c "+") as [->|]; [discriminate|].
  destruct (Ascii.eqb_spec c "x") as [->|]; [discriminate|].
  destruct (Ascii.eqb_spec c "X") as [->|]; [discriminate|].
  repeat split.
Qed.

(** No white space starts with a digit. *)
Lemma skip_spaces_digit (c : ascii) (d : Z) (r : string) :
  digit_of c = Some d -> skip_spaces (String c r) = String c r.
Proof.
  destruct c as [[] [] [] [] [] [] [] []]; intros H;
    vm_compute in H; try discriminate H; reflexivity.
Qed.

(** [parseInt] on a row of digits. *)
Lemma parseInt_digits (s : string) :
  all_digits s = true -> s <> EmptyString -> parseInt s = Some (digits_value s 0).
Proof.
  intros H N. destruct s as [|c s]; [congruence|].
  pose proof H as H'. cbn in H'. destruct (digit_of c) as [d|] eqn:E; [|discriminate].
  destruct (digit_chars _ _ E) as (S2 & S3 & _).
  assert (R : read_unsigned (String c s) = Some (digits_value (String c s) 0)).
  { transitivity (read_digits digit_of 10 (String c s) 0 false).
    - unfold read_unsigned.
      destruct (Ascii.eqb_spec c "0") as [->|NE].
      + destruct s as [|x s']; [reflexivity|].
        cbn in H'. destruct (digit_of x) eqn:F; [|discriminate].
        destruct (digit_chars _ _ F) as (_ & _ & X1 & X2).
        now rewrite X1, X2.
      + destruct c as [[] [] [] [] [] [] [] []]; try reflexivity; congruence.
    - now rewrite read_digits_all. }
  unfold parseInt. rewrite (skip_spaces_digit _ _ _ E).
  destruct c as [[] [] [] [] [] [] [] []]; try exact R; discriminate.
Qed.

Lemma all_digits_app (a b : string) :
  all_digits a = true -> all_digits b = true -> all_digits (a +:+ b) = true.
Proof.
  induction a as [|c a IH]; intros Ha Hb; [exact Hb|].
  change (String c a +:+ b) with (String c (a +:+ b)).
  cbn [all_digits] in *. destruct (digit_of c); [auto | discriminate].
Qed.

(** ** NaN *)

Lemma SFcompare_refl (x : spec_float) :
  x <> S754_nan -> SFcompare x x = Some Eq.
Proof.
  destruct x as [s|s| |s m e]; cbn; try congruence; intros _;
    destruct s; try reflexivity.
  all: rewrite Z.compare_refl; change (PosDef.Pos.compare_cont Eq m m) with (Pos.compare m m);
    now rewrite Pos.compare_refl.
Qed.

Lemma is_nan_spec (x : float) : PrimFloat.is_nan x = true <-> Prim2SF x = S754_nan.
Proof.
  unfold PrimFloat.is_nan. rewrite FloatAxioms.eqb_spec. unfold SFeqb. split.
  - intros H. destruct (Prim2SF x) eqn:E; try reflexivity;
      rewrite SFcompare_refl in H by discriminate; discriminate H.
  - intros ->. reflexivity.
Qed.

Lemma add_nan_l (x y : float) : PrimFloat.is_nan x = true -> PrimFloat.is_nan (x + y) = true.
Proof.
  rewrite !is_nan_spec, FloatAxioms.add_spec. intros ->. reflexivity.
Qed.

Lemma add_nan_r (x y : float) : PrimFloat.is_nan y = true -> PrimFloat.is_nan (x + y) = true.
Proof.
  rewrite !is_nan_spec, FloatAxioms.add_spec. intros ->.
  now destruct (Prim2SF x).
Qed.

Lemma div_nan_l (x y : float) : PrimFloat.is_nan x = true -> PrimFloat.is_nan (x / y) = true.
Proof.
  rewrite !is_nan_spec, FloatAxioms.div_spec. intros ->. reflexivity.
Qed.


(** The id of a daily entry whose date is three rows of digits. *)
Lemma daily_id_digits (y m d : string) :
  all_digits y = true -> all_digits m = true -> all_digits d = true ->
  y <> EmptyString ->
  Analytics.daily_id (y +:+ "-" +:+ m +:+ "-" +:+ d)
  = float_of_Z (digits_value (y +:+ m +:+ d) 0).
Proof.
  intros Hy Hm Hd Ny. unfold Analytics.daily_id.
  rewrite (remove_dashes_digits y _ Hy).
  change (remove_dashes ("-" +:+ ?r)) with (remove_dashes r).
  rewrite (remove_dashes_digits m _ Hm).
  change (remove_dashes ("-" +:+ ?r)) with (remove_dashes r).
  rewrite (remove_dashes_all_digits d Hd).
  rewrite parseInt_digits; [reflexivity| |].
  - auto using all_digits_app.
  - destruct y; [congruence | discriminate].
Qed.

Example daily_id_sample : Analytics.daily_id "2024-01-02" = 20240102%float.
Proof. vm_compute. reflexivity. Qed.

Local Open Scope Z_scope.

(** ** Civil dates *)

(** The civil date of a day leads back to the day. *)
Lemma MakeDay_civil_of_days (day : Z) :
  MakeDay (civil_of_days day).1.1 (civil_of_days day).1.2 (civil_of_days day).2 = day
  /\ 0 <= (civil_of_days day).1.2 <= 11
  /\ 1 <= (civil_of_days day).2 <= 31.
Proof.
  unfold MakeDay, days_of_civil, civil_of_days. cbn [fst snd].
  set (z := day + 719468).
  set (era := z / 146097).
  set (doe := z - era * 146097).
  set (yoe := (doe - doe / 1460 + doe / 36524 - doe / 146096) / 365).
  set (doy := doe - (365 * yoe + yoe / 4 - yoe / 100)).
  set (mp := (5 * doy + 2) / 153).
  assert (Hdoe : 0 <= doe <= 146096) by (subst doe era; Z.div_mod_to_equations; lia).
  assert (Hy : 0 <= yoe <= 399 /\ 0 <= doy <= 365)
    by (subst doy yoe; Z.div_mod_to_equations; lia).
  assert (Hmp : 0 <= mp <= 11) by (subst mp; Z.div_mod_to_equations; lia).
  destruct (mp <? 10) eqn:M; [apply Z.ltb_lt in M | apply Z.ltb_ge in M].
  - assert (E1 : (mp + 2 <=? 1) = false) by (apply Z.leb_gt; lia).
    rewrite E1.
    replace ((yoe + era * 400 + 0 + (mp + 2) / 12)) with (yoe + era * 400)
      by (Z.div_mod_to_equations; lia).
    replace ((mp + 2) mod 12) with (mp + 2) by (Z.div_mod_to_equations; lia).
    rewrite E1.
    replace ((yoe + era * 400) / 400) with era by (Z.div_mod_to_equations; lia).
    replace (mp + 2 - 2) with mp by lia.
    subst mp doy doe z. Z.div_mod_to_equations. lia.
  - assert (E1 : (mp - 10 <=? 1) = true) by (apply Z.leb_le; lia).
    rewrite E1.
    replace ((yoe + era * 400 + 1 + (mp - 10) / 12)) with (yoe + era * 400 + 1)
      by (Z.div_mod_to_equations; lia).
    replace ((mp - 10) mod 12) with (mp - 10) by (Z.div_mod_to_equations; lia).
    rewrite E1.
    replace ((yoe + era * 400 + 1 - 1) / 400) with era by (Z.div_mod_to_equations; lia).
    replace (yoe + era * 400 + 1 - 1 - era * 400) with yoe by lia.
    replace (mp - 10 + 10) with mp by lia.
    subst mp doy doe z. Z.div_mod_to_equations. lia.
Qed.

(** The first day of a month has the civil date it was made from. *)
Lemma civil_of_days_first (y m : Z) :
  0 <= m <= 11 -> civil_of_days (days_of_civil y m) = (y, m, 1).
Proof.
  intros Hm. unfold days_of_civil, civil_of_days.
  set (y' := if m <=? 1 then y - 1 else y).
  set (era := y' / 400).
  set (yoe := y' - era * 400).
  set (mp := if m <=? 1 then m + 10 else m - 2).
  set (doy := (153 * mp + 2) / 5).
  set (doe := yoe * 365 + yoe / 4 - yoe / 100 + doy).
  assert (Hyoe : 0 <= yoe <= 399) by (subst yoe era; Z.div_mod_to_equations; lia).
  assert (Hmp : 0 <= mp <= 11) by (subst mp; destruct (m <=? 1) eqn:E;
    [apply Z.leb_le in E | apply Z.leb_gt in E]; lia).
  assert (Hdoy : 0 <= doy <= 337) by (subst doy; Z.div_mod_to_equations; lia).
  assert (Hdoe : 0 <= doe <= 146096) by (subst doe; Z.div_mod_to_equations; lia).
  replace (era * 146097 + doe - 719468 + 719468) with (era * 146097 + doe) by lia.
  replace ((era * 146097 + doe) / 146097) with era by (Z.div_mod_to_equations; lia).
  replace (era * 146097 + doe - era * 146097) with doe by lia.
  assert (Y : (doe - doe / 1460 + doe / 36524 - doe / 146096) / 365 = yoe).
  { subst doe. Z.div_mod_to_equations. lia. }
  rewrite Y.
  replace (doe - (365 * yoe + yoe / 4 - yoe / 100)) with doy by (subst doe; lia).
  assert (M : (5 * doy + 2) / 153 = mp) by (subst doy; Z.div_mod_to_equations; lia).
  rewrite M. fold doy.
  subst mp y' yoe. destruct (m <=? 1) eqn:E;
    [apply Z.leb_le in E | apply Z.leb_gt in E].
  - assert (E1 : (m + 10 <? 10) = false) by (apply Z.ltb_ge; lia). rewrite E1.
    replace (m + 10 - 10) with m by lia.
    assert (E2 : (m <=? 1) = true) by (apply Z.leb_le; lia). rewrite E2.
    f_equal; [f_equal|]; lia.
  - assert (E1 : (m - 2 <? 10) = true) by (apply Z.ltb_lt; lia). rewrite E1.
    replace (m - 2 + 2) with m by lia.
    assert (E2 : (m <=? 1) = false) by (apply Z.leb_gt; lia). rewrite E2.
    f_equal; [f_equal|]; lia.
Qed.

End JsFacts.
Module AnalyticsFacts.
Import Js Analytics Spec Aux JsFacts.

(** ** Dictionaries *)

Section Dict.

Context {A : Type}.

Lemma own_get_set (k k' : string) (v : A) (d : dict A) :
  own_get k' (own_set k v d) = if String.eqb k k' then Some v else own_get k' d.
Proof.
  induction d as [|[k0 v0] d IH]; cbn.
  - reflexivity.
  - destruct (String.eqb_spec k0 k) as [->|N]; cbn.
    + destruct (String.eqb_spec k k'); reflexivity.
    + rewrite IH. destruct (String.eqb_spec k0 k') as [->|]; [|reflexivity].
      destruct (String.eqb_spec k k'); congruence.
Qed.

Lemma own_get_set_eq (k : string) (v : A) (d : dict A) :
  own_get k (own_set k v d) = Some v.
Proof. now rewrite own_get_set, String.eqb_refl. Qed.

Lemma own_get_set_ne (k k' : string) (v : A) (d : dict A) :
  k <> k' -> own_get k' (own_set k v d) = own_get k' d.
Proof.
  intros N. rewrite own_get_set. now destruct (String.eqb_spec k k').
Qed.

Lemma own_get_In (k : string) (d : dict A) :
  In k (map fst d) <-> is_Some (own_get k d).
Proof.
  induction d as [|[k0 v0] d IH]; cbn.
  - split; [tauto | intros [? ?]; discriminate].
  - destruct (String.eqb_spec k0 k) as [->|N].
    + split; eauto.
    + rewrite <- IH. tauto.
Qed.

(** Writing a property keeps the others where they are; a new one goes
    last. *)
Lemma own_set_keys (k : string) (v : A) (d : dict A) :
  map fst (own_set k v d)
  = match own_get k d with
    | Some _ => map fst d
    | None => map fst d ++ [k]
    end.
Proof.
  induction d as [|[k0 v0] d IH]; cbn; [reflexivity|].
  destruct (String.eqb_spec k0 k) as [->|N]; cbn; [reflexivity|].
  rewrite IH. now destruct (own_get k d).
Qed.

Lemma insert_index_In (p q : Z * string) (l : list (Z * string)) :
  In p (insert_index q l) <-> p = q \/ In p l.
Proof.
  induction l as [|r l IH]; cbn.
  - intuition congruence.
  - destruct (q.1 <? r.1)%Z; cbn; rewrite ?IH; intuition congruence.
Qed.

Lemma index_keys_In (k : string) (ks : list string) :
  In k (map snd (index_keys ks)) -> In k ks.
Proof.
  induction ks as [|k0 ks IH]; cbn; [tauto|].
  destruct (array_index k0); [|tauto].
  rewrite in_map_iff. intros ((n & k1) & E & H). cbn in E. subst k1.
  apply insert_index_In in H. destruct H as [H|H].
  - injection H as _ ->. now left.
  - right. apply IH. apply in_map_iff. now exists (n, k).
Qed.

Lemma Object_keys_In (k : string) (d : dict A) :
  In k (Object_keys d) -> In k (map fst d).
Proof.
  unfold Object_keys. rewrite in_app_iff. intros [H|H].
  - now apply index_keys_In.
  - now apply filter_In in H.
Qed.

Lemma Object_keys_own (k : string) (d : dict A) :
  In k (Object_keys d) -> is_Some (own_get k d).
Proof. intros H. now apply own_get_In, Object_keys_In. Qed.

(** Without array indices among the names, [Object.keys] follows the
    order of creation. *)
Lemma Object_keys_names (d : dict A) :
  Forall (fun k => is_name k = true) (map fst d) -> Object_keys d = map fst d.
Proof.
  unfold Object_keys. generalize (map fst d). intros ks H.
  assert (I : index_keys ks = []).
  { induction H as [|k ks Hk _ IH]; [reflexivity|].
    cbn. unfold is_name in Hk. now destruct (array_index k). }
  assert (F : List.filter is_name ks = ks).
  { induction H as [|k ks Hk _ IH]; [reflexivity|].
    cbn. rewrite Hk. f_equal. apply IH.
    cbn in I. unfold is_name in Hk. now destruct (array_index k). }
  now rewrite I, F.
Qed.

End Dict.

(** ** [mapM] over calls *)

Lemma mapM_Returns_In {A B} (f : A -> outcome B) (l : list A) (l' : list B) :
  mapM f l = Returns l' ->
  forall y, In y l' -> exists x, In x l /\ f x = Returns y.
Proof.
  revert l'. induction l as [|x l IH]; intros l' H y Hy; cbn in H.
  - injection H as <-. destruct Hy.
  - destruct (f x) as [b| |] eqn:F; try discriminate H. cbn in H.
    destruct (mapM f l) as [bs| |] eqn:M; try discriminate H. cbn in H.
    injection H as <-. destruct Hy as [<-|Hy].
    + exists x. split; [now left | exact F].
    + destruct (IH _ eq_refl _ Hy) as (x' & ? & ?). exists x'.
      split; [now right | assumption].
Qed.

Lemma mapM_returns {A B} (f : A -> outcome B) (l : list A) :
  (forall x, In x l -> exists y, f x = Returns y) ->
  exists l', mapM f l = Returns l'.
Proof.
  induction l as [|x l IH]; intros H; cbn.
  - now exists [].
  - destruct (H x (or_introl eq_refl)) as (y & ->).
    destruct IH as (l' & ->); [intros; apply H; now right|].
    now exists (y :: l').
Qed.

(** ** Filing the orders *)

Section Filing.

Variable rt : Runtime.

Lemma members_of_snoc key_of k orders order :
  members_of key_of k (orders ++ [order])
  = members_of key_of k orders ++ (if filed_under key_of k order then [order] else []).
Proof. unfold members_of. rewrite List.filter_app. reflexivity. Qed.

Lemma files_skip key_of orders order byKey :
  key_of order = None -> files key_of orders byKey ->
  files key_of (orders ++ [order]) byKey.
Proof.
  intros N F k. rewrite members_of_snoc. unfold filed_under. rewrite N.
  rewrite app_nil_r. apply F.
Qed.

Lemma files_push key_of orders order byKey key byKey' :
  key_of order = Some key -> files key_of orders byKey ->
  push_order key order (ensure_list key byKey) = Returns byKey' ->
  files key_of (orders ++ [order]) byKey'.
Proof.
  intros K F P k. rewrite members_of_snoc. unfold filed_under. rewrite K.
  unfold push_order in P.
  destruct (own_get key (ensure_list key byKey)) as [members|] eqn:G; [|discriminate].
  injection P as <-.
  assert (M : members = members_of key_of key orders
              /\ forall k', k' <> key ->
                   own_get k' (ensure_list key byKey) = own_get k' byKey).
  { unfold ensure_list in *. pose proof (F key) as Fk.
    destruct (own_get key byKey) as [l|] eqn:O.
    - rewrite O in G. injection G as ->.
      split; [|reflexivity].
      destruct (members_of key_of key orders); congruence.
    - destruct (inherited key).
      + congruence.
      + rewrite own_get_set_eq in G. injection G as <-.
        split.
        * now destruct (members_of key_of key orders).
        * intros k' N. now apply own_get_set_ne. }
  destruct M as (-> & Other).
  destruct (String.eqb_spec key k) as [->|N].
  - rewrite own_get_set_eq.
    now destruct (members_of key_of k orders).
  - rewrite app_nil_r, own_get_set_ne, Other by congruence. apply F.
Qed.

Lemma push_order_returns key order (byKey : dict (list object)) :
  inherited key = false ->
  exists byKey', push_order key order (ensure_list key byKey) = Returns byKey'.
Proof.
  intros I. unfold push_order, ensure_list. rewrite I.
  destruct (own_get key byKey) as [l|] eqn:O.
  - rewrite O. eauto.
  - rewrite own_get_set_eq. eauto.
Qed.

Lemma group_orders_snoc orders order :
  group_orders rt (orders ++ [order])
  = groups ← group_orders rt orders; group_order rt groups order.
Proof. unfold group_orders. now rewrite fold_left_app. Qed.

(** What one round of the loop does. *)
Lemma group_order_Returns byDate byWeek order byDate' byWeek' :
  group_order rt (byDate, byWeek) order = Returns (byDate', byWeek') ->
  (date_of order = None /\ week_of rt order = None
   /\ byDate' = byDate /\ byWeek' = byWeek)
  \/ (exists date week,
        date_of order = Some date /\ week_of rt order = Some week
        /\ push_order date order (ensure_list date byDate) = Returns byDate'
        /\ push_order week order (ensure_list week byWeek) = Returns byWeek').
Proof.
  unfold group_order, date_of, week_of.
  destruct (get order "createdAt") as [| |b|x|s] eqn:C; cbn [truthy].
  - intros [= <- <-]. now left.
  - intros [= <- <-]. now left.
  - destruct b; [discriminate|]. intros [= <- <-]. now left.
  - destruct (negb _); [discriminate|]. intros [= <- <-]. now left.
  - destruct (String.eqb s ""); cbn [negb].
    + intros [= <- <-]. now left.
    + intros H. right. exists (split_T s), (getWeekNumber rt (Date_parse rt s)).
      destruct (push_order (split_T s) order _) as [d| |]; try discriminate H.
      cbn in H.
      destruct (push_order (getWeekNumber rt (Date_parse rt s)) order _) as [w| |];
        try discriminate H.
      cbn in H. injection H as <- <-. auto.
Qed.

(** The loop files every order under its day and under its week. *)
Lemma group_orders_files orders byDate byWeek :
  group_orders rt orders = Returns (byDate, byWeek) ->
  files date_of orders byDate /\ files (week_of rt) orders byWeek.
Proof.
  revert byDate byWeek. induction orders as [|order orders IH] using rev_ind;
    intros byDate byWeek H.
  - injection H as <- <-. split; intros k; reflexivity.
  - rewrite group_orders_snoc in H.
    destruct (group_orders rt orders) as [[bd bw]| |]; try discriminate H.
    cbn in H. destruct (IH _ _ eq_refl) as (FD & FW).
    apply group_order_Returns in H.
    destruct H as [(D & W & -> & ->)|(date & week & D & W & PD & PW)].
    + split; now apply files_skip.
    + split; eapply files_push; eauto.
Qed.

End Filing.

(** ** The buckets of a result *)

Section Buckets.

Variable rt : Runtime.

Lemma sale_of_Returns mk key members s :
  sale_of rt mk key members = Returns s ->
  exists shopRevenue,
    shop_revenue rt members = Returns shopRevenue
    /\ id s = mk key
    /\ period s = key
    /\ totalRevenue s = sum_amounts rt members
    /\ totalOrders s = length members
    /\ deliveredOrders s = count_status "Delivered" members
    /\ pendingOrders s = count_status "Pending" members
    /\ inProcessOrders s = count_status "In Process" members
    /\ averageOrderValue s
       = (if (0 <? length members)%nat
          then (sum_amounts rt members / float_of_Z (Z.of_nat (length members)))%float
          else 0%float)
    /\ topShop s = top_shop shopRevenue
    /\ topShopRevenue s
       = match own_get (top_shop shopRevenue) shopRevenue with
         | Some r => num_or0 r
         | None => 0%float
         end
    /\ paymentBreakdown s = fold_left (payment_step rt) members emptyBreakdown.
Proof.
  unfold sale_of. destruct (shop_revenue rt members) as [sr| |]; try discriminate.
  cbn. intros [= <-]. exists sr. cbn. repeat split; reflexivity.
Qed.

Lemma sales_of_In mk byKey sales s :
  sales_of rt mk byKey = Returns sales -> In s sales ->
  exists key members,
    own_get key byKey = Some members /\ sale_of rt mk key members = Returns s.
Proof.
  unfold sales_of. intros M H.
  destruct (mapM_Returns_In _ _ _ M _ H) as (key & _ & F).
  destruct (own_get key byKey) as [members|] eqn:G; [|discriminate].
  eauto.
Qed.

(** The parts of a result. *)
Lemma recalculate_Returns clock orders a :
  recalculateAnalytics rt clock orders = Returns a ->
  exists byDate byWeek,
    group_orders rt orders = Returns (byDate, byWeek)
    /\ sales_of rt daily_id byDate = Returns (dailySales a)
    /\ sales_of rt weekly_id byWeek = Returns (weeklySales a).
Proof.
  unfold recalculateAnalytics.
  destruct (group_orders rt orders) as [[bd bw]| |]; try discriminate. cbn.
  destruct (sales_of rt daily_id bd) as [ds| |] eqn:D; try discriminate. cbn.
  destruct (sales_of rt weekly_id bw) as [ws| |] eqn:W; try discriminate. cbn.
  intros [= <-]. exists bd, bw. cbn. auto.
Qed.

Lemma filed_sale key_of orders byKey mk sales s :
  files key_of orders byKey ->
  sales_of rt mk byKey = Returns sales -> In s sales ->
  members_of key_of (period s) orders <> []
  /\ sale_of rt mk (period s) (members_of key_of (period s) orders) = Returns s.
Proof.
  intros F M H. destruct (sales_of_In _ _ _ _ M H) as (key & members & G & S).
  destruct (sale_of_Returns _ _ _ _ S) as (_ & _ & _ & P & _).
  rewrite P. rewrite (F key) in G.
  destruct (members_of key_of key orders) as [|o l]; [discriminate|].
  injection G as <-. split; [discriminate | exact S].
Qed.

(** Every bucket of a result is the sale computed from its members, and
    it has at least one member. *)
Lemma bucket_sale clock orders a s members :
  recalculateAnalytics rt clock orders = Returns a ->
  bucket rt orders a s members ->
  members <> []
  /\ exists mk, (mk = daily_id \/ mk = weekly_id)
               /\ sale_of rt mk (period s) members = Returns s.
Proof.
  intros R B. destruct (recalculate_Returns _ _ _ R) as (bd & bw & G & D & W).
  destruct (group_orders_files rt _ _ _ G) as (FD & FW).
  destruct B as [(H & ->)|(H & ->)].
  - destruct (filed_sale _ _ _ _ _ _ FD D H). eauto.
  - destruct (filed_sale _ _ _ _ _ _ FW W H). eauto.
Qed.

End Buckets.

(** ** Ids *)

(** The id of a weekly entry whose key starts with a printed year. *)
Lemma weekly_id_printed (y : Z) (w : string) :
  weekly_id (string_of_Z y +:+ "-W" +:+ w) = float_of_Z y.
Proof.
  unfold weekly_id. now rewrite remove_first_W_printed, parseInt_printed.
Qed.

(** ** Week keys *)

Section WeekKeys.

Variable rt : Runtime.

(** A week key is [NaN-WNaN], or a printed year, [-W] and a week. *)
Lemma getWeekNumber_shape (date : option Z) :
  getWeekNumber rt date = "NaN-WNaN"
  \/ exists year week, getWeekNumber rt date = string_of_Z year +:+ "-W" +:+ week.
Proof.
  unfold getWeekNumber. destruct date as [t|]; [|now left].
  destruct (Date_UTC _ _ _) as [d0|]; [|now left].
  destruct (setUTCDate _ _) as [d|]; [|now left].
  right. destruct (Date_UTC (YearFromTime d) 0 1); eauto.
Qed.

Lemma has_W_app (a b : string) : has_W (a +:+ b) = has_W a || has_W b.
Proof.
  induction a as [|c a IH]; [reflexivity|].
  change (String c a +:+ b) with (String c (a +:+ b)). cbn.
  now rewrite IH, orb_assoc.
Qed.

Lemma inherited_no_W (k : string) : inherited k = true -> has_W k = false.
Proof.
  unfold inherited. rewrite existsb_exists. intros (x & I & E).
  apply String.eqb_eq in E. subst x.
  repeat (destruct I as [<-|I]; [reflexivity|]). destruct I.
Qed.

(** No week key is the name of an inherited member. *)
Lemma getWeekNumber_own (date : option Z) : inherited (getWeekNumber rt date) = false.
Proof.
  destruct (inherited (getWeekNumber rt date)) eqn:I; [|reflexivity].
  apply inherited_no_W in I.
  destruct (getWeekNumber_shape date) as [E|(y & w & E)]; rewrite E in I.
  - discriminate I.
  - rewrite !has_W_app in I. cbn in I. now rewrite orb_true_r in I.
Qed.

End WeekKeys.

(** ** Ledgers the engine accepts *)

Section Totality.

Variable rt : Runtime.

Lemma group_order_returns groups order :
  order_ok rt order = true -> exists groups', group_order rt groups order = Returns groups'.
Proof.
  destruct groups as [bd bw]. unfold order_ok, group_order.
  destruct (get order "createdAt") as [| |b|x|s]; cbn [truthy].
  - eauto.
  - eauto.
  - intros H. apply negb_true_iff in H. cbn in H. rewrite H. eauto.
  - intros H. apply negb_true_iff in H. cbn [truthy] in H. rewrite H. eauto.
  - destruct (String.eqb s ""); cbn [negb orb]; [eauto|].
    intros H. apply andb_true_iff in H. destruct H as (D & _).
    apply negb_true_iff in D.
    destruct (push_order_returns (split_T s) order bd D) as (bd' & ->).
    destruct (push_order_returns _ order bw (getWeekNumber_own rt (Date_parse rt s)))
      as (bw' & ->).
    cbn. eauto.
Qed.

Lemma group_orders_returns orders :
  ledger_ok rt orders = true -> exists groups, group_orders rt orders = Returns groups.
Proof.
  unfold ledger_ok. induction orders as [|order orders IH] using rev_ind; intros H.
  - now exists ([], []).
  - rewrite forallb_app in H. apply andb_true_iff in H. destruct H as (H1 & H2).
    cbn in H2. rewrite andb_true_r in H2.
    rewrite group_orders_snoc. destruct (IH H1) as (g & ->). cbn.
    now apply group_order_returns.
Qed.

Lemma shop_steps_return members :
  Forall (fun order => inherited (shop_of rt order) = false) members ->
  forall shopRevenue, exists shopRevenue',
    fold_left (fun acc order => sr ← acc; shop_step rt sr order) members
              (Returns shopRevenue) = Returns shopRevenue'.
Proof.
  induction 1 as [|order members I _ IH]; intros sr; cbn; [eauto|].
  unfold shop_step at 2. fold (shop_of rt order). rewrite I.
  destruct (own_get (shop_of rt order) sr); apply IH.
Qed.

Lemma sale_of_returns mk key members :
  Forall (fun order => inherited (shop_of rt order) = false) members ->
  exists s, sale_of rt mk key members = Returns s.
Proof.
  intros H. destruct (shop_steps_return _ H []) as (sr & E).
  change (shop_revenue rt members = Returns sr) in E.
  unfold sale_of. rewrite E. cbn. eauto.
Qed.

(** An order that is filed has a shop the engine can count. *)
Lemma filed_shop_ok key_of key order :
  key_of = date_of \/ key_of = week_of rt ->
  filed_under key_of key order = true -> order_ok rt order = true ->
  inherited (shop_of rt order) = false.
Proof.
  unfold filed_under, order_ok, date_of, week_of.
  intros [-> | ->]; destruct (get order "createdAt") as [| |b|x|s]; try discriminate;
    (destruct (String.eqb s ""); [discriminate|]); cbn [orb]; intros _ H;
    apply andb_true_iff in H; destruct H as (_ & H); now apply negb_true_iff in H.
Qed.

Lemma sales_of_returns key_of orders byKey mk :
  key_of = date_of \/ key_of = week_of rt ->
  ledger_ok rt orders = true -> files key_of orders byKey ->
  exists sales, sales_of rt mk byKey = Returns sales.
Proof.
  intros K L F. apply mapM_returns. intros key H.
  destruct (Object_keys_own _ _ H) as (members & G). rewrite G.
  apply sale_of_returns. rewrite (F key) in G.
  assert (E : members = members_of key_of key orders).
  { destruct (members_of key_of key orders); congruence. }
  subst members. apply List.Forall_forall. intros order I.
  apply filter_In in I. destruct I as (I & U).
  unfold ledger_ok in L. rewrite forallb_forall in L.
  eapply filed_shop_ok; eauto.
Qed.

(** The recalculation returns on every ledger of orders it can file. *)
Lemma recalculate_returns clock orders :
  ledger_ok rt orders = true ->
  exists a, recalculateAnalytics rt clock orders = Returns a.
Proof.
  intros L. unfold recalculateAnalytics.
  destruct (group_orders_returns _ L) as ([bd bw] & G). rewrite G. cbn.
  destruct (group_orders_files rt _ _ _ G) as (FD & FW).
  destruct (sales_of_returns date_of orders bd daily_id (or_introl eq_refl) L FD)
    as (ds & ->).
  destruct (sales_of_returns (week_of rt) orders bw weekly_id (or_intror eq_refl) L FW)
    as (ws & ->).
  cbn. eauto.
Qed.

End Totality.

(** ** Counting by status *)


(** ** The payment breakdown *)

Section Payments.

Variable rt : Runtime.

Lemma payment_step_lookup (pb : gmap string float) (order : object) (k : string) :
  is_Some (pb !! "Bank") ->
  payment_step rt pb order !! k
  = (fun x => if pays_into rt k order then (x + amount rt order)%float else x) <$> pb !! k.
Proof.
  intros (bank & B). unfold payment_step, pays_into, add_payment.
  fold (method_of order).
  destruct (is_str "Bank Transfer" (method_of order)).
  - destruct (String.eqb_spec k "Bank") as [->|N].
    + rewrite lookup_insert_eq, B. reflexivity.
    + rewrite lookup_insert_ne by congruence. now destruct (pb !! k).
  - destruct (String.eqb_spec (ToString rt (method_of order)) k) as [<-|N].
    + case_bool_decide as S.
      * destruct S as (x & S). rewrite lookup_insert_eq, S. reflexivity.
      * destruct (pb !! ToString rt (method_of order)) eqn:S'; [|reflexivity].
        exfalso. apply S. eauto.
    + case_bool_decide.
      * rewrite lookup_insert_ne by congruence. now destruct (pb !! k).
      * now destruct (pb !! k).
Qed.

Lemma payment_fold_lookup (members : list object) (pb : gmap string float) (k : string) :
  is_Some (pb !! "Bank") ->
  fold_left (payment_step rt) members pb !! k
  = (fun x => fold_left (fun sum order => (sum + amount rt order)%float)
                        (List.filter (pays_into rt k) members) x) <$> pb !! k.
Proof.
  revert pb. induction members as [|order members IH]; intros pb B.
  - cbn. now destruct (pb !! k).
  - cbn [fold_left List.filter]. rewrite IH.
    + rewrite payment_step_lookup by exact B.
      destruct (pb !! k); cbn; [|reflexivity].
      now destruct (pays_into rt k order).
    + rewrite payment_step_lookup by exact B. destruct B as (x & ->). cbn. eauto.
Qed.

Lemma emptyBreakdown_lookup (k : string) :
  emptyBreakdown !! k = if bool_decide (In k breakdown_keys) then Some 0%float else None.
Proof.
  unfold emptyBreakdown, breakdown_keys.
  destruct (decide (k = "Balance")) as [->|N1]; [reflexivity|].
  rewrite lookup_insert_ne by congruence.
  destruct (decide (k = "Cash")) as [->|N2]; [reflexivity|].
  rewrite lookup_insert_ne by congruence.
  destruct (decide (k = "Card")) as [->|N3]; [reflexivity|].
  rewrite lookup_insert_ne by congruence.
  destruct (decide (k = "Bank")) as [->|N4]; [reflexivity|].
  rewrite lookup_insert_ne by congruence. rewrite lookup_empty.
  rewrite bool_decide_eq_false_2; [reflexivity|].
  cbn. intuition congruence.
Qed.

(** The breakdown of a bucket: its keys, and what each key holds. *)
Lemma breakdown_lookup (members : list object) (k : string) :
  fold_left (payment_step rt) members emptyBreakdown !! k
  = if bool_decide (In k breakdown_keys)
    then Some (sum_amounts rt (List.filter (pays_into rt k) members))
    else None.
Proof.
  rewrite payment_fold_lookup by (now exists 0%float).
  rewrite emptyBreakdown_lookup. now case_bool_decide.
Qed.

End Payments.

(** ** The top shop *)

Section TopShop.

Variable rt : Runtime.



Lemma shop_fold_Returns members acc sr :
  shop_fold rt members acc = Returns sr -> exists sr0, acc = Returns sr0.
Proof.
  revert acc. induction members as [|order members IH]; intros acc H.
  - eauto.
  - cbn in H. apply IH in H. destruct H as (sr1 & H).
    destruct acc; try discriminate H. eauto.
Qed.

Lemma shop_step_keys sr order sr' :
  shop_step rt sr order = Returns sr' ->
  (In (shop_of rt order) (map fst sr) /\ map fst sr' = map fst sr)
  \/ (~ In (shop_of rt order) (map fst sr)
      /\ map fst sr' = map fst sr ++ [shop_of rt order]).
Proof.
  unfold shop_step. fold (shop_of rt order).
  pose proof (own_get_In (shop_of rt order) sr) as I.
  destruct (own_get (shop_of rt order) sr) as [r|] eqn:G.
  - intros [= <-]. rewrite own_set_keys, G. left. split; [|reflexivity].
    apply I. eauto.
  - destruct (inherited _); [discriminate|]. intros [= <-].
    rewrite own_set_keys, G. right. split; [|reflexivity].
    intros H. apply I in H. destruct H as (? & ?). discriminate.
Qed.




End TopShop.


(** ** Ledgers the engine rejects *)

Section Converse.

Variable rt : Runtime.

Lemma index_keys_In_inv (n : Z) (k : string) (ks : list string) :
  In k ks -> array_index k = Some n -> In (n, k) (index_keys ks).
Proof.
  induction ks as [|k0 ks IH]; cbn; [tauto|]. intros [->|I] E.
  - rewrite E. apply insert_index_In. now left.
  - destruct (array_index k0); [apply insert_index_In; right|]; auto.
Qed.

Lemma Object_keys_In_inv {A} (k : string) (d : dict A) :
  In k (map fst d) -> In k (Object_keys d).
Proof.
  intros I. unfold Object_keys. apply in_app_iff.
  destruct (array_index k) as [n|] eqn:E.
  - left. apply in_map_iff. exists (n, k). split; [reflexivity|].
    now apply index_keys_In_inv.
  - right. apply filter_In. split; [exact I|]. unfold is_name. now rewrite E.
Qed.

Lemma mapM_Returns_all {A B} (f : A -> outcome B) (l : list A) (l' : list B) :
  mapM f l = Returns l' -> forall x, In x l -> exists y, f x = Returns y.
Proof.
  revert l'. induction l as [|x0 l IH]; intros l' H x I; [destruct I|].
  cbn in H. destruct (f x0) as [b| |] eqn:F; try discriminate H. cbn in H.
  destruct (mapM f l) as [bs| |] eqn:M; try discriminate H.
  destruct I as [<-|I]; eauto.
Qed.

(** The shops of a revenue object that could be built have their own
    names. *)
Lemma shop_fold_shops members sr0 sr :
  shop_fold rt members (Returns sr0) = Returns sr ->
  Forall (fun k => inherited k = false) (map fst sr0) ->
  Forall (fun order => inherited (shop_of rt order) = false) members.
Proof.
  revert sr0. induction members as [|order members IH]; intros sr0 H K; [constructor|].
  cbn in H. destruct (shop_step rt sr0 order) as [sr1| |] eqn:S;
    try (apply shop_fold_Returns in H; destruct H as (? & H); discriminate H).
  assert (I : inherited (shop_of rt order) = false).
  { unfold shop_step in S. fold (shop_of rt order) in S.
    destruct (own_get (shop_of rt order) sr0) eqn:G.
    - rewrite List.Forall_forall in K. apply K. apply own_get_In. eauto.
    - now destruct (inherited (shop_of rt order)). }
  constructor; [exact I|]. apply (IH sr1 H).
  apply shop_step_keys in S. destruct S as [(_ & ->)|(_ & ->)]; [exact K|].
  apply Forall_app. split; [exact K|]. now constructor.
Qed.

Lemma sale_of_shops mk key members s :
  sale_of rt mk key members = Returns s ->
  Forall (fun order => inherited (shop_of rt order) = false) members.
Proof.
  intros S. destruct (sale_of_Returns rt _ _ _ _ S) as (sr & R & _).
  apply (shop_fold_shops _ [] sr R). constructor.
Qed.

(** An order that was pushed under a key shows that no inherited member
    has the name of the key. *)
Lemma push_order_Returns key_of orders key order byKey byKey' :
  files key_of orders byKey ->
  (forall o, In o orders -> forall k, key_of o = Some k -> inherited k = false) ->
  push_order key order (ensure_list key byKey) = Returns byKey' ->
  inherited key = false.
Proof.
  intros F Old P. unfold push_order, ensure_list in P.
  destruct (own_get key byKey) as [l|] eqn:G.
  - rewrite (F key) in G.
    destruct (members_of key_of key orders) as [|o l'] eqn:M; [discriminate|].
    assert (I : In o (members_of key_of key orders)) by (rewrite M; now left).
    apply filter_In in I. destruct I as (I & U). unfold filed_under in U.
    destruct (key_of o) as [k|] eqn:K; [|discriminate].
    apply String.eqb_eq in U. subst k. eauto.
  - destruct (inherited key); [|reflexivity]. rewrite G in P. discriminate P.
Qed.

(** The orders of a ledger the loop could file are the ones it accepts,
    as far as their creation timestamps go. *)
Lemma group_orders_Returns orders groups :
  group_orders rt orders = Returns groups ->
  forall order, In order orders ->
    match get order "createdAt" with
    | VStr s => String.eqb s "" = true \/ inherited (split_T s) = false
    | v => truthy v = false
    end.
Proof.
  revert groups. induction orders as [|last orders IH] using rev_ind;
    intros groups H order I; [destruct I|].
  rewrite group_orders_snoc in H.
  destruct (group_orders rt orders) as [[bd bw]| |] eqn:G; try discriminate H.
  cbn in H. apply in_app_iff in I. destruct I as [I|[<-|[]]]; [now apply (IH _ eq_refl)|].
  destruct groups as [bd' bw']. pose proof H as H'.
  apply group_order_Returns in H.
  destruct H as [(D & _)|(date & week & D & _ & P & _)].
  - unfold date_of in D. unfold group_order in H'.
    destruct (get last "createdAt") as [| |b|x|s]; try reflexivity.
    + now destruct b.
    + cbn [truthy] in *. now destruct (negb _).
    + destruct (String.eqb s ""); [now left | discriminate D].
  - unfold date_of in D.
    destruct (get last "createdAt") as [| |b|x|s]; try discriminate D.
    destruct (String.eqb s "") eqn:E; [now left|]. injection D as <-. right.
    destruct (group_orders_files rt _ _ _ G) as (FD & _).
    apply (push_order_Returns date_of orders _ last bd bd' FD); [|exact P].
    intros o Io k K. specialize (IH _ eq_refl o Io). unfold date_of in K.
    destruct (get o "createdAt") as [| |?|?|c]; try discriminate K.
    destruct (String.eqb c ""); [discriminate K|]. injection K as <-.
    destruct IH as [IH|IH]; [discriminate IH | exact IH].
Qed.

(** The recalculation returns on the ledgers of [ledger_ok] only. *)
Lemma recalculate_Returns_ok clock orders a :
  recalculateAnalytics rt clock orders = Returns a -> ledger_ok rt orders = true.
Proof.
  intros R. destruct (recalculate_Returns rt _ _ _ R) as (bd & bw & G & D & _).
  destruct (group_orders_files rt _ _ _ G) as (FD & _).
  unfold ledger_ok. apply forallb_forall. intros order I.
  pose proof (group_orders_Returns _ _ G order I) as C. unfold order_ok.
  destruct (get order "createdAt") as [| |b|x|s] eqn:Cr;
    try (now rewrite C).
  destruct (String.eqb s "") eqn:E; [reflexivity|]. cbn [orb].
  destruct C as [C|C]; [discriminate C|]. rewrite C. cbn [negb andb].
  apply negb_true_iff.
  assert (M : In order (members_of date_of (split_T s) orders)).
  { apply filter_In. split; [exact I|]. unfold filed_under, date_of.
    rewrite Cr, E. apply String.eqb_refl. }
  pose proof (FD (split_T s)) as O.
  destruct (members_of date_of (split_T s) orders) as [|o l] eqn:Ms; [destruct M|].
  assert (K : In (split_T s) (Object_keys bd)).
  { apply Object_keys_In_inv, own_get_In. eauto. }
  unfold sales_of in D. destruct (mapM_Returns_all _ _ _ D _ K) as (sale & S).
  rewrite O in S. apply sale_of_shops in S.
  rewrite List.Forall_forall in S. now apply S.
Qed.

End Converse.

(** ** How a recalculation ends *)

Section Outcomes.

Variable rt : Runtime.














End Outcomes.

End AnalyticsFacts.

(** * The claims about the recalculation *)
Module AnalyticsClaims.
Import Js Analytics Spec Aux JsFacts AnalyticsFacts.

(** C1. Two recalculations of one ledger, at whatever instants the clock is
    read, end the same way, and when they return they give the same
    dailySales, weeklySales and predictions, the same reports up to their
    date, and the same notifications up to their timestamp (the same
    notifications outright when the last order has a delivery time). *)
Theorem recalculate_twice_same (rt : Runtime) (clock1 clock2 : nat -> string)
    (orders : list object) :
  match recalculateAnalytics rt clock1 orders, recalculateAnalytics rt clock2 orders with
  | Returns a1, Returns a2 =>
      dailySales a1 = dailySales a2
      /\ weeklySales a1 = weeklySales a2
      /\ predictions a1 = predictions a2
      /\ map undated (reports a1) = map undated (reports a2)
      /\ map unstamped (notifications a1) = map unstamped (notifications a2)
      /\ (forall latest, last orders = Some latest ->
            truthy (get latest "deliveredAt") = true ->
            notifications a1 = notifications a2)
  | Throws e1, Throws e2 => e1 = e2
  | OutsideModel, OutsideModel => True
  | _, _ => False
  end.
Proof.
  unfold recalculateAnalytics.
  destruct (group_orders rt orders) as [[byDate byWeek]| |]; cbn; trivial.
  destruct (sales_of rt daily_id byDate) as [daily| |]; cbn; trivial.
  destruct (sales_of rt weekly_id byWeek) as [weekly| |]; cbn; trivial.
  repeat split.
  - destruct (last orders) as [latest|]; [|reflexivity].
    now destruct (is_str "Delivered" (get latest "status")).
  - intros latest -> T.
    destruct (is_str "Delivered" (get latest "status")); [|reflexivity].
    unfold js_or. now rewrite T.
Qed.

(** C5. On the empty ledger the recalculation returns no daily and no
    weekly entry, one prediction of 850 with confidence 85, one report with
    the defaults (revenue 0, no order, average 0, top shop N/A, a breakdown
    of four zeros) and no notification. *)
Theorem recalculate_empty (rt : Runtime) (clock : nat -> string) :
  exists prediction report,
    recalculateAnalytics rt clock []
    = Returns {| dailySales := []; weeklySales := [];
                 predictions := [prediction]; reports := [report];
                 notifications := [] |}
    /\ predictedValue prediction = 850%float
    /\ confidence prediction = 85%Z
    /\ report_totalRevenue report = 0%float
    /\ report_totalOrders report = 0%nat
    /\ report_averageOrderValue report = 0%float
    /\ report_topShop report = "N/A"
    /\ report_paymentBreakdown report
       = <["Balance" := 0%float]> (<["Cash" := 0%float]> (<["Card" := 0%float]>
           (<["Bank" := 0%float]> ∅))).
Proof.
  eexists _, _. split; [reflexivity|]. cbn. repeat split.
Qed.



(** C9. For a date whose local calendar day is 1 January 2024 (a Monday),
    the week key is 2024-W1. *)
Theorem week_key_2024_01_01 (rt : Runtime) (t : Z) :
  YearFromTime (LocalTime rt t) = 2024%Z ->
  MonthFromTime (LocalTime rt t) = 0%Z ->
  DateFromTime (LocalTime rt t) = 1%Z ->
  getWeekNumber rt (Some t) = "2024-W1".
Proof.
  intros Y M D. unfold getWeekNumber. rewrite Y, M, D. reflexivity.
Qed.


(** X29. The ids of the entries.  The id of a daily entry is the number
    [parseInt] gives for its date once the hyphens are removed: for a date
    made of three rows of digits, the number nearest to the integer all
    the digits spell.  The id of a weekly entry is the number [parseInt]
    gives for its key once the W is removed, and the reading stops at the
    hyphen: it is the year the key starts with, the same for all the
    weeks of a year (and NaN for the key of an invalid date). *)
Theorem bucket_ids (rt : Runtime) (clock : nat -> string) (orders : list object)
    (an : Analytics) :
  recalculateAnalytics rt clock orders = Returns an ->
  (forall s, In s (dailySales an) ->
     id s = parsed_number (parseInt (remove_dashes (period s)))
     /\ forall y m d,
          all_digits y = true -> all_digits m = true -> all_digits d = true ->
          y <> EmptyString ->
          period s = y +:+ "-" +:+ m +:+ "-" +:+ d ->
          id s = float_of_Z (digits_value (y +:+ m +:+ d) 0))
  /\ (forall s, In s (weeklySales an) ->
        id s = parsed_number (parseInt (remove_first_W (period s)))
        /\ ((period s = "NaN-WNaN" /\ id s = js_nan)
            \/ exists year week,
                 period s = string_of_Z year +:+ "-W" +:+ week
                 /\ id s = float_of_Z year)).
Proof.
  intros R. destruct (recalculate_Returns rt _ _ _ R) as (bd & bw & G & D & W).
  destruct (group_orders_files rt _ _ _ G) as (FD & FW). split.
  - intros s I. destruct (filed_sale rt _ _ _ _ _ _ FD D I) as (_ & S).
    destruct (sale_of_Returns rt _ _ _ _ S) as (_ & _ & Id & _).
    split; [exact Id|]. intros y m d Hy Hm Hd Ny P. rewrite Id, P.
    now apply daily_id_digits.
  - intros s I. destruct (filed_sale rt _ _ _ _ _ _ FW W I) as (N & S).
    destruct (sale_of_Returns rt _ _ _ _ S) as (_ & _ & Id & _).
    split; [exact Id|].
    assert (K : exists date, period s = getWeekNumber rt date).
    { destruct (members_of (week_of rt) (period s) orders) as [|o l] eqn:M; [congruence|].
      assert (Io : In o (members_of (week_of rt) (period s) orders))
        by (rewrite M; now left).
      apply filter_In in Io. destruct Io as (_ & F).
      unfold filed_under, week_of in F.
      destruct (get o "createdAt") as [| |?|?|c]; try discriminate.
      destruct (String.eqb c ""); [discriminate|].
      apply String.eqb_eq in F. eauto. }
    destruct K as (date & K).
    destruct (getWeekNumber_shape rt date) as [E|(year & week & E)];
      rewrite <- K in E; rewrite Id, E.
    + left. split; reflexivity.
    + right. exists year, week. split; [reflexivity|]. apply weekly_id_printed.
Qed.

(** C6, as the code has it.  The breakdown of a bucket has exactly the four
    keys Balance, Cash, Card and Bank, and each holds the amounts of the
    members that pay into it, added in order.  An order whose method is the text
    Bank Transfer pays into Bank only; an order whose method is the name
    of a key pays into that key, the method Bank included; an order whose
    method reads as none of Balance, Cash, Card, Bank and Bank Transfer (an
    unset method reads Not Set) pays into no key.  Two members of 50 in
    cash and 30 by bank transfer give Balance 0, Cash 50, Card 0, Bank
    30. *)
Theorem breakdown_keys_and_sums (rt : Runtime) (clock : nat -> string)
    (orders : list object) (an : Analytics) (s : Sale) (members : list object) :
  recalculateAnalytics rt clock orders = Returns an ->
  bucket rt orders an s members ->
  (forall k, is_Some (paymentBreakdown s !! k) <-> In k breakdown_keys)
  /\ (forall k, In k breakdown_keys ->
        paymentBreakdown s !! k
        = Some (sum_amounts rt (List.filter (pays_into rt k) members)))
  /\ (forall order k, method_of order = VStr "Bank Transfer" ->
        pays_into rt k order = String.eqb k "Bank")
  /\ (forall order k, In k breakdown_keys -> method_of order = VStr k ->
        pays_into rt k order = true)
  /\ (forall order k, In k breakdown_keys ->
        ~ In (ToString rt (method_of order))
             ["Balance"; "Cash"; "Card"; "Bank"; "Bank Transfer"] ->
        pays_into rt k order = false)
  /\ (forall order, truthy (get order "paymentMethod") = false ->
        method_of order = VStr "Not Set")
  /\ (forall first second,
        members = [first; second] ->
        method_of first = VStr "Cash" -> amount rt first = 50%float ->
        method_of second = VStr "Bank Transfer" -> amount rt second = 30%float ->
        paymentBreakdown s
        = <["Balance" := 0%float]> (<["Cash" := 50%float]> (<["Card" := 0%float]>
            (<["Bank" := 30%float]> ∅)))).
Proof.
  intros R B. destruct (bucket_sale rt _ _ _ _ _ R B) as (_ & mk & _ & S).
  destruct (sale_of_Returns rt _ _ _ _ S)
    as (sr & _ & _ & _ & _ & _ & _ & _ & _ & _ & _ & _ & P).
  rewrite P. split; [|split; [|split; [|split; [|split; [|split]]]]].
  - intros k. rewrite breakdown_lookup. case_bool_decide as I.
    + split; eauto.
    + split; [intros (? & ?); discriminate | tauto].
  - intros k I. rewrite breakdown_lookup. now rewrite bool_decide_eq_true_2.
  - intros order k M. unfold pays_into. now rewrite M.
  - intros order k I M. unfold pays_into. rewrite M. cbn [is_str ToString].
    cbn in I. destruct I as [<-|[<-|[<-|[<-|[]]]]]; reflexivity.
  - intros order k I N. unfold pays_into.
    destruct (is_str "Bank Transfer" (method_of order)) eqn:T.
    + exfalso. apply N. destruct (method_of order); try discriminate T.
      cbn in T. apply String.eqb_eq in T. subst. cbn. tauto.
    + apply String.eqb_neq. intros E. apply N. rewrite E.
      cbn in I. cbn. tauto.
  - intros order T. unfold method_of, js_or. now rewrite T.
  - intros first second -> M1 A1 M2 A2. cbn [fold_left].
    unfold payment_step. fold (method_of first) (method_of second).
    rewrite M1, M2, A1, A2. reflexivity.
Qed.

End AnalyticsClaims.

(** ** The claims at sample ledgers *)
Module AnalyticsSamples.
Import Js Analytics Spec Aux Samples AnalyticsClaims.

Ltac sample_returns := vm_compute; reflexivity.

Ltac sample_day_bucket :=
  left; split; [left; reflexivity | vm_compute; reflexivity].


Lemma tied_returns : recalculateAnalytics Host.utc clock tied = Returns tied_result.
Proof. vm_compute. reflexivity. Qed.




Lemma week_key_2024_01_01_witness :
  Host.iso_parse "2024-01-01T10:00:00.000Z" = Some 1704103200000%Z
  /\ YearFromTime (LocalTime Host.utc 1704103200000) = 2024%Z
  /\ MonthFromTime (LocalTime Host.utc 1704103200000) = 0%Z
  /\ DateFromTime (LocalTime Host.utc 1704103200000) = 1%Z
  /\ getWeekNumber Host.utc (Some 1704103200000%Z) = "2024-W1".
Proof.
  refine (conj eq_refl (conj eq_refl (conj eq_refl (conj eq_refl _)))).
  apply (week_key_2024_01_01 Host.utc 1704103200000); reflexivity.
Defined.


Lemma bucket_ids_witness :
  recalculateAnalytics Host.utc clock tied = Returns tied_result
  /\ (forall s, In s (dailySales tied_result) ->
        id s = parsed_number (parseInt (remove_dashes (period s)))
        /\ forall y m d,
             all_digits y = true -> all_digits m = true -> all_digits d = true ->
             y <> EmptyString ->
             period s = y +:+ "-" +:+ m +:+ "-" +:+ d ->
             id s = float_of_Z (digits_value (y +:+ m +:+ d) 0))
  /\ (forall s, In s (weeklySales tied_result) ->
        id s = parsed_number (parseInt (remove_first_W (period s)))
        /\ ((period s = "NaN-WNaN" /\ id s = js_nan)
            \/ exists year week,
                 period s = string_of_Z year +:+ "-W" +:+ week
                 /\ id s = float_of_Z year)).
Proof.
  split; [sample_returns|].
  apply (bucket_ids Host.utc clock tied tied_result). sample_returns.
Defined.

Lemma breakdown_keys_and_sums_witness :
  recalculateAnalytics Host.utc clock two_payments = Returns two_payments_result
  /\ bucket Host.utc two_payments two_payments_result
            (first_sale (dailySales two_payments_result)) two_payments
  /\ paymentBreakdown (first_sale (dailySales two_payments_result))
     = <["Balance" := 0%float]> (<["Cash" := 50%float]> (<["Card" := 0%float]>
         (<["Bank" := 30%float]> ∅))).
Proof.
  split; [sample_returns|]. split; [sample_day_bucket|].
  destruct (breakdown_keys_and_sums Host.utc clock two_payments two_payments_result
              (first_sale (dailySales two_payments_result)) two_payments)
    as (_ & _ & _ & _ & _ & _ & Scenario); [sample_returns | sample_day_bucket |].
  apply (Scenario cash_50 transfer_30); reflexivity.
Defined.

(** The average times the count need not give the revenue back exactly:
    a revenue of 1 over 49 orders has the average 1/49, and 49 times that
    number is the number just below 1. *)
Example average_times_count_is_rounded :
  exists s,
    sale_of Host.utc daily_id "2024-01-02" one_of_49 = Returns s
    /\ totalRevenue s = 1%float
    /\ totalOrders s = 49%nat
    /\ (averageOrderValue s * 49)%float = 0x1.fffffffffffffp-1%float
    /\ (averageOrderValue s * 49)%float <> totalRevenue s.
Proof.
  eexists. split; [vm_compute; reflexivity|].
  repeat split; try reflexivity. vm_compute. discriminate.
Qed.

(** The first scenario of the specification, on the reference host. *)
Example single_delivered_order :
  exists an day,
    recalculateAnalytics Host.utc clock single_delivered = Returns an
    /\ dailySales an = [day]
    /\ id day = 20240102%float
    /\ totalRevenue day = 100%float
    /\ deliveredOrders day = 1%nat
    /\ topShop day = "A"
    /\ paymentBreakdown day = emptyBreakdown
    /\ map message (notifications an) = ["Order #1 delivered successfully"].
Proof.
  eexists _, _. split; [vm_compute; reflexivity|].
  repeat split; reflexivity.
Qed.


(** C3. The id of a weekly entry is not its week number: for the week
    2024-W1 the code computes the id 2024, the year, where the claim has
    the week number 1; the daily entry of the same ledger has the id
    20240102, its date without the hyphens, as claimed. *)
Lemma weekly_id_is_not_week_number :
  exists an day week,
    recalculateAnalytics Host.utc clock tied = Returns an
    /\ dailySales an = [day] /\ weeklySales an = [week]
    /\ period day = "2024-01-02"
    /\ id day = 20240102%float
    /\ period week = "2024-W1"
    /\ id week = 2024%float
    /\ id week <> 1%float.
Proof.
  eexists _, _, _. split; [exact tied_returns|].
  do 6 (split; [reflexivity|]). vm_compute. discriminate.
Qed.

(** C6, as stated, fails: the method Bank is none of Balance, Cash, Card and
    Bank Transfer, and the order paid that way adds its 50 to the key
    Bank. *)
Lemma method_Bank_pays_into_Bank :
  exists an day,
    recalculateAnalytics Host.utc clock tied = Returns an
    /\ dailySales an = [day]
    /\ method_of tied_A = VStr "Cash"
    /\ method_of tied_B = VStr "Bank"
    /\ amount Host.utc tied_B = 50%float
    /\ paymentBreakdown day !! "Bank" = Some 50%float
    /\ paymentBreakdown day !! "Bank" <> Some 0%float.
Proof.
  eexists _, _. split; [exact tied_returns|].
  repeat split; try reflexivity; discriminate.
Qed.

End AnalyticsSamples.

(** * The claims about the order mutations *)
Module OrdersClaims.
Import Js Analytics OrdersApi.

(** What a property of the merge [{...order, ...body}] is. *)
Lemma get_merge (order body : object) (k : string) :
  get (body ∪ order) k = match body !! k with Some v => v | None => get order k end.
Proof.
  unfold get. rewrite lookup_union. destruct (body !! k), (order !! k); reflexivity.
Qed.

(** C4, as the code has it.  In the update, the request alone decides the
    stamping: when the status of the request body is Delivered, whatever
    the stored order is, deliveredAt becomes the body's deliveredAt or else
    the current time, and deliveryNotes the body's deliveryNotes or else
    the empty text, over what the order had; when it is not, each of the
    two is the body's if the body gives it and the stored one if not. *)
Theorem delivery_stamp_rule (now : string) (order body : object) :
  get (updatedOrder now order body) "deliveredAt"
  = (if is_str "Delivered" (get body "status")
     then js_or (get body "deliveredAt") (VStr now)
     else match body !! "deliveredAt" with
          | Some v => v
          | None => get order "deliveredAt"
          end)
  /\ get (updatedOrder now order body) "deliveryNotes"
     = (if is_str "Delivered" (get body "status")
        then js_or (get body "deliveryNotes") (VStr "")
        else match body !! "deliveryNotes" with
             | Some v => v
             | None => get order "deliveryNotes"
             end).
Proof.
  unfold updatedOrder, delivery_stamp.
  split; unfold get at 1; rewrite lookup_insert_ne by discriminate;
    rewrite lookup_union;
    destruct (is_str "Delivered" (get body "status")).
  - rewrite lookup_insert_ne by discriminate. rewrite lookup_insert_eq.
    now destruct ((body ∪ order) !! "deliveredAt").
  - rewrite lookup_empty, (left_id_L None _). apply get_merge.
  - rewrite lookup_insert_eq. now destruct ((body ∪ order) !! "deliveryNotes").
  - rewrite lookup_empty, (left_id_L None _). apply get_merge.
Qed.

(** The handler puts that object in the place of the order it found. *)
Lemma put_order_stores (rt : Runtime) (clock : nat -> string) (st : State)
    (param_id : string) (body : object) (i : nat) (order : object)
    (st' : State) (answer : response) :
  findIndex (id_is (parseInt param_id)) (orders st) = Some i ->
  orders st !! i = Some order ->
  put_order rt clock st param_id body = Returns (st', answer) ->
  orders st' = <[i := updatedOrder (clock 0%nat) order body]> (orders st).
Proof.
  unfold put_order, refresh. intros -> ->.
  destruct (recalculateAnalytics rt _ _); intros [= <- _]; reflexivity.
Qed.

(** What the literal of the creation fixes, and what it leaves to the
    request body. *)
Lemma newOrder_fields (rt : Runtime) (now : string) (orders : list object)
    (body : object) :
  let order := newOrder rt now orders body in
  get order "status" = VStr "Pending"
  /\ get order "deliveredAt" = VNull
  /\ get order "deliveryNotes" = VStr ""
  /\ get order "createdAt" = VStr now
  /\ get order "basketNo" = VNum (max_id rt orders + 1)%float
  /\ get order "id" = match body !! "id" with
                      | Some v => v
                      | None => VNum (max_id rt orders + 1)%float
                      end.
Proof.
  cbn zeta. unfold newOrder, get.
  repeat split;
    repeat (first [ rewrite lookup_insert_eq | rewrite lookup_insert_ne by discriminate ]);
    try reflexivity.
  rewrite lookup_union, lookup_singleton_eq. now destruct (body !! "id").
Qed.

Lemma max_id_empty (rt : Runtime) : max_id rt [] = 0%float.
Proof. reflexivity. Qed.

End OrdersClaims.

(** ** The order mutations at sample requests *)
Module OrdersSamples.
Import Js Analytics OrdersApi Samples OrdersClaims.

(** C4, as stated, fails: the order is already Delivered (it is neither
    Pending nor In Process) and has both fields, and an update whose body
    is just the status Delivered replaces its delivery time by the current
    time and its note by the empty text. *)
Lemma restamps_delivered_order :
  get delivered_order "status" = VStr "Delivered"
  /\ get delivered_order "deliveredAt" = VStr "2024-01-02T15:00:00.000Z"
  /\ get delivered_order "deliveryNotes" = VStr "left at the door"
  /\ get (updatedOrder "2024-03-01T09:30:00.000Z" delivered_order status_only) "deliveredAt"
     = VStr "2024-03-01T09:30:00.000Z"
  /\ get (updatedOrder "2024-03-01T09:30:00.000Z" delivered_order status_only) "deliveryNotes"
     = VStr ""
  /\ get (updatedOrder "2024-03-01T09:30:00.000Z" delivered_order status_only) "deliveredAt"
     <> get delivered_order "deliveredAt".
Proof. repeat split; try reflexivity; discriminate. Qed.

(** C10 at a request that brings an id: on the empty ledger the order
    created has the id of the body, 99, and not 1, while its basket number
    is 1 and its status Pending. *)
Theorem body_id_replaces_next_id :
  let order := newOrder Host.utc "2024-03-01T09:30:00.000Z" [] body_with_id in
  get order "id" = VNum 99%float
  /\ get order "basketNo" = VNum 1%float
  /\ get order "deliveryNo" = VStr "D001"
  /\ get order "status" = VStr "Pending"
  /\ get order "deliveredAt" = VNull
  /\ get order "deliveryNotes" = VStr "".
Proof. repeat split; reflexivity. Qed.

End OrdersSamples.

(** * How the engine files a ledger: order of the entries, counting *)
Module FilingFacts.
Import Js Analytics Spec Aux Filing JsFacts AnalyticsFacts.

(** ** Keys in the order of their first appearance *)

Lemma first_seen_In (k : string) (l : list string) : In k (first_seen l) <-> In k l.
Proof.
  induction l as [|x l IH]; cbn; [tauto|].
  rewrite filter_In, IH. destruct (String.eqb_spec x k); cbn; intuition congruence.
Qed.

Lemma filter_ne_absent (x : string) (l : list string) :
  ~ In x l -> List.filter (fun k' => negb (String.eqb x k')) l = l.
Proof.
  induction l as [|y l IH]; cbn; [reflexivity|]. intros N.
  destruct (String.eqb_spec x y) as [->|]; cbn.
  - exfalso. apply N. now left.
  - rewrite IH; [reflexivity|]. intros I. apply N. now right.
Qed.

Lemma first_seen_snoc_new (l : list string) (k : string) :
  ~ In k l -> first_seen (l ++ [k]) = first_seen l ++ [k].
Proof.
  induction l as [|x l IH]; cbn; [reflexivity|]. intros N.
  rewrite IH by tauto. rewrite List.filter_app. cbn.
  destruct (String.eqb_spec x k); cbn; [tauto|reflexivity].
Qed.

Lemma first_seen_snoc_old (l : list string) (k : string) :
  In k l -> first_seen (l ++ [k]) = first_seen l.
Proof.
  induction l as [|x l IH]; cbn; [tauto|]. intros I. f_equal.
  destruct (in_dec string_dec k l) as [I'|N]; [now rewrite IH|].
  destruct I as [->|I]; [|tauto].
  rewrite first_seen_snoc_new by exact N. rewrite List.filter_app. cbn.
  rewrite String.eqb_refl. cbn. apply app_nil_r.
Qed.

Lemma first_seen_NoDup (l : list string) : List.NoDup (first_seen l).
Proof.
  induction l as [|x l IH]; cbn; constructor.
  - rewrite filter_In, String.eqb_refl. cbn. intuition discriminate.
  - now apply List.NoDup_filter.
Qed.

(** ** Undated orders *)

Lemma group_orders_dated (rt : Runtime) (orders : list object) :
  group_orders rt (List.filter dated orders) = group_orders rt orders.
Proof.
  unfold group_orders. generalize (Returns ([], []) : outcome (dict (list object) * dict (list object))).
  induction orders as [|order orders IH]; intros acc; cbn; [reflexivity|].
  destruct (dated order) eqn:D; cbn; [apply IH|]. rewrite IH. f_equal.
  destruct acc as [[byDate byWeek]| |]; cbn; try reflexivity.
  unfold dated in D. now rewrite D.
Qed.

(** ** The keys of the two dictionaries *)

Lemma push_keys (k : string) (order : object) (d d' : dict (list object)) :
  push_order k order (ensure_list k d) = Returns d' ->
  map fst d' = match own_get k d with
               | Some _ => map fst d
               | None => map fst d ++ [k]
               end.
Proof.
  unfold ensure_list, push_order. destruct (own_get k d) eqn:E.
  - rewrite E. intros [= <-]. now rewrite own_set_keys, E.
  - destruct (inherited k).
    + rewrite E. discriminate.
    + rewrite own_get_set_eq. intros [= <-].
      now rewrite own_set_keys, own_get_set_eq, own_set_keys, E.
Qed.

Lemma push_keys_first_seen (k : string) (order : object) (d d' : dict (list object))
    (keys : list string) :
  map fst d = first_seen keys ->
  push_order k order (ensure_list k d) = Returns d' ->
  map fst d' = first_seen (keys ++ [k]).
Proof.
  intros K P. rewrite (push_keys _ _ _ _ P).
  destruct (own_get k d) eqn:E.
  - rewrite first_seen_snoc_old; [exact K|].
    apply first_seen_In. rewrite <- K. apply own_get_In. now rewrite E.
  - rewrite first_seen_snoc_new; [now rewrite K|].
    intros I. apply first_seen_In in I. rewrite <- K in I.
    apply own_get_In in I. rewrite E in I. now destruct I.
Qed.

Lemma group_orders_keys (rt : Runtime) (orders : list object)
    (byDate byWeek : dict (list object)) :
  group_orders rt orders = Returns (byDate, byWeek) ->
  map fst byDate = first_seen (dates_of orders)
  /\ map fst byWeek = first_seen (weeks_of rt orders).
Proof.
  revert byDate byWeek. induction orders as [|order orders IH] using rev_ind;
    intros byDate byWeek.
  - intros [= <- <-]. split; reflexivity.
  - rewrite group_orders_snoc.
    destruct (group_orders rt orders) as [[byDate0 byWeek0]| |]; try discriminate.
    cbn. intros G. destruct (IH _ _ eq_refl) as (KD & KW).
    unfold dates_of, weeks_of. rewrite !omap_app. cbn.
    destruct (group_order_Returns rt _ _ _ _ _ G)
      as [(D & W & -> & ->)|(date & week & D & W & PD & PW)];
      rewrite D, W; cbn.
    + rewrite !app_nil_r. now split.
    + split; eapply push_keys_first_seen; eauto.
Qed.

(** ** [Object.keys] lists every key once *)

Lemma insert_index_Permutation (p : Z * string) (l : list (Z * string)) :
  Permutation (insert_index p l) (p :: l).
Proof.
  induction l as [|q l IH]; cbn; [reflexivity|].
  destruct (p.1 <? q.1)%Z; [reflexivity|].
  rewrite IH. apply perm_swap.
Qed.

Lemma index_keys_Permutation (ks : list string) :
  Permutation (map snd (index_keys ks))
              (List.filter (fun k => negb (is_name k)) ks).
Proof.
  induction ks as [|k ks IH]; cbn; [reflexivity|].
  unfold is_name at 1. destruct (array_index k) as [n|]; cbn; [|exact IH].
  rewrite insert_index_Permutation. cbn. now rewrite IH.
Qed.

Lemma Object_keys_Permutation {A} (d : dict A) :
  Permutation (Object_keys d) (map fst d).
Proof.
  unfold Object_keys. rewrite index_keys_Permutation.
  induction (map fst d) as [|k ks IH]; cbn; [reflexivity|].
  destruct (is_name k); cbn.
  - rewrite <- Permutation_middle. now rewrite IH.
  - now rewrite IH.
Qed.

(** ** The entries follow the keys *)

Lemma mapM_Returns_Forall2 {A B} (f : A -> outcome B) (l : list A) (l' : list B) :
  mapM f l = Returns l' -> Forall2 (fun x y => f x = Returns y) l l'.
Proof.
  revert l'. induction l as [|x l IH]; cbn; intros l'.
  - intros [= <-]. constructor.
  - destruct (f x) as [y| |] eqn:F; cbn; try discriminate.
    destruct (mapM f l) as [k| |]; cbn; try discriminate.
    intros [= <-]. constructor; [exact F|]. now apply IH.
Qed.

Lemma sales_of_periods (rt : Runtime) mk (byKey : dict (list object)) (sales : list Sale) :
  sales_of rt mk byKey = Returns sales -> map period sales = Object_keys byKey.
Proof.
  unfold sales_of. intros M. apply mapM_Returns_Forall2 in M.
  induction M as [|key s keys sales F _ IH]; cbn; [reflexivity|]. f_equal; [|exact IH].
  destruct (own_get key byKey) as [members|]; [|discriminate].
  now destruct (sale_of_Returns rt _ _ _ _ F) as (_ & _ & _ & P & _).
Qed.

(** ** Week keys are never array indices *)

Lemma has_W_uint (d : Decimal.uint) : has_W (NilEmpty.string_of_uint d) = false.
Proof. induction d; cbn; auto. Qed.

Lemma has_W_string_of_Z (n : Z) : has_W (string_of_Z n) = false.
Proof.
  unfold string_of_Z, NilZero.string_of_int, NilZero.string_of_uint.
  destruct (Z.to_int n) as [d|d]; destruct d; cbn; auto using has_W_uint.
Qed.

Lemma array_index_no_W (k : string) (n : Z) : array_index k = Some n -> has_W k = false.
Proof.
  unfold array_index. destruct (read_digits _ _ _ _ _) as [m|]; [|discriminate].
  destruct (String.eqb_spec (string_of_Z m) k) as [<-|]; cbn; [|discriminate].
  intros _. apply has_W_string_of_Z.
Qed.

Lemma getWeekNumber_name (rt : Runtime) (date : option Z) :
  is_name (getWeekNumber rt date) = true.
Proof.
  unfold is_name. destruct (array_index _) as [n|] eqn:E; [|reflexivity].
  apply array_index_no_W in E.
  destruct (getWeekNumber_shape rt date) as [S|(y & w & S)]; rewrite S in E.
  - discriminate E.
  - rewrite !has_W_app in E. cbn in E. now rewrite orb_true_r in E.
Qed.

Lemma weeks_of_names (rt : Runtime) (orders : list object) :
  Forall (fun k => is_name k = true) (weeks_of rt orders).
Proof.
  unfold weeks_of. induction orders as [|order orders IH]; cbn; [constructor|].
  unfold week_of at 1. destruct (get order "createdAt"); cbn; try exact IH.
  destruct (String.eqb s ""); cbn; [exact IH|].
  constructor; [apply getWeekNumber_name|exact IH].
Qed.

Lemma first_seen_Forall (P : string -> Prop) (l : list string) :
  Forall P l -> Forall P (first_seen l).
Proof.
  rewrite !List.Forall_forall. intros H k I. apply H. now apply first_seen_In.
Qed.

(** ** Counting *)

Definition count_key (k : string) (keys : list string) : nat :=
  length (List.filter (String.eqb k) keys).

Lemma members_of_count key_of (k : string) (orders : list object) :
  length (members_of key_of k orders) = count_key k (omap key_of orders).
Proof.
  unfold members_of, count_key. induction orders as [|order orders IH]; cbn; [reflexivity|].
  unfold filed_under at 1. destruct (key_of order) as [k'|]; cbn; [|exact IH].
  rewrite String.eqb_sym. destruct (String.eqb k k'); cbn; now rewrite IH.
Qed.

Lemma sum_nat_cons (x : nat) (l : list nat) : sum_nat (x :: l) = x + sum_nat l.
Proof. reflexivity. Qed.

Lemma sum_nat_add {A} (f g : A -> nat) (l : list A) :
  sum_nat (map (fun x => f x + g x) l) = sum_nat (map f l) + sum_nat (map g l).
Proof.
  unfold sum_nat. induction l as [|x l IH]; cbn; [reflexivity|]. rewrite IH. lia.
Qed.

Lemma sum_nat_Permutation (l l' : list nat) :
  Permutation l l' -> sum_nat l = sum_nat l'.
Proof. unfold sum_nat. induction 1; cbn; lia. Qed.

Lemma sum_indicator (x : string) (ks : list string) :
  List.NoDup ks ->
  sum_nat (map (fun k => if String.eqb k x then 1 else 0) ks)
  = if existsb (String.eqb x) ks then 1 else 0.
Proof.
  induction 1 as [|k ks N _ IH]; [reflexivity|]. cbn [map existsb].
  rewrite sum_nat_cons, IH, (String.eqb_sym k x). destruct (String.eqb_spec x k) as [<-|]; cbn; [|reflexivity].
  destruct (existsb (String.eqb x) ks) eqn:E; [|reflexivity].
  apply existsb_exists in E. destruct E as (y & I & E).
  apply String.eqb_eq in E. now subst y.
Qed.

Lemma sum_counts (ks keys : list string) :
  List.NoDup ks ->
  sum_nat (map (fun k => count_key k keys) ks)
  = length (List.filter (fun x => existsb (String.eqb x) ks) keys).
Proof.
  intros N. induction keys as [|x keys IH]; cbn [List.filter length].
  - clear N. induction ks as [|k ks IH]; [reflexivity|]. cbn [map].
    now rewrite sum_nat_cons, IH.
  - rewrite (map_ext _ (fun k => (if String.eqb k x then 1 else 0) + count_key k keys)).
    + rewrite sum_nat_add, IH, sum_indicator by exact N.
      now destruct (existsb (String.eqb x) ks).
    + intros k. unfold count_key. cbn. now destruct (String.eqb k x).
Qed.

Lemma sum_counts_first_seen (keys : list string) :
  sum_nat (map (fun k => count_key k keys) (first_seen keys)) = length keys.
Proof.
  rewrite sum_counts by apply first_seen_NoDup. f_equal.
  apply forallb_filter_id. apply forallb_forall. intros x I.
  apply existsb_exists. exists x. split; [now apply first_seen_In|apply String.eqb_refl].
Qed.

(** On a ledger the engine accepts, the orders with a key are the dated
    ones. *)
Lemma keyed_dated (rt : Runtime) (orders : list object) groups :
  group_orders rt orders = Returns groups ->
  length (dates_of orders) = length (List.filter dated orders)
  /\ length (weeks_of rt orders) = length (List.filter dated orders).
Proof.
  intros G. pose proof (group_orders_Returns rt _ _ G) as Ok. clear G.
  unfold dates_of, weeks_of.
  induction orders as [|order orders IH]; cbn; [now split|].
  destruct IH as (IHd & IHw); [intros o I; apply Ok; now right|].
  specialize (Ok order (or_introl eq_refl)).
  unfold dated, date_of, week_of in *.
  destruct (get order "createdAt") as [| |b|x|s]; cbn in *.
  - now split.
  - now split.
  - rewrite Ok. now split.
  - rewrite Ok. now split.
  - destruct (String.eqb s ""); cbn; split; congruence.
Qed.

Lemma sales_of_totals (rt : Runtime) key_of mk (orders : list object)
    (byKey : dict (list object)) (sales : list Sale) :
  files key_of orders byKey ->
  sales_of rt mk byKey = Returns sales ->
  map totalOrders sales
  = map (fun k => count_key k (omap key_of orders)) (map period sales).
Proof.
  intros F S. rewrite map_map. apply map_ext_in. intros s I.
  destruct (filed_sale rt _ _ _ _ _ _ F S I) as (_ & Sale).
  destruct (sale_of_Returns rt _ _ _ _ Sale) as (_ & _ & _ & _ & _ & T & _).
  now rewrite T, members_of_count.
Qed.

Lemma sales_of_count (rt : Runtime) key_of mk (orders : list object)
    (byKey : dict (list object)) (sales : list Sale) :
  files key_of orders byKey ->
  map fst byKey = first_seen (omap key_of orders) ->
  sales_of rt mk byKey = Returns sales ->
  List.NoDup (map period sales)
  /\ sum_nat (map totalOrders sales) = length (omap key_of orders).
Proof.
  intros F K S.
  assert (P : Permutation (map period sales) (first_seen (omap key_of orders))).
  { rewrite (sales_of_periods _ _ _ _ S), <- K. apply Object_keys_Permutation. }
  split.
  - eapply Permutation_NoDup; [symmetry; exact P|apply first_seen_NoDup].
  - rewrite (sales_of_totals _ _ _ _ _ _ F S), <- sum_counts_first_seen.
    apply sum_nat_Permutation. now apply Permutation_map.
Qed.

End FilingFacts.

(** * Properties of a recalculation beyond the specification *)
Module FilingProperties.
Import Js Analytics Spec Aux Filing JsFacts AnalyticsFacts FilingFacts.

(** X1. Every dated order is counted once by day and once by week: in the
    result of a recalculation the daily entries have pairwise distinct
    dates and the weekly entries pairwise distinct weeks, and the order
    counts of each of the two lists add up to the number of orders whose
    createdAt is truthy. *)
Theorem orders_counted_once (rt : Runtime) (clock : nat -> string)
    (orders : list object) (a : Analytics) :
  recalculateAnalytics rt clock orders = Returns a ->
  List.NoDup (map period (dailySales a))
  /\ List.NoDup (map period (weeklySales a))
  /\ sum_nat (map totalOrders (dailySales a)) = length (List.filter dated orders)
  /\ sum_nat (map totalOrders (weeklySales a)) = length (List.filter dated orders).
Proof.
  intros R. destruct (recalculate_Returns rt _ _ _ R) as (byDate & byWeek & G & D & W).
  destruct (group_orders_files rt _ _ _ G) as (FD & FW).
  destruct (group_orders_keys rt _ _ _ G) as (KD & KW).
  destruct (keyed_dated rt _ _ G) as (LD & LW).
  destruct (sales_of_count rt _ _ _ _ _ FD KD D) as (ND & SD).
  destruct (sales_of_count rt _ _ _ _ _ FW KW W) as (NW & SW).
  unfold dates_of, weeks_of in *. repeat split; congruence.
Qed.

(** X2. Orders without a creation timestamp are invisible to the sales:
    recalculating on the ledger and on the ledger without its undated
    orders ends alike, with the same daily entries, weekly entries and
    prediction. *)
Theorem undated_orders_leave_sales (rt : Runtime) (clock clock' : nat -> string)
    (orders : list object) :
  sales_part (recalculateAnalytics rt clock (List.filter dated orders))
  = sales_part (recalculateAnalytics rt clock' orders).
Proof.
  unfold sales_part, recalculateAnalytics. rewrite group_orders_dated.
  destruct (group_orders rt orders) as [[byDate byWeek]| |]; cbn; try reflexivity.
  destruct (sales_of rt daily_id byDate); cbn; try reflexivity.
  destruct (sales_of rt weekly_id byWeek); cbn; reflexivity.
Qed.

(** X3. The entries are listed by first appearance, not by calendar: the
    weekly entries come in the order in which their weeks first appear in
    the ledger, and so do the daily entries when no date part is written
    like an array index; the last daily entry, from which the prediction
    is made, is then the one of the date that appeared last for the first
    time. *)
Theorem entries_in_order_of_first_appearance (rt : Runtime) (clock : nat -> string)
    (orders : list object) (a : Analytics) :
  recalculateAnalytics rt clock orders = Returns a ->
  Forall (fun k => is_name k = true) (dates_of orders) ->
  map period (dailySales a) = first_seen (dates_of orders)
  /\ map period (weeklySales a) = first_seen (weeks_of rt orders)
  /\ period <$> last (dailySales a) = last (first_seen (dates_of orders)).
Proof.
  intros R N. destruct (recalculate_Returns rt _ _ _ R) as (byDate & byWeek & G & D & W).
  destruct (group_orders_keys rt _ _ _ G) as (KD & KW).
  assert (PD : map period (dailySales a) = first_seen (dates_of orders)).
  { rewrite (sales_of_periods _ _ _ _ D), Object_keys_names; [exact KD|].
    rewrite KD. now apply first_seen_Forall. }
  split; [exact PD|]. split.
  - rewrite (sales_of_periods _ _ _ _ W), Object_keys_names; [exact KW|].
    rewrite KW. apply first_seen_Forall, weeks_of_names.
  - rewrite <- PD. symmetry. apply fmap_last.
Qed.

End FilingProperties.

(** ** The properties at sample ledgers *)
Module FilingSamples.
Import Js Analytics Spec Aux Filing Samples MoreSamples FilingProperties.

Lemma orders_counted_once_witness :
  recalculateAnalytics Host.utc clock out_of_order = Returns out_of_order_result
  /\ sum_nat (map totalOrders (dailySales out_of_order_result)) = 3%nat
  /\ sum_nat (map totalOrders (dailySales out_of_order_result))
     = length (List.filter dated out_of_order).
Proof.
  split; [vm_compute; reflexivity|]. split; [reflexivity|].
  apply (orders_counted_once Host.utc clock out_of_order out_of_order_result).
  vm_compute; reflexivity.
Defined.

Lemma entries_in_order_of_first_appearance_witness :
  recalculateAnalytics Host.utc clock out_of_order = Returns out_of_order_result
  /\ dates_of out_of_order = ["2024-01-05"; "2024-01-02"; "2024-01-05"]
  /\ first_seen (dates_of out_of_order) = ["2024-01-05"; "2024-01-02"]
  /\ map period (dailySales out_of_order_result) = first_seen (dates_of out_of_order).
Proof.
  split; [vm_compute; reflexivity|]. split; [reflexivity|]. split; [reflexivity|].
  apply (entries_in_order_of_first_appearance Host.utc clock out_of_order out_of_order_result).
  - vm_compute; reflexivity.
  - repeat constructor.
Defined.

End FilingSamples.

(** * Amounts that are not numbers *)
Module RevenueFacts.
Import Js Analytics Spec Aux JsFacts AnalyticsFacts.

(** Once the sum is NaN it stays NaN. *)
Lemma sum_from_nan (rt : Runtime) (members : list object) (x : float) :
  PrimFloat.is_nan x = true ->
  PrimFloat.is_nan (fold_left (fun sum order => (sum + amount rt order)%float) members x)
  = true.
Proof.
  revert x. induction members as [|order members IH]; cbn; intros x N; [exact N|].
  apply IH. now apply add_nan_l.
Qed.

Lemma sum_with_nan (rt : Runtime) (members : list object) (order : object) (x : float) :
  In order members -> PrimFloat.is_nan (amount rt order) = true ->
  PrimFloat.is_nan (fold_left (fun sum order => (sum + amount rt order)%float) members x)
  = true.
Proof.
  revert x. induction members as [|o members IH]; cbn; intros x I N; [destruct I|].
  destruct I as [<-|I].
  - apply sum_from_nan. now apply add_nan_r.
  - now apply IH.
Qed.

End RevenueFacts.

Module RevenueProperties.
Import Js Analytics Spec Aux JsFacts AnalyticsFacts RevenueFacts.

(** X4. One amount that is not a number spoils the revenue of its day and
    of its week: when [parseFloat] gives NaN for the totalAmount of a
    member of a bucket, the totalRevenue and the averageOrderValue of the
    bucket are NaN, whatever the other members are. *)
Theorem unreadable_amount_spoils_revenue (rt : Runtime) (clock : nat -> string)
    (orders : list object) (a : Analytics) (s : Sale) (members : list object)
    (order : object) :
  recalculateAnalytics rt clock orders = Returns a ->
  bucket rt orders a s members ->
  In order members ->
  PrimFloat.is_nan (amount rt order) = true ->
  PrimFloat.is_nan (totalRevenue s) = true
  /\ PrimFloat.is_nan (averageOrderValue s) = true.
Proof.
  intros R B I N. destruct (bucket_sale rt _ _ _ _ _ R B) as (_ & mk & _ & S).
  destruct (sale_of_Returns rt _ _ _ _ S) as (sr & _ & _ & _ & T & _ & _ & _ & _ & A & _).
  assert (NT : PrimFloat.is_nan (totalRevenue s) = true).
  { rewrite T. unfold sum_amounts. now apply sum_with_nan with order. }
  split; [exact NT|]. rewrite A.
  destruct members as [|o members]; [destruct I|]. cbn [length Nat.ltb Nat.leb].
  rewrite <- T. now apply div_nan_l.
Qed.

End RevenueProperties.

Module RevenueSamples.
Import Js Analytics Spec Aux Samples MoreSamples RevenueProperties.

Lemma unreadable_amount_spoils_revenue_witness :
  recalculateAnalytics Host.utc clock spoiled = Returns spoiled_result
  /\ amount Host.utc cash_50 = 50%float
  /\ PrimFloat.is_nan (amount Host.utc amount_unreadable) = true
  /\ PrimFloat.is_nan (totalRevenue (first_sale (dailySales spoiled_result))) = true
  /\ PrimFloat.is_nan (averageOrderValue (first_sale (dailySales spoiled_result))) = true.
Proof.
  split; [vm_compute; reflexivity|]. split; [reflexivity|]. split; [reflexivity|].
  apply (unreadable_amount_spoils_revenue Host.utc clock spoiled spoiled_result
           (first_sale (dailySales spoiled_result)) spoiled amount_unreadable).
  - vm_compute; reflexivity.
  - left. split; [left; reflexivity | vm_compute; reflexivity].
  - right. left. reflexivity.
  - reflexivity.
Defined.

End RevenueSamples.

(** * The order mutations beyond the specification *)
Module OrdersFacts.
Import Js Analytics Spec Aux OrdersApi OrderDeletion JsFacts AnalyticsFacts FilingFacts.

Lemma findIndex_None (p : object -> bool) (l : list object) :
  findIndex p l = None <-> forall o, In o l -> p o = false.
Proof.
  induction l as [|x l IH]; cbn.
  - split; [intros _ o []|reflexivity].
  - destruct (p x) eqn:P.
    + split; [discriminate|]. intros H. rewrite (H x) in P by now left. discriminate.
    + destruct (findIndex p l) as [i|]; cbn.
      * split; [discriminate|]. intros H. exfalso.
        assert (N : Some i = None); [|discriminate N].
        apply IH. intros o I. apply H. now right.
      * split; [|reflexivity]. intros _ o [<-|I]; [exact P|].
        now apply (proj1 IH).
Qed.

Lemma findIndex_Some (p : object -> bool) (l : list object) (i : nat) :
  findIndex p l = Some i ->
  exists o, l !! i = Some o /\ p o = true
            /\ forall j o', (j < i)%nat -> l !! j = Some o' -> p o' = false.
Proof.
  revert i. induction l as [|x l IH]; cbn; intros i; [discriminate|].
  destruct (p x) eqn:P.
  - intros [= <-]. exists x. repeat split; [exact P|]. intros j o' L. lia.
  - destruct (findIndex p l) as [i'|]; cbn; [|discriminate]. intros [= <-].
    destruct (IH _ eq_refl) as (o & L & Po & Before). exists o. repeat split; auto.
    intros [|j] o' Lt; cbn.
    + now intros [= <-].
    + apply Before. lia.
Qed.

Lemma findIndex_snoc (p : object -> bool) (l : list object) (o : object) :
  (forall x, In x l -> p x = false) -> p o = true ->
  findIndex p (l ++ [o]) = Some (length l).
Proof.
  intros N P. induction l as [|x l IH]; cbn.
  - now rewrite P.
  - rewrite (N x) by now left. rewrite IH; [reflexivity|].
    intros y I. apply N. now right.
Qed.

Lemma delete_snoc {A} (l : list A) (x : A) : delete (length l) (l ++ [x]) = l.
Proof. rewrite delete_middle. apply app_nil_r. Qed.

Lemma mapM_Returns_In_l {A B} (f : A -> outcome B) (l : list A) (l' : list B) (x : A) :
  mapM f l = Returns l' -> In x l -> exists y, In y l' /\ f x = Returns y.
Proof.
  intros M. apply mapM_Returns_Forall2 in M.
  induction M as [|x0 y0 l l' F _ IH]; cbn; [intros []|].
  intros [<-|I].
  - exists y0. split; [now left|exact F].
  - destruct (IH I) as (y & Iy & Fy). exists y. split; [now right|exact Fy].
Qed.

(** A key that has a member has an entry. *)
Lemma keyed_order_has_sale (rt : Runtime) key_of mk (orders : list object)
    (byKey : dict (list object)) (sales : list Sale) (order : object) (key : string) :
  files key_of orders byKey ->
  sales_of rt mk byKey = Returns sales ->
  In order orders -> key_of order = Some key ->
  exists s, In s sales /\ period s = key /\ (0 < totalOrders s)%nat.
Proof.
  intros F S I K.
  assert (M : In order (members_of key_of key orders)).
  { unfold members_of. apply filter_In. split; [exact I|].
    unfold filed_under. rewrite K. apply String.eqb_refl. }
  assert (O : is_Some (own_get key byKey)).
  { rewrite (F key). destruct (members_of key_of key orders); [destruct M|eauto]. }
  apply own_get_In, Object_keys_In_inv in O.
  destruct (mapM_Returns_In_l _ _ _ _ S O) as (s & Is & Fs).
  exists s. split; [exact Is|].
  destruct (own_get key byKey) as [members|] eqn:E; [|discriminate].
  destruct (sale_of_Returns rt _ _ _ _ Fs) as (_ & _ & _ & P & _ & T & _).
  split; [exact P|]. rewrite T. rewrite (F key) in E.
  destruct (members_of key_of key orders); [destruct M|].
  injection E as <-. cbn. lia.
Qed.

End OrdersFacts.

Module OrdersProperties.
Import Js Analytics Spec Aux Filing OrdersApi OrderDeletion.
Import JsFacts AnalyticsFacts FilingFacts OrdersFacts.

(** X5. An update or a deletion answers 404 exactly when no order of the
    ledger has, as a number, the id that [parseInt] reads in the [:id]
    parameter; the ledger and the derived collections are then the ones
    of before.  A parameter in which [parseInt] reads no number finds no
    order. *)
Theorem unknown_id_changes_nothing (rt : Runtime) (clock : nat -> string) (st : State)
    (param_id : string) (body : object) :
  ((forall order, In order (orders st) -> id_is (parseInt param_id) order = false)
   <-> put_order rt clock st param_id body = Returns (st, NotFound))
  /\ ((forall order, In order (orders st) -> id_is (parseInt param_id) order = false)
      <-> delete_order rt clock st param_id = Returns (st, NoSuchOrder))
  /\ (parseInt param_id = None ->
      put_order rt clock st param_id body = Returns (st, NotFound)
      /\ delete_order rt clock st param_id = Returns (st, NoSuchOrder)).
Proof.
  split; [|split].
  - unfold put_order. rewrite <- findIndex_None.
    destruct (findIndex _ (orders st)) as [i|] eqn:F; [|tauto].
    split; [discriminate|]. intros H. exfalso.
    destruct (findIndex_Some _ _ _ F) as (o & L & _). rewrite L in H. unfold refresh in H.
    destruct (recalculateAnalytics rt _ _); discriminate H.
  - unfold delete_order. rewrite <- findIndex_None.
    destruct (findIndex _ (orders st)) as [i|] eqn:F; [|tauto].
    split; [discriminate|]. intros H. exfalso.
    destruct (recalculateAnalytics rt _ _); discriminate H.
  - intros N. unfold put_order, delete_order. rewrite N.
    assert (F : findIndex (id_is None) (orders st) = None).
    { apply findIndex_None. intros o _. reflexivity. }
    now rewrite F.
Qed.

(** X6. A creation that is answered with an error has happened all the
    same: when the recalculation throws, the answer is 500 with the
    message of the error, the new order is at the end of the ledger, and
    the derived collections are still the ones of before. *)
Theorem failed_creation_is_stored (rt : Runtime) (clock : nat -> string)
    (st st' : State) (body : object) (e : string) :
  post_order rt clock st body = Returns (st', ServerError e) ->
  orders st' = orders st ++ [newOrder rt (clock 0%nat) (orders st) body]
  /\ derived st' = derived st
  /\ recalculateAnalytics rt (fun k => clock (S k)) (orders st') = Throws e.
Proof.
  unfold post_order, refresh.
  destruct (recalculateAnalytics rt _ _) as [a|e'|] eqn:R; [discriminate| |discriminate].
  intros [= <- <-]. cbn. auto.
Qed.

(** X7. A created order is pending, last, and filed under the current
    day: after a creation answered 201 the ledger is the old one followed
    by the new order, no notification is left (the last order is not
    delivered), and the daily entries hold one for the date part of the
    current time, with at least one order. *)
Theorem created_order_is_filed_today (rt : Runtime) (clock : nat -> string)
    (st st' : State) (body : object) (order : object) :
  clock 0%nat <> "" ->
  post_order rt clock st body = Returns (st', Created order) ->
  orders st' = orders st ++ [order]
  /\ get order "status" = VStr "Pending"
  /\ notifications (derived st') = []
  /\ exists s, In s (dailySales (derived st'))
               /\ period s = split_T (clock 0%nat)
               /\ (0 < totalOrders s)%nat.
Proof.
  intros Now. unfold post_order, refresh.
  destruct (recalculateAnalytics rt _ _) as [a| |] eqn:R; try discriminate.
  intros [= <- <-]. cbn [orders derived].
  set (order := newOrder rt (clock 0%nat) (orders st) body) in *.
  destruct (OrdersClaims.newOrder_fields rt (clock 0%nat) (orders st) body)
    as (St & _ & _ & Cr & _).
  fold order in St, Cr.
  split; [reflexivity|]. split; [exact St|]. split.
  - unfold recalculateAnalytics in R.
    destruct (group_orders rt _) as [[byDate byWeek]| |]; try discriminate. cbn in R.
    destruct (sales_of rt daily_id byDate); try discriminate. cbn in R.
    destruct (sales_of rt weekly_id byWeek); try discriminate. cbn in R.
    injection R as <-. cbn. rewrite last_snoc, St. reflexivity.
  - destruct (recalculate_Returns rt _ _ _ R) as (byDate & byWeek & G & D & _).
    destruct (group_orders_files rt _ _ _ G) as (FD & _).
    apply (keyed_order_has_sale rt _ _ _ _ _ order _ FD D).
    + apply in_app_iff. right. now left.
    + unfold date_of. rewrite Cr.
      destruct (String.eqb_spec (clock 0%nat) ""); [contradiction|reflexivity].
Qed.

(** X8. An update merges the request body over the stored order and
    always takes the payment method from the request: the order found is
    the first with the id, the ledger keeps its length and its other
    orders, a property other than paymentMethod, deliveredAt and
    deliveryNotes is the body's when the body has it and the stored one
    when not (the id included), and paymentMethod is the body's or, when
    the body has none, the empty text, whatever the order had. *)
Theorem update_merges_and_resets_payment_method (rt : Runtime) (clock : nat -> string)
    (st st' : State) (param_id : string) (body : object) (updated : object) :
  put_order rt clock st param_id body = Returns (st', Ok updated) ->
  exists (i : nat) (order : object),
    orders st !! i = Some order
    /\ id_is (parseInt param_id) order = true
    /\ (forall j o, (j < i)%nat -> orders st !! j = Some o ->
                    id_is (parseInt param_id) o = false)
    /\ orders st' = <[i := updated]> (orders st)
    /\ get updated "paymentMethod" = js_or (get body "paymentMethod") (VStr "")
    /\ forall k, k <> "paymentMethod" -> k <> "deliveredAt" -> k <> "deliveryNotes" ->
                 get updated k = match body !! k with
                                 | Some v => v
                                 | None => get order k
                                 end.
Proof.
  unfold put_order.
  destruct (findIndex _ (orders st)) as [i|] eqn:F; [|discriminate].
  destruct (findIndex_Some _ _ _ F) as (order & L & P & Before). rewrite L.
  unfold refresh. destruct (recalculateAnalytics rt _ _); try discriminate.
  intros [= <- <-]. exists i, order. cbn [orders].
  split; [exact L|]. split; [exact P|]. split; [exact Before|]. split; [reflexivity|].
  unfold updatedOrder. split.
  - unfold get at 1. now rewrite lookup_insert_eq.
  - intros k K1 K2 K3. unfold get at 1. rewrite lookup_insert_ne by congruence.
    rewrite lookup_union.
    assert (S : delivery_stamp (clock 0%nat) body !! k = None).
    { unfold delivery_stamp. destruct (is_str "Delivered" (get body "status"));
        [|apply lookup_empty].
      rewrite !lookup_insert_ne by congruence. apply lookup_empty. }
    rewrite S, (left_id_L None _). unfold get. rewrite lookup_union.
    now destruct (body !! k), (order !! k).
Qed.

(** X9. A deletion removes one order, the first that has the id: the
    ledger after a deletion answered 200 is the old one without the order
    at the first position whose id is the parameter's number, it is one
    shorter, and the derived collections are recalculated from it. *)
Theorem deletion_removes_first_match (rt : Runtime) (clock : nat -> string)
    (st st' : State) (param_id : string) :
  delete_order rt clock st param_id = Returns (st', Deleted) ->
  exists (i : nat) (order : object),
    orders st !! i = Some order
    /\ id_is (parseInt param_id) order = true
    /\ (forall j o, (j < i)%nat -> orders st !! j = Some o ->
                    id_is (parseInt param_id) o = false)
    /\ orders st' = delete i (orders st)
    /\ S (length (orders st')) = length (orders st)
    /\ recalculateAnalytics rt clock (orders st') = Returns (derived st').
Proof.
  unfold delete_order.
  destruct (findIndex _ (orders st)) as [i|] eqn:F; [|discriminate].
  destruct (findIndex_Some _ _ _ F) as (order & L & P & Before).
  destruct (recalculateAnalytics rt _ _) as [a| |] eqn:R; try discriminate.
  intros [= <-]. exists i, order. cbn [orders derived].
  split; [exact L|]. split; [exact P|]. split; [exact Before|]. split; [reflexivity|].
  split; [|exact R].
  rewrite length_delete by eauto. apply lookup_lt_Some in L. lia.
Qed.

(** X10. Creating an order and deleting it gives the ledger back: when
    no order of the ledger has the id of the order created, the deletion
    by that id is answered 200 and leaves the ledger of before the
    creation, with the derived collections recalculated from it. *)
Theorem creation_then_deletion_restores_ledger (rt : Runtime)
    (clock clock' : nat -> string) (st st1 : State) (body : object) (order : object)
    (param_id : string) :
  post_order rt clock st body = Returns (st1, Created order) ->
  id_is (parseInt param_id) order = true ->
  (forall o, In o (orders st) -> id_is (parseInt param_id) o = false) ->
  exists a,
    recalculateAnalytics rt clock' (orders st) = Returns a
    /\ delete_order rt clock' st1 param_id
       = Returns ({| orders := orders st; derived := a |}, Deleted).
Proof.
  unfold post_order, refresh.
  destruct (recalculateAnalytics rt _ _) as [a1| |] eqn:R; try discriminate.
  intros [= <- <-] Id Others.
  apply recalculate_Returns_ok in R. unfold ledger_ok in R.
  rewrite forallb_app in R. apply andb_prop in R. destruct R as (Ok & _).
  destruct (recalculate_returns rt clock' _ Ok) as (a & Ra).
  exists a. split; [exact Ra|].
  unfold delete_order. cbn [orders derived].
  rewrite findIndex_snoc by assumption. rewrite delete_snoc, Ra. reflexivity.
Qed.

End OrdersProperties.


Module OrdersMoreSamples.
Import Js Analytics Spec Aux Filing OrdersApi OrderDeletion Samples MoreSamples.
Import OrdersProperties.

Lemma failed_creation_is_stored_witness :
  post_order Host.utc clock holds_unfilable plain_body
  = Returns (creation_failed.1,
             ServerError "TypeError: order.createdAt.split is not a function")
  /\ length (orders creation_failed.1) = 2%nat
  /\ derived creation_failed.1 = derived holds_unfilable.
Proof.
  split; [vm_compute; reflexivity|]. split; [reflexivity|].
  apply (failed_creation_is_stored Host.utc clock holds_unfilable creation_failed.1
           plain_body "TypeError: order.createdAt.split is not a function").
  vm_compute; reflexivity.
Defined.

Lemma created_order_is_filed_today_witness :
  clock 0%nat <> ""
  /\ post_order Host.utc clock one_delivered plain_body
     = Returns (created_from_plain_body.1, Created created_order)
  /\ get created_order "id" = VNum 8%float
  /\ notifications (derived one_delivered) <> []
  /\ notifications (derived created_from_plain_body.1) = [].
Proof.
  split; [discriminate|]. split; [vm_compute; reflexivity|]. split; [reflexivity|].
  split; [vm_compute; discriminate|].
  apply (created_order_is_filed_today Host.utc clock one_delivered
           created_from_plain_body.1 plain_body created_order).
  - discriminate.
  - vm_compute; reflexivity.
Defined.

Lemma update_merges_and_resets_payment_method_witness :
  put_order Host.utc clock one_delivered "7" status_only
  = Returns (updated_by_status_only.1, Ok updated_order)
  /\ get delivered_order "paymentMethod" = VStr "Cash"
  /\ get updated_order "paymentMethod" = VStr ""
  /\ exists (i : nat) (order : object),
       orders one_delivered !! i = Some order
       /\ id_is (parseInt "7") order = true
       /\ (forall j o, (j < i)%nat -> orders one_delivered !! j = Some o ->
                       id_is (parseInt "7") o = false)
       /\ orders updated_by_status_only.1 = <[i := updated_order]> (orders one_delivered)
       /\ get updated_order "paymentMethod"
          = js_or (get status_only "paymentMethod") (VStr "")
       /\ forall k, k <> "paymentMethod" -> k <> "deliveredAt" -> k <> "deliveryNotes" ->
                    get updated_order k = match status_only !! k with
                                          | Some v => v
                                          | None => get order k
                                          end.
Proof.
  split; [vm_compute; reflexivity|]. split; [reflexivity|]. split; [reflexivity|].
  apply (update_merges_and_resets_payment_method Host.utc clock one_delivered
           updated_by_status_only.1 "7" status_only updated_order).
  vm_compute; reflexivity.
Defined.

Lemma deletion_removes_first_match_witness :
  delete_order Host.utc clock one_delivered "7" = Returns (after_deletion.1, Deleted)
  /\ orders after_deletion.1 = []
  /\ exists (i : nat) (order : object),
       orders one_delivered !! i = Some order
       /\ id_is (parseInt "7") order = true
       /\ (forall j o, (j < i)%nat -> orders one_delivered !! j = Some o ->
                       id_is (parseInt "7") o = false)
       /\ orders after_deletion.1 = delete i (orders one_delivered)
       /\ S (length (orders after_deletion.1)) = length (orders one_delivered)
       /\ recalculateAnalytics Host.utc clock (orders after_deletion.1)
          = Returns (derived after_deletion.1).
Proof.
  split; [vm_compute; reflexivity|]. split; [reflexivity|].
  apply (deletion_removes_first_match Host.utc clock one_delivered after_deletion.1 "7").
  vm_compute; reflexivity.
Defined.

Lemma creation_then_deletion_restores_ledger_witness :
  post_order Host.utc clock one_delivered plain_body
  = Returns (created_from_plain_body.1, Created created_order)
  /\ id_is (parseInt "8") created_order = true
  /\ id_is (parseInt "8") delivered_order = false
  /\ exists a,
       recalculateAnalytics Host.utc clock (orders one_delivered) = Returns a
       /\ delete_order Host.utc clock created_from_plain_body.1 "8"
          = Returns ({| orders := orders one_delivered; derived := a |}, Deleted).
Proof.
  split; [vm_compute; reflexivity|]. split; [reflexivity|]. split; [reflexivity|].
  apply (creation_then_deletion_restores_ledger Host.utc clock clock one_delivered
           created_from_plain_body.1 plain_body created_order "8").
  - vm_compute; reflexivity.
  - reflexivity.
  - intros o [<-|[]]. reflexivity.
Defined.

End OrdersMoreSamples.

(** * getWeekNumber and the ISO week *)
Module WeekFacts.
Import Js Analytics JsFacts IsoWeek.
Local Open Scope Z_scope.

Lemma month_offset (y m : Z) :
  0 <= m <= 11 -> 0 <= days_of_civil y m - days_of_civil y 0 <= 335.
Proof.
  intros Hm. unfold days_of_civil.
  assert (C : m = 0 \/ m = 1 \/ m = 2 \/ m = 3 \/ m = 4 \/ m = 5 \/ m = 6 \/ m = 7
              \/ m = 8 \/ m = 9 \/ m = 10 \/ m = 11) by lia.
  repeat (destruct C as [->|C]); try subst m; cbn -[Z.div Z.mul Z.add Z.sub];
    Z.div_mod_to_equations; lia.
Qed.

Lemma year_of_day_lower (day : Z) : -135003 <= day -> 1600 <= (civil_of_days day).1.1.
Proof.
  intros H. unfold civil_of_days. cbn [fst snd].
  set (z := day + 719468).
  set (era := z / 146097).
  set (doe := z - era * 146097).
  set (yoe := (doe - doe / 1460 + doe / 36524 - doe / 146096) / 365).
  assert (4 <= era) by (subst era z; Z.div_mod_to_equations; lia).
  assert (0 <= doe <= 146096) by (subst doe era; Z.div_mod_to_equations; lia).
  assert (0 <= yoe) by (subst yoe; Z.div_mod_to_equations; lia).
  destruct (_ <=? 1); lia.
Qed.

(** A day is one of the 366 days that start with the first day of its
    year. *)
Lemma year_start_bounds (day : Z) :
  0 <= day - days_of_civil (civil_of_days day).1.1 0 <= 365.
Proof.
  destruct (MakeDay_civil_of_days day) as (M & Hm & Hd).
  unfold MakeDay in M.
  replace ((civil_of_days day).1.2 / 12) with 0 in M by (Z.div_mod_to_equations; lia).
  replace ((civil_of_days day).1.2 mod 12) with (civil_of_days day).1.2 in M
    by (Z.div_mod_to_equations; lia).
  rewrite Z.add_0_r in M.
  pose proof (month_offset (civil_of_days day).1.1 _ Hm) as O.
  revert M Hd O. generalize (civil_of_days day).2.
  generalize (days_of_civil (civil_of_days day).1.1 (civil_of_days day).1.2).
  generalize (days_of_civil (civil_of_days day).1.1 0). clear Hm. intros ys ym d. lia.
Qed.

Lemma MakeDay_first (y : Z) : MakeDay y 0 1 = days_of_civil y 0.
Proof.
  unfold MakeDay. change (0 / 12) with 0. change (0 mod 12) with 0.
  rewrite Z.add_0_r. lia.
Qed.

Lemma MakeDay_shift (y m d k : Z) : MakeDay y m (d + k) = MakeDay y m d + k.
Proof. unfold MakeDay. lia. Qed.

Lemma Date_UTC_civil (day : Z) :
  -135003 <= day <= 99999003 ->
  Date_UTC (civil_of_days day).1.1 (civil_of_days day).1.2 (civil_of_days day).2
  = Some (day * msPerDay).
Proof.
  intros H. unfold Date_UTC.
  pose proof (year_of_day_lower day (proj1 H)) as Y.
  replace ((civil_of_days day).1.1 <=? 99) with false by (symmetry; apply Z.leb_gt; lia).
  rewrite andb_false_r.
  destruct (MakeDay_civil_of_days day) as (-> & _).
  unfold MakeDate, TimeClip, msPerDay.
  replace (Z.abs (day * 86400000 + 0) <=? 8640000000000000) with true; [f_equal; lia|].
  symmetry. apply Z.leb_le. lia.
Qed.

Lemma Day_midnight (day : Z) : Day (day * msPerDay) = day.
Proof. unfold Day, msPerDay. now rewrite Z.div_mul. Qed.

Lemma TimeWithinDay_midnight (day : Z) : TimeWithinDay (day * msPerDay) = 0.
Proof. unfold TimeWithinDay, msPerDay. now rewrite Z.mod_mul. Qed.

(** The day the function moves to is the Thursday of the week. *)
Lemma thursday_by_day_number (day : Z) :
  day + 4 - (if (day + 4) mod 7 =? 0 then 7 else (day + 4) mod 7) = thursday_of day.
Proof.
  unfold thursday_of. destruct (Z.eqb_spec ((day + 4) mod 7) 0); Z.div_mod_to_equations; lia.
Qed.

Lemma ceil_div7_succ (k : Z) : ceil_div7 (k + 1) = k / 7 + 1.
Proof. unfold ceil_div7. Z.div_mod_to_equations. lia. Qed.

Lemma getWeekNumber_iso (rt : Runtime) (t : Z) :
  in_range (Day (LocalTime rt t)) ->
  getWeekNumber rt (Some t) = iso_key (Day (LocalTime rt t)).
Proof.
  unfold in_range. set (n := Day (LocalTime rt t)). intros R.
  unfold getWeekNumber, YearFromTime, MonthFromTime, DateFromTime. fold n.
  rewrite Date_UTC_civil by lia.
  unfold WeekDay. rewrite Day_midnight.
  unfold setUTCDate, YearFromTime, MonthFromTime, DateFromTime.
  rewrite Day_midnight, TimeWithinDay_midnight.
  rewrite <- Z.add_sub_assoc, MakeDay_shift.
  destruct (MakeDay_civil_of_days n) as (-> & _).
  rewrite Z.add_sub_assoc, thursday_by_day_number.
  assert (T : n - 3 <= thursday_of n <= n + 3)
    by (unfold thursday_of; Z.div_mod_to_equations; lia).
  unfold MakeDate, TimeClip. rewrite Z.add_0_r.
  replace (Z.abs (thursday_of n * msPerDay) <=? 8640000000000000) with true
    by (symmetry; apply Z.leb_le; unfold msPerDay; lia).
  rewrite Day_midnight. fold (iso_year n).
  pose proof (year_of_day_lower (thursday_of n) ltac:(lia)) as Y. fold (iso_year n) in Y.
  pose proof (year_start_bounds (thursday_of n)) as S. fold (iso_year n) in S.
  unfold Date_UTC.
  replace (iso_year n <=? 99) with false by (symmetry; apply Z.leb_gt; lia).
  rewrite andb_false_r, MakeDay_first.
  unfold MakeDate, TimeClip. rewrite Z.add_0_r.
  replace (Z.abs (days_of_civil (iso_year n) 0 * msPerDay) <=? 8640000000000000) with true
    by (symmetry; apply Z.leb_le; unfold msPerDay; lia).
  rewrite <- Z.mul_sub_distr_r.
  replace ((thursday_of n - days_of_civil (iso_year n) 0) * msPerDay / msPerDay)
    with (thursday_of n - days_of_civil (iso_year n) 0)
    by (unfold msPerDay; now rewrite Z.div_mul).
  rewrite ceil_div7_succ. reflexivity.
Qed.

Lemma iso_week_range (day : Z) : 1 <= iso_week day <= 53.
Proof.
  unfold iso_week. pose proof (year_start_bounds (thursday_of day)) as S.
  fold (iso_year day) in S. Z.div_mod_to_equations. lia.
Qed.

Lemma string_of_Z_inj (a b : Z) : string_of_Z a = string_of_Z b -> a = b.
Proof.
  intros E. pose proof (parseInt_printed a "") as A.
  rewrite E, parseInt_printed in A. congruence.
Qed.

Lemma append_inj_r (s a b : string) : s +:+ a = s +:+ b -> a = b.
Proof. induction s as [|c s IH]; cbn; [auto|]. intros [= E]. auto. Qed.

(** The year a week key starts with can be read back. *)
Lemma year_read (y : Z) (w : string) :
  parseInt (remove_first_W (string_of_Z y +:+ "-W" +:+ w)) = Some y.
Proof. now rewrite remove_first_W_printed, parseInt_printed. Qed.

Lemma iso_key_inj (d1 d2 : Z) :
  iso_key d1 = iso_key d2 -> iso_year d1 = iso_year d2 /\ iso_week d1 = iso_week d2.
Proof.
  unfold iso_key. intros E.
  assert (Y : iso_year d1 = iso_year d2).
  { pose proof (year_read (iso_year d1) (string_of_Z (iso_week d1))) as A.
    change (string_of_Z (iso_year d1) +:+ "-W" +:+ string_of_Z (iso_week d1))
      with (string_of_Z (iso_year d1) ++ "-W" ++ string_of_Z (iso_week d1))%string in A.
    rewrite E in A.
    change (string_of_Z (iso_year d2) ++ "-W" ++ string_of_Z (iso_week d2))%string
      with (string_of_Z (iso_year d2) +:+ "-W" +:+ string_of_Z (iso_week d2)) in A.
    rewrite year_read in A. congruence. }
  split; [exact Y|]. rewrite Y in E.
  apply append_inj_r in E. apply (append_inj_r "-W") in E. now apply string_of_Z_inj.
Qed.

End WeekFacts.

Module WeekProperties.
Import Js Analytics JsFacts IsoWeek WeekFacts.
Local Open Scope Z_scope.

(** X11. getWeekNumber gives the ISO 8601 week of the local calendar day:
    the year of the key is the year of the Thursday of the day's
    Monday-to-Sunday week, and the number after W counts the weeks from
    the one of the year's first Thursday; it is between 1 and 53. *)
Theorem week_key_is_iso_week (rt : Runtime) (t : Z) :
  in_range (Day (LocalTime rt t)) ->
  getWeekNumber rt (Some t)
  = (string_of_Z (iso_year (Day (LocalTime rt t))) ++ "-W"
     ++ string_of_Z (iso_week (Day (LocalTime rt t))))%string
  /\ 1 <= iso_week (Day (LocalTime rt t)) <= 53.
Proof.
  intros R. split; [now apply getWeekNumber_iso|apply iso_week_range].
Qed.

(** X12. Two dates get the same week key exactly when their local days
    lie in the same week from Monday to Sunday. *)
Theorem same_key_same_week (rt : Runtime) (t1 t2 : Z) :
  in_range (Day (LocalTime rt t1)) ->
  in_range (Day (LocalTime rt t2)) ->
  getWeekNumber rt (Some t1) = getWeekNumber rt (Some t2)
  <-> (Day (LocalTime rt t1) + 3) / 7 = (Day (LocalTime rt t2) + 3) / 7.
Proof.
  intros R1 R2. rewrite !getWeekNumber_iso by assumption.
  set (n1 := Day (LocalTime rt t1)). set (n2 := Day (LocalTime rt t2)). split.
  - intros E. apply iso_key_inj in E. destruct E as (Y & W).
    unfold iso_week in W. rewrite Y in W. unfold thursday_of in W.
    Z.div_mod_to_equations. lia.
  - intros E. unfold iso_key, iso_week, iso_year, thursday_of. now rewrite E.
Qed.

End WeekProperties.

Module WeekSamples.
Import Js Analytics JsFacts IsoWeek WeekProperties.
Local Open Scope Z_scope.

(** Friday 1 January 2021 belongs to week 53 of 2020. *)
Lemma week_key_is_iso_week_witness :
  Host.iso_parse "2021-01-01T10:00:00.000Z" = Some 1609495200000
  /\ in_range (Day (LocalTime Host.utc 1609495200000))
  /\ getWeekNumber Host.utc (Some 1609495200000) = "2020-W53"
  /\ getWeekNumber Host.utc (Some 1609495200000)
     = (string_of_Z (iso_year (Day (LocalTime Host.utc 1609495200000))) ++ "-W"
        ++ string_of_Z (iso_week (Day (LocalTime Host.utc 1609495200000))))%string.
Proof.
  split; [reflexivity|]. split; [unfold in_range; vm_compute; split; discriminate|].
  split; [reflexivity|].
  apply (week_key_is_iso_week Host.utc 1609495200000).
  unfold in_range. vm_compute. split; discriminate.
Defined.

(** Monday 30 December 2024 and Sunday 5 January 2025. *)
Lemma same_key_same_week_witness :
  Host.iso_parse "2024-12-30T08:00:00.000Z" = Some 1735545600000
  /\ Host.iso_parse "2025-01-05T20:00:00.000Z" = Some 1736107200000
  /\ in_range (Day (LocalTime Host.utc 1735545600000))
  /\ in_range (Day (LocalTime Host.utc 1736107200000))
  /\ getWeekNumber Host.utc (Some 1735545600000) = "2025-W1"
  /\ (getWeekNumber Host.utc (Some 1735545600000) = getWeekNumber Host.utc (Some 1736107200000)
      <-> (Day (LocalTime Host.utc 1735545600000) + 3) / 7
          = (Day (LocalTime Host.utc 1736107200000) + 3) / 7).
Proof.
  split; [reflexivity|]. split; [reflexivity|].
  split; [unfold in_range; vm_compute; split; discriminate|].
  split; [unfold in_range; vm_compute; split; discriminate|].
  split; [reflexivity|].
  apply (same_key_same_week Host.utc 1735545600000 1736107200000);
    unfold in_range; vm_compute; split; discriminate.
Defined.

End WeekSamples.

(** * The customers: pages and ids *)
Module CustomersFacts.
Import Js Analytics OrdersApi CustomersApi JsFacts OrdersFacts.

Lemma insert_by_Permutation {A} (cmp : A -> A -> Z) (x : A) (l : list A) :
  Permutation (insert_by cmp x l) (x :: l).
Proof.
  induction l as [|y l IH]; cbn; [reflexivity|].
  destruct (cmp x y <=? 0)%Z; [reflexivity|]. rewrite IH. apply perm_swap.
Qed.

Lemma sort_by_Permutation {A} (cmp : A -> A -> Z) (l : list A) :
  Permutation (sort_by cmp l) l.
Proof.
  induction l as [|x l IH]; cbn; [reflexivity|].
  now rewrite insert_by_Permutation, IH.
Qed.

Lemma named_customers (loc : Locale) (customers : list object)
    (named : list (string * object)) :
  mapM (fun c => name ← lower_name loc c; Some (name, c)) customers = Some named ->
  map snd named = customers.
Proof.
  rewrite mapM_Some. induction 1 as [|c nc customers named F _ IH]; cbn; [reflexivity|].
  f_equal; [|exact IH]. destruct (lower_name loc c); cbn in F; [|discriminate].
  now injection F as <-.
Qed.

(** Sorting loses no customer and invents none. *)
Lemma sorted_customers_Permutation (loc : Locale) (q : Query)
    (customers sorted : list object) :
  sorted_customers loc q customers = Returns sorted -> Permutation sorted customers.
Proof.
  unfold sorted_customers. destruct (String.eqb _ "shopName"); [|now intros [= <-]].
  destruct customers as [|c1 [|c2 customers]]; try (now intros [= <-]).
  destruct (mapM _ _) as [named|] eqn:M; [|discriminate]. intros [= <-].
  rewrite sort_by_Permutation. now rewrite (named_customers _ _ _ M).
Qed.

Lemma sorted_customers_on_page (loc : Locale) (q : Query) (p : Z)
    (customers : list object) :
  sorted_customers loc (on_page q p) customers = sorted_customers loc q customers.
Proof. reflexivity. Qed.

(** ** Windows of a list *)

Lemma slice_window {A} (l : list A) (s n : nat) :
  slice l (Some (Z.of_nat s)) (Some (Z.of_nat s + Z.of_nat n)%Z) = take n (drop s l).
Proof.
  unfold slice, relative_index.
  replace (Z.of_nat s <? 0)%Z with false by (symmetry; apply Z.ltb_ge; lia).
  replace (Z.of_nat s + Z.of_nat n <? 0)%Z with false by (symmetry; apply Z.ltb_ge; lia).
  destruct (Nat.le_gt_cases (length l) s) as [Far|Near].
  - rewrite !Z.min_r by lia. rewrite Z.sub_diag. cbn.
    rewrite (drop_ge l s) by exact Far. now rewrite take_nil.
  - rewrite (Z.min_l (Z.of_nat s)) by lia. rewrite Nat2Z.id.
    destruct (Nat.le_gt_cases (s + n) (length l)) as [In|Out].
    + rewrite Z.min_l by lia. f_equal. lia.
    + rewrite Z.min_r by lia.
      rewrite !take_ge; [reflexivity| |]; rewrite length_drop; lia.
Qed.

Lemma slice_window_Z {A} (l : list A) (s n : Z) :
  (0 <= s)%Z -> (0 <= n)%Z ->
  slice l (Some s) (Some (s + n)%Z) = take (Z.to_nat n) (drop (Z.to_nat s) l).
Proof.
  intros Hs Hn. rewrite <- (slice_window l (Z.to_nat s) (Z.to_nat n)).
  now rewrite !Z2Nat.id.
Qed.

Lemma relative_index_nonneg (len : Z) (i : option Z) :
  (0 <= len)%Z -> (0 <= relative_index len i)%Z.
Proof.
  intros H. unfold relative_index. destruct i as [z|]; [|lia].
  destruct (z <? 0)%Z eqn:E; [lia|]. apply Z.ltb_ge in E. lia.
Qed.

Lemma relative_index_0 (len : Z) : (0 <= len)%Z -> relative_index len (Some 0%Z) = 0%Z.
Proof. intros H. unfold relative_index. cbn. lia. Qed.

Lemma slice_empty {A} (l : list A) (start finish : option Z) :
  (relative_index (Z.of_nat (length l)) finish
   <= relative_index (Z.of_nat (length l)) start)%Z ->
  slice l start finish = [].
Proof.
  intros H. unfold slice.
  replace (Z.to_nat _) with 0%nat at 1; [reflexivity|]. lia.
Qed.

Lemma concat_windows {A} (n : nat) (pages : nat) (l : list A) :
  (length l <= pages * n)%nat ->
  concat (map (fun k => take n (drop (k * n) l)) (seq 0 pages)) = l.
Proof.
  revert l. induction pages as [|pages IH]; intros l Len.
  - destruct l; [reflexivity|cbn in Len; lia].
  - cbn [seq map concat]. rewrite <- seq_shift, map_map.
    etransitivity; [|apply (take_drop n l)]. f_equal.
    transitivity (concat (map (fun k => take n (drop (k * n) (drop n l))) (seq 0 pages)));
      [|apply IH; rewrite length_drop; lia].
    f_equal. apply map_ext. intros k. rewrite drop_drop. reflexivity.
Qed.

(** ** Reading a number that was printed *)

Lemma append_empty_r (s : string) : s +:+ "" = s.
Proof.
  induction s as [|c s IH]; [reflexivity|].
  change (String c (s +:+ "") = String c s). now f_equal.
Qed.

Lemma parseInt_string_of_Z (n : Z) : parseInt (string_of_Z n) = Some n.
Proof.
  assert (P : forall p, read_unsigned (NilEmpty.string_of_uint (Pos.to_uint p)) = Some (Z.pos p)).
  { intros p. pose proof (to_uint_nonnil p) as N.
    pose proof (uint_val_to_uint p) as V.
    pose proof (read_printed_digits (Pos.to_uint p) "" 0 false) as R.
    rewrite append_empty_r, V, N in R.
    transitivity (read_digits digit_of 10 (NilEmpty.string_of_uint (Pos.to_uint p)) 0 false).
    - destruct (Pos.to_uint p) as [|l|l|l|l|l|l|l|l|l|l];
        try discriminate N; try reflexivity.
      destruct l; reflexivity.
    - rewrite R. reflexivity. }
  assert (Q : forall p, NilZero.string_of_uint (Pos.to_uint p)
                        = NilEmpty.string_of_uint (Pos.to_uint p)).
  { intros p. pose proof (to_uint_nonnil p) as N.
    destruct (Pos.to_uint p); try discriminate N; reflexivity. }
  unfold string_of_Z. destruct n as [|p|p]; cbn [Z.to_int NilZero.string_of_int].
  - reflexivity.
  - rewrite Q. specialize (P p). pose proof (to_uint_nonnil p) as N.
    destruct (Pos.to_uint p) as [|l|l|l|l|l|l|l|l|l|l]; try discriminate N; exact P.
  - rewrite Q.
    change (Z.opp <$> read_unsigned (NilEmpty.string_of_uint (Pos.to_uint p)) = Some (Z.neg p)).
    rewrite P. reflexivity.
Qed.

(** ** The first match *)

Lemma findIndex_app_l (p : object -> bool) (l r : list object) (i : nat) :
  findIndex p l = Some i -> findIndex p (l ++ r) = Some i.
Proof.
  revert i. induction l as [|x l IH]; cbn; intros i; [discriminate|].
  destruct (p x); [auto|]. destruct (findIndex p l) as [j|]; cbn; [|discriminate].
  intros [= <-]. now rewrite (IH j eq_refl).
Qed.

Lemma findIndex_In (p : object -> bool) (l : list object) (x : object) :
  In x l -> p x = true -> exists i, findIndex p l = Some i /\ (i < length l)%nat.
Proof.
  intros I P. destruct (findIndex p l) as [i|] eqn:F.
  - exists i. split; [reflexivity|].
    destruct (findIndex_Some _ _ _ F) as (o & L & _). now apply lookup_lt_Some in L.
  - rewrite findIndex_None in F. rewrite (F x I) in P. discriminate.
Qed.

Local Open Scope Z_scope.

(** The answer for a page number and a limit that are at least 1. *)
Lemma window (loc : Locale) (q : Query) (customers sorted : list object)
    (p n : Z) :
  sorted_customers loc q customers = Returns sorted ->
  pageNum q = Some p -> limitNum q = Some n ->
  1 <= p <= 67108864 -> 1 <= n <= 67108864 ->
  get_customers loc q customers
  = Returns {|
      page_customers := take (Z.to_nat n) (drop (Z.to_nat ((p - 1) * n)) sorted);
      currentPage := Some p;
      totalPages := Some (- (- Z.of_nat (length customers) / n));
      totalCustomers := length customers;
      customersPerPage := Some n;
      hasNextPage := p * n <? Z.of_nat (length customers);
      hasPrevPage := 1 <? p
    |}.
Proof.
  intros S P N Hp Hn.
  pose proof (Permutation_length (sorted_customers_Permutation _ _ _ _ S)) as Len.
  assert (SI : startIndex q = Some ((p - 1) * n))
    by (unfold startIndex; rewrite P, N; reflexivity).
  assert (EI : endIndex q = Some ((p - 1) * n + n))
    by (unfold endIndex; rewrite SI, N; reflexivity).
  unfold get_customers. rewrite S. cbn [mbind outcome_bind].
  rewrite P, N, SI, EI, Len. unfold exact, ceil_quotient, lt_num.
  replace (Z.abs p <=? 67108864) with true by (symmetry; apply Z.leb_le; lia).
  replace (Z.abs n <=? 67108864) with true by (symmetry; apply Z.leb_le; lia).
  replace (n =? 0) with false by (symmetry; apply Z.eqb_neq; lia).
  cbn [andb]. rewrite slice_window_Z by nia.
  replace ((p - 1) * n + n) with (p * n) by lia. reflexivity.
Qed.

End CustomersFacts.

Module CustomersProperties.
Import Js Analytics OrdersApi CustomersApi JsFacts OrdersFacts CustomersFacts.
Local Open Scope Z_scope.

(** X13. A page is a window of the sorted list: for a page number p and a
    limit n, both at least 1, the listing shows the customers from place
    (p - 1) n on, at most n of them, of the list sorted by shop name; it
    reports ceil(count / n) pages, a next page exactly when p n is below
    the count, and a previous page exactly when p is above 1. *)
Theorem page_is_a_window (loc : Locale) (q : Query) (customers sorted : list object)
    (p n : Z) :
  sorted_customers loc q customers = Returns sorted ->
  pageNum q = Some p -> limitNum q = Some n ->
  1 <= p <= 67108864 -> 1 <= n <= 67108864 ->
  get_customers loc q customers
  = Returns {|
      page_customers := take (Z.to_nat n) (drop (Z.to_nat ((p - 1) * n)) sorted);
      currentPage := Some p;
      totalPages := Some (- (- Z.of_nat (length customers) / n));
      totalCustomers := length customers;
      customersPerPage := Some n;
      hasNextPage := p * n <? Z.of_nat (length customers);
      hasPrevPage := 1 <? p
    |}.
Proof. apply window. Qed.

(** X14. The pages cover the customers, each once: with a limit of at
    least 1, the pages from 1 to the number of pages the listing reports,
    put one after the other, are the sorted list, and the sorted list
    holds the customers, each as many times as the ledger of customers
    does. *)
Theorem pages_cover_the_customers (loc : Locale) (q : Query)
    (customers sorted : list object) (n : Z) :
  sorted_customers loc q customers = Returns sorted ->
  limitNum q = Some n ->
  1 <= n <= 67108864 ->
  Z.of_nat (length customers) <= 67108864 ->
  concat (map (fun p => shown loc (on_page q p) customers)
              (pages (Z.to_nat (- (- Z.of_nat (length customers) / n)))))
  = sorted
  /\ Permutation sorted customers.
Proof.
  intros Sorted N Hn Hlen.
  pose proof (sorted_customers_Permutation _ _ _ _ Sorted) as Perm.
  pose proof (Permutation_length Perm) as Len.
  split; [|exact Perm].
  set (total := Z.to_nat (- (- Z.of_nat (length customers) / n))).
  assert (T : (length sorted <= total * Z.to_nat n)%nat
              /\ Z.of_nat total <= Z.of_nat (length customers)).
  { subst total. rewrite Len.
    assert (0 <= - (- Z.of_nat (length customers) / n)
            /\ Z.of_nat (length customers) <= - (- Z.of_nat (length customers) / n) * n
            /\ - (- Z.of_nat (length customers) / n) <= Z.of_nat (length customers))
      as (A & B & C) by (Z.div_mod_to_equations; nia).
    split; [|lia]. apply Nat2Z.inj_le. rewrite Nat2Z.inj_mul, !Z2Nat.id by lia. exact B. }
  destruct T as (Cover & Few).
  etransitivity; [|apply (concat_windows (Z.to_nat n) total sorted Cover)].
  unfold pages. rewrite <- seq_shift, !map_map. f_equal.
  apply map_ext_in. intros k I. apply in_seq in I.
  unfold shown.
  assert (W : get_customers loc (on_page q (Z.of_nat (S k))) customers
              = Returns {|
                  page_customers :=
                    take (Z.to_nat n) (drop (Z.to_nat ((Z.of_nat (S k) - 1) * n)) sorted);
                  currentPage := Some (Z.of_nat (S k));
                  totalPages := Some (- (- Z.of_nat (length customers) / n));
                  totalCustomers := length customers;
                  customersPerPage := Some n;
                  hasNextPage := Z.of_nat (S k) * n <? Z.of_nat (length customers);
                  hasPrevPage := 1 <? Z.of_nat (S k)
                |}).
  { apply window; try assumption; try lia.
    unfold pageNum, on_page. cbn [page]. apply parseInt_string_of_Z. }
  rewrite W. cbn [page_customers].
  replace (Z.to_nat ((Z.of_nat (S k) - 1) * n)) with (k * Z.to_nat n)%nat; [reflexivity|].
  replace (Z.of_nat (S k) - 1) with (Z.of_nat k) by lia.
  rewrite Z2Nat.inj_mul by lia. now rewrite Nat2Z.id.
Qed.

(** X15. A page or a limit in which [parseInt] reads no number, a page 0
    and a limit 0 show no customer; when the page is not a number the
    answer has no current page (it prints null) and announces neither a
    next nor a previous page. *)
Theorem unreadable_page_is_empty (loc : Locale) (q : Query) (customers : list object)
    (r : CustomersPage) :
  get_customers loc q customers = Returns r ->
  (pageNum q = None \/ limitNum q = None \/ pageNum q = Some 0 \/ limitNum q = Some 0) ->
  page_customers r = []
  /\ (pageNum q = None ->
      currentPage r = None /\ hasNextPage r = false /\ hasPrevPage r = false).
Proof.
  unfold get_customers. destruct (sorted_customers loc q customers) as [sorted| |];
    try discriminate. cbn [mbind outcome_bind].
  destruct (exact (pageNum q) && exact (limitNum q)); [|discriminate].
  intros [= <-] Cases. cbn [page_customers currentPage hasNextPage hasPrevPage]. split.
  - apply slice_empty. unfold endIndex, startIndex.
    destruct (pageNum q) as [p|], (limitNum q) as [n|]; cbn [mbind option_bind];
      try reflexivity.
    destruct Cases as [C|[C|[C|C]]]; try discriminate; injection C as ->.
    + replace ((0 - 1) * n + n) with 0 by lia.
      rewrite relative_index_0 by lia. apply relative_index_nonneg. lia.
    + replace ((p - 1) * 0 + 0) with ((p - 1) * 0) by lia. reflexivity.
  - intros P. unfold endIndex, startIndex. rewrite P. now cbn.
Qed.

(** X16. The id of a new customer is the number of customers plus one,
    so it can be an id in use: when the last customer has the number of
    customers as its id (as after creations alone) and another customer
    is deleted, the customer created next gets the id of that last
    customer, which is still there; an update or a deletion by this id
    then reaches a customer that stands before the new one. *)
Theorem next_customer_takes_a_used_id (rest : list object) (last_customer : object)
    (param_id used_id : string) (i : nat) (body : object) :
  get last_customer "id"
  = VNum (float_of_Z (Z.of_nat (length (rest ++ [last_customer])))) ->
  findIndex (id_is (parseInt param_id)) (rest ++ [last_customer]) = Some i ->
  (i < length rest)%nat ->
  body !! "id" = None ->
  id_is (parseInt used_id) last_customer = true ->
  exists customers',
    delete_customer (rest ++ [last_customer]) param_id = Some customers'
    /\ In last_customer customers'
    /\ get (post_customer customers' body).2 "id" = get last_customer "id"
    /\ exists j, findIndex (id_is (parseInt used_id)) (post_customer customers' body).1
                 = Some j
                 /\ (j < length customers')%nat.
Proof.
  intros Id F Lt NoId Used. unfold delete_customer. rewrite F. cbn [mbind option_bind].
  exists (delete i (rest ++ [last_customer])). split; [reflexivity|].
  assert (D : delete i (rest ++ [last_customer]) = delete i rest ++ [last_customer]).
  { clear -Lt. revert i Lt. induction rest as [|x rest IH]; intros i Lt; [cbn in Lt; lia|].
    destruct i as [|i]; [reflexivity|]. cbn. f_equal. apply IH. cbn in Lt. lia. }
  assert (In_last : In last_customer (delete i (rest ++ [last_customer]))).
  { rewrite D. apply in_app_iff. right. now left. }
  split; [exact In_last|]. split.
  - unfold post_customer. cbn [snd]. unfold get at 1.
    rewrite lookup_union_r by exact NoId. rewrite lookup_singleton_eq. cbn.
    rewrite Id. do 2 f_equal. rewrite D, !length_app, length_delete; cbn.
    + lia.
    + apply lookup_lt_is_Some. exact Lt.
  - destruct (findIndex_In _ _ _ In_last Used) as (j & Fj & Lj).
    exists j. split; [|exact Lj].
    unfold post_customer. cbn [fst]. now apply findIndex_app_l.
Qed.

End CustomersProperties.

Module CustomersMoreSamples.
Import Js Analytics OrdersApi CustomersApi Samples CustomerSamples CustomersProperties.
Local Open Scope Z_scope.

Lemma page_is_a_window_witness :
  sorted_customers by_bytes two_per_page three_customers = Returns sorted_three
  /\ map (fun c => get c "shopName") sorted_three = [VStr "apple"; VStr "Fig"; VStr "Pear"]
  /\ get_customers by_bytes two_per_page three_customers
     = Returns {|
         page_customers := [customer_2; customer_3];
         currentPage := Some 1;
         totalPages := Some 2;
         totalCustomers := 3;
         customersPerPage := Some 2;
         hasNextPage := true;
         hasPrevPage := false
       |}.
Proof.
  split; [vm_compute; reflexivity|]. split; [reflexivity|].
  apply (page_is_a_window by_bytes two_per_page three_customers sorted_three 1 2).
  - vm_compute; reflexivity.
  - reflexivity.
  - reflexivity.
  - lia.
  - lia.
Defined.

Lemma pages_cover_the_customers_witness :
  sorted_customers by_bytes two_per_page three_customers = Returns sorted_three
  /\ shown by_bytes (on_page two_per_page 1) three_customers = [customer_2; customer_3]
  /\ shown by_bytes (on_page two_per_page 2) three_customers = [customer_1]
  /\ concat (map (fun p => shown by_bytes (on_page two_per_page p) three_customers)
                 (pages (Z.to_nat (- (- Z.of_nat (length three_customers) / 2)))))
     = sorted_three.
Proof.
  split; [vm_compute; reflexivity|]. split; [vm_compute; reflexivity|].
  split; [vm_compute; reflexivity|].
  apply (pages_cover_the_customers by_bytes two_per_page three_customers sorted_three 2).
  - vm_compute; reflexivity.
  - reflexivity.
  - lia.
  - cbn. lia.
Defined.

Lemma unreadable_page_is_empty_witness :
  get_customers by_bytes page_abc three_customers = Returns page_abc_answer
  /\ pageNum page_abc = None
  /\ totalCustomers page_abc_answer = 3%nat
  /\ page_customers page_abc_answer = [].
Proof.
  split; [vm_compute; reflexivity|]. split; [reflexivity|]. split; [reflexivity|].
  apply (unreadable_page_is_empty by_bytes page_abc three_customers page_abc_answer).
  - vm_compute; reflexivity.
  - left. reflexivity.
Defined.

Lemma next_customer_takes_a_used_id_witness :
  three_customers = [customer_1; customer_2] ++ [customer_3]
  /\ get customer_3 "id" = VNum 3%float
  /\ exists customers',
       delete_customer ([customer_1; customer_2] ++ [customer_3]) "1" = Some customers'
       /\ In customer_3 customers'
       /\ get (post_customer customers' (named "Kiwi")).2 "id" = get customer_3 "id"
       /\ exists j, findIndex (id_is (parseInt "3")) (post_customer customers' (named "Kiwi")).1
                    = Some j
                    /\ (j < length customers')%nat.
Proof.
  split; [reflexivity|]. split; [reflexivity|].
  apply (next_customer_takes_a_used_id [customer_1; customer_2] customer_3 "1" "3" 0
           (named "Kiwi")).
  - reflexivity.
  - reflexivity.
  - cbn. lia.
  - reflexivity.
  - reflexivity.
Defined.

End CustomersMoreSamples.

(** * The endpoints that read the stored data without awaiting it *)
Module StoredProperties.
Import Js Analytics OrdersApi StoredApi.

(** X17. The endpoints that read a stored collection never show it:
    whatever is stored, the five list endpoints answer with the empty
    list, the daily and the weekly entry asked by date or by week are
    answered 404, and so is the update of a notification. *)
Theorem stored_collections_are_never_shown (stored : Data)
    (k : Data -> list object) (date week param_id : string) (body : object) :
  get_collection stored k = (Entries 200 [], None)
  /\ get_daily_sale stored date = (Message 404 "Daily sale not found", None)
  /\ get_weekly_sale stored week = (Message 404 "Weekly sale not found", None)
  /\ put_notification stored param_id body = (Message 404 "Notification not found", None).
Proof. repeat split. Qed.

(** X18. The endpoints that calculate from the stored orders find none:
    whatever is stored and whatever the date or the week asked for, the
    calculation of daily sales and the one of weekly sales are answered
    404, without a call of the filter's callback or of the code that
    follows; the forced recalculation is answered 500. *)
Theorem calculations_find_no_order (rt : Runtime) (stored updated : Data)
    (selects : object -> outcome bool) (summary : list object -> outcome outcome_of) :
  calculate_daily_sales stored selects summary
  = (Message 404 "No orders found for this date", None)
  /\ calculate_weekly_sales stored selects summary
     = (Message 404 "No orders found for this week", None)
  /\ post_recalculate_analytics rt updated
     = (Message 500 "Error recalculating analytics", None).
Proof. repeat split. Qed.

(** X19. What these endpoints save holds one collection only.  A daily
    (weekly) entry that is posted gets the id 1 unless the body brings an
    id, and the creation time of the request, and [saveData] is handed an
    object whose only collection is the daily (weekly) sales, holding that
    entry alone; a notification that is posted is saved as the only
    notification; the deletion of a notification is answered 200 for every
    id and saves an empty list of notifications.  The orders and the
    customers are in none of these objects. *)
Theorem saved_object_holds_one_collection (stored : Data) (now : string) (now_ms : Z)
    (body : object) (param_id : string) :
  post_daily_sale stored now body
  = (Entry 201 (new_sale now [] body), Some (only_dailySales [new_sale now [] body]))
  /\ post_weekly_sale stored now body
     = (Entry 201 (new_sale now [] body), Some (only_weeklySales [new_sale now [] body]))
  /\ get (new_sale now [] body) "id"
     = match body !! "id" with Some v => v | None => VNum 1%float end
  /\ get (new_sale now [] body) "createdAt" = VStr now
  /\ (exists n, post_notification stored now_ms now body
                = (Entry 201 n, Some (only_notifications [n])))
  /\ (exists n, send_notification stored now_ms now body
                = (Sent 200 n, Some (only_notifications [n])))
  /\ delete_notification stored param_id
     = (Message 200 "Notification deleted successfully", Some (only_notifications [])).
Proof.
  split; [reflexivity|]. split; [reflexivity|]. split.
  - unfold new_sale, get. rewrite lookup_insert_ne by discriminate.
    rewrite lookup_union, lookup_singleton_eq. now destruct (body !! "id").
  - split; [unfold new_sale, get; now rewrite lookup_insert_eq|].
    split; [eexists; reflexivity|]. split; [eexists; reflexivity|]. reflexivity.
Qed.

End StoredProperties.

(** * The predictions *)
Module PredictionsFacts.
Import Js Analytics OrdersApi CustomersApi Predictions JsFacts CustomersFacts.

Lemma ltb_nan_l (a : float) : PrimFloat.ltb js_nan a = false.
Proof. rewrite FloatAxioms.ltb_spec. reflexivity. Qed.

(** [Math.max(a, b)] is not below [a]. *)
Lemma Math_max2_not_below (a b : float) : PrimFloat.ltb (Math_max2 a b) a = false.
Proof.
  unfold Math_max2. destruct (PrimFloat.is_nan a || PrimFloat.is_nan b); [apply ltb_nan_l|].
  destruct (PrimFloat.ltb a b) eqn:AB; [exact (num_gt_asym _ _ AB)|].
  destruct (PrimFloat.ltb b a) eqn:BA; [apply (num_gt_irrefl a)|].
  destruct (PrimFloat.classify a); first [exact BA | apply (num_gt_irrefl a)].
Qed.

Lemma older_values_absent {A} (values : list A) :
  (length values <= 10)%nat -> slice values (Some (-20)%Z) (Some (-10)%Z) = [].
Proof.
  intros H. apply slice_empty. unfold relative_index. cbn. lia.
Qed.

(** A step whose date is in range returns. *)
Lemma step_in_range (host : Host) (n : nat) (slope intercept : float) (i : nat) :
  (Z.abs (time_of_step host i) <= 8640000000000000)%Z ->
  exists p,
    predicted host n slope intercept i = Returns p
    /\ predicted_date p = iso_date (Date_now host i + Z.of_nat i * 86400000)
    /\ PrimFloat.ltb (predicted_value p) 0 = false
    /\ PrimFloat.ltb (predicted_confidence p) 0x1.3333333333333p-1 = false.
Proof.
  intros T. unfold predicted, TimeClip. apply Z.leb_le in T. rewrite T.
  eexists. split; [reflexivity|].
  cbn [predicted_date predicted_value predicted_confidence].
  split; [unfold time_of_step; f_equal; lia|]. split; apply Math_max2_not_below.
Qed.

(** The loop returns when every date is in range, with one prediction per
    step. *)
Lemma loop_returns (host : Host) (n : nat) (slope intercept : float) (days : nat) :
  (forall i, (i < days)%nat -> (Z.abs (time_of_step host i) <= 8640000000000000)%Z) ->
  exists ps,
    mapM (predicted host n slope intercept) (seq 0 days) = Returns ps
    /\ length ps = days
    /\ (forall (i : nat) (p : Predicted),
          ps !! i = Some p ->
          predicted_date p = iso_date (Date_now host i + Z.of_nat i * 86400000)
          /\ PrimFloat.ltb (predicted_value p) 0 = false
          /\ PrimFloat.ltb (predicted_confidence p) 0x1.3333333333333p-1 = false).
Proof.
  intros T.
  assert (G : forall len start, (start + len <= days)%nat ->
            exists ps,
              mapM (predicted host n slope intercept) (seq start len) = Returns ps
              /\ length ps = len
              /\ (forall (i : nat) (p : Predicted),
                    ps !! i = Some p ->
                    predicted_date p
                    = iso_date (Date_now host (start + i)
                                + Z.of_nat (start + i) * 86400000)
                    /\ PrimFloat.ltb (predicted_value p) 0 = false
                    /\ PrimFloat.ltb (predicted_confidence p) 0x1.3333333333333p-1
                       = false)).
  { induction len as [|len IH]; intros start B.
    - exists []. split; [reflexivity|]. split; [reflexivity|].
      intros i p L. now rewrite lookup_nil in L.
    - cbn [seq mapM].
      destruct (step_in_range host n slope intercept start) as (p0 & -> & D0);
        [apply T; lia|].
      destruct (IH (S start)) as (ps & -> & L & P); [lia|].
      cbn [mbind outcome_bind mret outcome_ret].
      eexists. split; [reflexivity|]. split; [cbn; now rewrite L|].
      intros [|i] p Lp; cbn in Lp.
      + injection Lp as <-. now rewrite Nat.add_0_r.
      + replace (start + S i)%nat with (S start + i)%nat by lia. now apply P. }
  destruct (G days 0%nat) as (ps & M & L & P); [lia|].
  exists ps. split; [exact M|]. split; [exact L|]. exact P.
Qed.

End PredictionsFacts.

Module PredictionsProperties.
Import Js Analytics OrdersApi CustomersApi Predictions JsFacts CustomersFacts PredictionsFacts.

(** X20. calculateTrend sees no trend in ten values or fewer: the result
    is 1.  (With two to ten values the older window is empty, its average
    is 0 / 0, and NaN is not above 0.) *)
Theorem trend_needs_more_than_ten_values (values : list float) :
  (length values <= 10)%nat -> calculateTrend values = 1%float.
Proof.
  intros H. unfold calculateTrend. destruct (length values <? 2)%nat; [reflexivity|].
  rewrite older_values_absent by exact H. reflexivity.
Qed.

(** X21. With two items of history or more, and while the dates stay in
    the range of Date, calculateAdvancedPredictions returns one prediction
    per day of the time frame (7 for the text 7days, 30 for 30days, 90
    for anything else); the prediction of step i is dated i days after
    the instant the clock shows in that step, so the dates follow day by
    day as long as the clock does not pass midnight during the loop; no
    predicted value is below 0 and no confidence below 0.6; the trend is
    up or down, never stable. *)
Theorem forecast_shape (rt : Runtime) (host : Host) (historicalData : list object)
    (timeframe : value) :
  (2 <= length historicalData)%nat ->
  (forall i, (i < days_of timeframe)%nat ->
     (Z.abs (time_of_step host i) <= 8640000000000000)%Z) ->
  exists forecast,
    calculateAdvancedPredictions rt host historicalData timeframe = Returns forecast
    /\ length (forecast_predictions forecast) = days_of timeframe
    /\ (days_of timeframe = 7%nat \/ days_of timeframe = 30%nat
        \/ days_of timeframe = 90%nat)
    /\ forecast_trend forecast <> stable
    /\ (forall (i : nat) (p : Predicted),
          forecast_predictions forecast !! i = Some p ->
          predicted_date p = iso_date (Date_now host i + Z.of_nat i * 86400000)
          /\ PrimFloat.ltb (predicted_value p) 0 = false
          /\ PrimFloat.ltb (predicted_confidence p) 0x1.3333333333333p-1 = false).
Proof.
  intros H T. unfold calculateAdvancedPredictions. rewrite length_map.
  replace (length historicalData <? 2)%nat with false by (symmetry; apply Nat.ltb_ge; lia).
  cbn zeta.
  match goal with
  | |- context [mapM (predicted host ?n ?sl ?ic) _] =>
      destruct (loop_returns host n sl ic (days_of timeframe) T) as (ps & M & L & P)
  end.
  rewrite M. cbn [mbind outcome_bind mret outcome_ret]. eexists. split; [reflexivity|].
  cbn [forecast_predictions forecast_trend].
  split; [exact L|]. split.
  - unfold days_of. destruct (is_str "7days" timeframe); [now left|].
    destruct (is_str "30days" timeframe); [right; now left|right; now right].
  - split; [now destruct (num_gt _ _)|]. exact P.
Qed.

End PredictionsProperties.

Module PredictionsWitnesses.
Import Js Analytics OrdersApi Predictions PredictionSamples PredictionsProperties.

Lemma trend_needs_more_than_ten_values_witness :
  (length [10; 20; 40; 80]%float <= 10)%nat
  /\ calculateTrend [10; 20; 40; 80]%float = 1%float.
Proof.
  split; [cbn; lia|].
  apply (trend_needs_more_than_ten_values [10; 20; 40; 80]%float). cbn. lia.
Defined.

Lemma forecast_shape_witness :
  (2 <= length growing)%nat
  /\ calculateAdvancedPredictions Host.utc at_9_30 growing (VStr "7days")
     = Returns growing_forecast
  /\ map predicted_value (forecast_predictions growing_forecast)
     = [40; 50; 60; 70; 80; 90; 100]%float
  /\ map predicted_date (forecast_predictions growing_forecast)
     = ["2024-03-01"; "2024-03-02"; "2024-03-03"; "2024-03-04"; "2024-03-05";
        "2024-03-06"; "2024-03-07"]
  /\ calculateAdvancedPredictions Host.utc before_midnight growing (VStr "7days")
     = Returns midnight_forecast
  /\ map predicted_date (forecast_predictions midnight_forecast)
     = ["2024-03-01"; "2024-03-03"; "2024-03-04"; "2024-03-05"; "2024-03-06";
        "2024-03-07"; "2024-03-08"]
  /\ exists forecast,
       calculateAdvancedPredictions Host.utc before_midnight growing (VStr "7days")
       = Returns forecast
       /\ length (forecast_predictions forecast) = days_of (VStr "7days").
Proof.
  split; [cbn; lia|]. split; [vm_compute; reflexivity|]. split; [reflexivity|].
  split; [vm_compute; reflexivity|]. split; [vm_compute; reflexivity|].
  split; [vm_compute; reflexivity|].
  destruct (forecast_shape Host.utc before_midnight growing (VStr "7days"))
    as (forecast & R & L & _).
  - cbn. lia.
  - intros i B. change (days_of (VStr "7days")) with 7%nat in B.
    unfold time_of_step, before_midnight, Date_now. lia.
  - exists forecast. split; [exact R | exact L].
Defined.

End PredictionsWitnesses.

(** * The analytics endpoint *)
Module DashboardFacts.
Import Js Analytics Spec Aux Filing OrdersApi CustomersApi AnalyticsApi.
Import JsFacts AnalyticsFacts FilingFacts CustomersFacts.

(** The sales and the prediction do not depend on the clock. *)
Lemma sales_part_clock (rt : Runtime) (clock clock' : nat -> string) (orders : list object) :
  sales_part (recalculateAnalytics rt clock orders)
  = sales_part (recalculateAnalytics rt clock' orders).
Proof.
  unfold sales_part, recalculateAnalytics.
  destruct (group_orders rt orders) as [[byDate byWeek]| |]; cbn; try reflexivity.
  destruct (sales_of rt daily_id byDate); cbn; try reflexivity.
  destruct (sales_of rt weekly_id byWeek); cbn; reflexivity.
Qed.

Lemma shopStats_not_thrown (rt : Runtime) (orders : list object) (e : string) :
  shopStats rt orders <> Throws e.
Proof.
  unfold shopStats.
  assert (G : forall acc, acc <> Throws e ->
                fold_left (fun acc order => stats ← acc; count_shop rt stats order) orders acc
                <> Throws e).
  { induction orders as [|order orders IH]; intros acc N; cbn; [exact N|].
    apply IH. destruct acc as [stats| |]; cbn; try congruence.
    unfold count_shop. destruct (own_get _ stats) as [[n r]|]; [discriminate|].
    destruct (inherited _); discriminate. }
  apply G. discriminate.
Qed.

Lemma count_today_not_thrown (clock : nat -> string) (today : string)
    (orders : list object) (k : nat) (e : string) :
  (forall order, In order orders ->
     match get order "createdAt" with
     | VStr _ => True
     | v => truthy v = false
     end) ->
  count_today clock today orders k <> Throws e.
Proof.
  revert k. induction orders as [|order orders IH]; intros k Ok; cbn; [discriminate|].
  pose proof (Ok order (or_introl eq_refl)) as O.
  assert (Rest : forall k', count_today clock today orders k' <> Throws e).
  { intros k'. apply IH. intros o I. apply Ok. now right. }
  assert (T : exists b k', of_today clock today order k = Returns (b, k')).
  { unfold of_today. destruct (get order "createdAt") as [| |c|x|s];
      try (rewrite O; eauto).
    destruct (truthy (VStr s)); eauto. }
  destruct T as (b & k' & ->). cbn.
  specialize (Rest k'). destruct (count_today clock today orders k'); cbn; congruence.
Qed.

Lemma of_today_counted (clock : nat -> string) (today : string) (order : object)
    (k k' : nat) (b : bool) :
  (forall j, split_T (clock j) = today) ->
  of_today clock today order k = Returns (b, k') ->
  b = counted_today today order.
Proof.
  intros Day. unfold of_today, counted_today.
  destruct (get order "createdAt") as [| |c|x|s].
  - cbn [truthy]. rewrite Day, String.eqb_refl. now intros [= <- _].
  - cbn [truthy]. rewrite Day, String.eqb_refl. now intros [= <- _].
  - destruct (truthy (VBool c)); [discriminate|].
    rewrite Day, String.eqb_refl. now intros [= <- _].
  - destruct (truthy (VNum x)); [discriminate|].
    rewrite Day, String.eqb_refl. now intros [= <- _].
  - unfold truthy. destruct (String.eqb s ""); cbn [negb orb].
    + rewrite Day, String.eqb_refl. now intros [= <- _].
    + now intros [= <- _].
Qed.

Lemma count_today_counted (clock : nat -> string) (today : string)
    (orders : list object) (k n : nat) :
  (forall j, split_T (clock j) = today) ->
  count_today clock today orders k = Returns n ->
  n = length (List.filter (counted_today today) orders).
Proof.
  intros Day. revert k n. induction orders as [|order orders IH]; intros k n; cbn.
  - now intros [= <-].
  - destruct (of_today clock today order k) as [[b k']| |] eqn:O; cbn; try discriminate.
    apply (of_today_counted _ _ _ _ _ _ Day) in O. subst b.
    destruct (count_today clock today orders k') as [m| |] eqn:C; cbn; try discriminate.
    intros [= <-]. apply IH in C. subst m.
    now destruct (counted_today today order).
Qed.

(** ** The statistics by shop *)

Lemma shopStats_snoc (rt : Runtime) (orders : list object) (order : object) :
  shopStats rt (orders ++ [order])
  = stats ← shopStats rt orders; count_shop rt stats order.
Proof. unfold shopStats. now rewrite fold_left_app. Qed.

Lemma orders_of_shop_snoc (rt : Runtime) (name : string) (orders : list object)
    (order : object) :
  orders_of_shop rt name (orders ++ [order])
  = orders_of_shop rt name orders
    ++ (if String.eqb (ToString rt (get order "shopName")) name then [order] else []).
Proof. unfold orders_of_shop. now rewrite List.filter_app. Qed.

(** An entry counts the orders of its shop, and there is one entry per
    shop. *)
Lemma shopStats_counts (rt : Runtime) (orders : list object) (stats : dict (nat * float)) :
  shopStats rt orders = Returns stats ->
  List.NoDup (map fst stats)
  /\ forall k, match own_get k stats with
               | Some (n, r) => n = length (orders_of_shop rt k orders) /\ (1 <= n)%nat
               | None => orders_of_shop rt k orders = []
               end.
Proof.
  revert stats. induction orders as [|order orders IH] using rev_ind; intros stats.
  - intros [= <-]. split; [constructor|]. intros k. reflexivity.
  - rewrite shopStats_snoc.
    destruct (shopStats rt orders) as [stats0| |]; cbn; try discriminate.
    destruct (IH _ eq_refl) as (ND & Counts). clear IH.
    unfold count_shop. set (name := ToString rt (get order "shopName")).
    pose proof (Counts name) as Cn.
    destruct (own_get name stats0) as [[n0 r0]|] eqn:E.
    + intros [= <-]. split; [now rewrite own_set_keys, E|].
      intros k. rewrite own_get_set, orders_of_shop_snoc. fold name.
      destruct (String.eqb_spec name k) as [<-|Ne].
      * rewrite length_app. destruct Cn as (-> & ?). cbn. lia.
      * specialize (Counts k). destruct (own_get k stats0) as [[n r]|].
        -- rewrite length_app. cbn. lia.
        -- now rewrite Counts.
    + destruct (inherited name); [discriminate|]. intros [= <-]. split.
      * rewrite own_set_keys, E. apply List.NoDup_app; [exact ND| |].
        -- repeat constructor. intros [].
        -- intros x I [->|[]]. apply own_get_In in I. rewrite E in I. now destruct I.
      * intros k. rewrite own_get_set, orders_of_shop_snoc. fold name.
        destruct (String.eqb_spec name k) as [<-|Ne].
        -- rewrite Cn. cbn. lia.
        -- specialize (Counts k). destruct (own_get k stats0) as [[n r]|].
           ++ rewrite length_app. cbn. lia.
           ++ now rewrite Counts.
Qed.

Lemma entries_of_keys (stats : dict (nat * float)) (keys : list string) :
  (forall k, In k keys -> is_Some (own_get k stats)) ->
  map shop (omap (fun k => match own_get k stats with
                           | Some (n, r) => Some {| shop := k; count := n; revenue := r |}
                           | None => None
                           end) keys)
  = keys.
Proof.
  induction keys as [|k keys IH]; intros Own; cbn; [reflexivity|].
  destruct (Own k (or_introl eq_refl)) as ([n r] & ->). cbn. f_equal.
  apply IH. intros k' I. apply Own. now right.
Qed.

Lemma entries_shops (stats : dict (nat * float)) :
  map shop (entries stats) = Object_keys stats.
Proof. apply entries_of_keys. intros k. apply Object_keys_own. Qed.

Lemma entries_own (stats : dict (nat * float)) (s : ShopStats) :
  In s (entries stats) -> own_get (shop s) stats = Some (count s, revenue s).
Proof.
  unfold entries. intros I. apply list_elem_of_In, list_elem_of_omap in I.
  destruct I as (k & _ & E). destruct (own_get k stats) as [[n r]|] eqn:G; [|discriminate].
  injection E as <-. exact G.
Qed.

Lemma by_revenue_asym (a b : ShopStats) : (0 < by_revenue a b)%Z -> (by_revenue b a <= 0)%Z.
Proof.
  unfold by_revenue. destruct (PrimFloat.ltb (revenue a) (revenue b)) eqn:AB.
  - intros _. pose proof (num_gt_asym (revenue b) (revenue a) AB) as BA.
    unfold num_gt in BA. rewrite BA. lia.
  - destruct (PrimFloat.ltb (revenue b) (revenue a)); lia.
Qed.

Lemma by_revenue_order (a b : ShopStats) :
  (by_revenue a b <= 0)%Z -> PrimFloat.ltb (revenue a) (revenue b) = false.
Proof.
  unfold by_revenue. destruct (PrimFloat.ltb (revenue a) (revenue b)); [lia|reflexivity].
Qed.

Lemma descending_cons (a : ShopStats) (l : list ShopStats) :
  descending l ->
  match l with
  | b :: _ => PrimFloat.ltb (revenue a) (revenue b) = false
  | [] => True
  end ->
  descending (a :: l).
Proof. destruct l; cbn; tauto. Qed.

Lemma insert_by_descending (x : ShopStats) (l : list ShopStats) :
  descending l -> descending (insert_by by_revenue x l).
Proof.
  induction l as [|y l IH]; intros D; [exact I|]. cbn [insert_by].
  destruct (by_revenue x y <=? 0)%Z eqn:C.
  - apply Z.leb_le in C. apply descending_cons; [exact D|now apply by_revenue_order].
  - apply Z.leb_gt in C. assert (Dl : descending l) by (destruct l; [exact I|apply D]).
    specialize (IH Dl). apply descending_cons; [exact IH|].
    destruct l as [|z l]; cbn [insert_by].
    + apply by_revenue_order, by_revenue_asym. lia.
    + destruct (by_revenue x z <=? 0)%Z.
      * apply by_revenue_order, by_revenue_asym. lia.
      * apply D.
Qed.

Lemma sort_by_descending (l : list ShopStats) : descending (sort_by by_revenue l).
Proof.
  induction l as [|x l IH]; [exact I|]. cbn. now apply insert_by_descending.
Qed.

Lemma take_descending (n : nat) (l : list ShopStats) : descending l -> descending (take n l).
Proof.
  revert l. induction n as [|n IH]; intros l D; [exact I|].
  destruct l as [|a l]; [exact I|]. cbn [firstn].
  assert (Dl : descending l) by (destruct l; [exact I|apply D]).
  apply descending_cons; [now apply IH|].
  destruct n; [exact I|]. destruct l as [|b l]; [exact I|]. cbn. apply D.
Qed.

End DashboardFacts.



Module DashboardProperties.
Import Js Analytics Spec Aux Filing OrdersApi CustomersApi AnalyticsApi.
Import JsFacts AnalyticsFacts FilingFacts CustomersFacts DashboardFacts.

(** X22. The analytics endpoint fails exactly when the recalculation
    throws, and what it shows of the sales is a recalculation: it is
    answered 500 if and only if recalculateAnalytics throws on the ledger,
    and when it is answered 200 its dailySales, weeklySales and
    predictions are the ones any recalculation of the same ledger gives
    (so the ones a creation, an update or a deletion has just stored), and
    totalOrders is the length of the ledger. *)
Theorem analytics_endpoint_follows_recalculation (rt : Runtime)
    (clock clock' : nat -> string) (orders : list object) :
  ((exists e, recalculateAnalytics rt clock orders = Throws e)
   <-> get_analytics rt clock orders = Returns (Failed "Error calculating analytics"))
  /\ (forall d a,
        get_analytics rt clock orders = Returns (Sent d) ->
        recalculateAnalytics rt clock' orders = Returns a ->
        dailySales d = Analytics.dailySales a
        /\ weeklySales d = Analytics.weeklySales a
        /\ predictions d = Analytics.predictions a
        /\ totalOrders d = length orders).
Proof.
  unfold get_analytics, analytics_of. split.
  - split.
    + intros (e & ->). reflexivity.
    + destruct (recalculateAnalytics rt clock orders) as [a|e|] eqn:R; cbn;
        [|eauto|discriminate].
      intros H. exfalso.
      destruct (recalculate_Returns rt _ _ _ R) as (byDate & byWeek & G & _).
      pose proof (group_orders_Returns rt _ _ G) as Ok.
      destruct (shopStats rt orders) as [stats|e|] eqn:S; cbn in H;
        [|now apply shopStats_not_thrown in S|discriminate].
      destruct (top_five (entries stats)) as [top|e|] eqn:T; cbn in H;
        [| |discriminate].
      * destruct (count_today clock _ orders _) as [n|e|] eqn:C; cbn in H;
          try discriminate.
        apply count_today_not_thrown in C; [exact C|].
        intros o I. specialize (Ok o I). now destruct (get o "createdAt").
      * unfold top_five in T. destruct (existsb _ _); discriminate.
  - intros d a. destruct (recalculateAnalytics rt clock orders) as [a0| |] eqn:R; cbn;
      try discriminate.
    destruct (shopStats rt orders) as [stats| |]; cbn; try discriminate.
    destruct (top_five (entries stats)) as [top| |]; cbn; try discriminate.
    destruct (count_today clock _ orders _) as [n| |]; cbn; try discriminate.
    intros [= <-] R'. cbn.
    pose proof (sales_part_clock rt clock clock' orders) as P.
    rewrite R, R' in P. cbn in P. injection P as -> -> ->. auto.
Qed.

(** X23. An order without a creation time counts as an order of today:
    while the clock stays on one day, todaysOrders is the number of
    orders that are of that day or have no (truthy) createdAt, the very
    orders that the daily and weekly entries leave out. *)
Theorem undated_orders_count_as_today (rt : Runtime) (clock : nat -> string)
    (orders : list object) (d : Dashboard) (today : string) :
  (forall k, split_T (clock k) = today) ->
  analytics_of rt clock orders = Returns d ->
  todaysOrders d = length (List.filter (counted_today today) orders)
  /\ (length (List.filter (fun order => negb (dated order)) orders) <= todaysOrders d)%nat.
Proof.
  intros Day. unfold analytics_of.
  destruct (recalculateAnalytics rt clock orders) as [a| |]; cbn; try discriminate.
  destruct (shopStats rt orders) as [stats| |]; cbn; try discriminate.
  destruct (top_five (entries stats)) as [top| |]; cbn; try discriminate.
  destruct (count_today clock _ orders _) as [n| |] eqn:C; cbn; try discriminate.
  intros [= <-]. cbn [todaysOrders].
  rewrite Day in C. apply (count_today_counted _ _ _ _ _ Day) in C. subst n.
  split; [reflexivity|].
  clear. induction orders as [|order orders IH]; cbn; [lia|].
  unfold dated at 1, counted_today at 1.
  destruct (get order "createdAt") as [| |b|x|s]; cbn.
  1-2: lia.
  - destruct b; cbn; lia.
  - destruct (negb _); cbn; lia.
  - destruct (String.eqb s ""); cbn; [lia|].
    destruct (String.eqb (split_T s) today); cbn; lia.
Qed.

(** X24. topShops holds at most five shops, each once, in an order in
    which no entry has less revenue than the next, and the count of an
    entry is the number of orders of its shop in the ledger, at least
    one. *)
Theorem top_shops_are_ranked (rt : Runtime) (clock : nat -> string)
    (orders : list object) (d : Dashboard) :
  analytics_of rt clock orders = Returns d ->
  (length (topShops d) <= 5)%nat
  /\ List.NoDup (map shop (topShops d))
  /\ descending (topShops d)
  /\ forall s, In s (topShops d) ->
                count s = length (orders_of_shop rt (shop s) orders) /\ (1 <= count s)%nat.
Proof.
  unfold analytics_of.
  destruct (recalculateAnalytics rt clock orders) as [a| |]; cbn; try discriminate.
  destruct (shopStats rt orders) as [stats| |] eqn:S; cbn; try discriminate.
  destruct (top_five (entries stats)) as [top| |] eqn:T; cbn; try discriminate.
  destruct (count_today clock _ orders _) as [n| |]; cbn; try discriminate.
  intros [= <-]. cbn [topShops].
  unfold top_five in T. destruct (existsb _ _); [discriminate|]. injection T as <-.
  destruct (shopStats_counts rt _ _ S) as (ND & Counts).
  assert (P : Permutation (sort_by by_revenue (entries stats)) (entries stats))
    by apply sort_by_Permutation.
  split; [rewrite length_take; lia|]. split; [|split].
  - rewrite <- firstn_map.
    apply (NoDup_app_remove_r _ (drop 5 (map shop (sort_by by_revenue (entries stats))))).
    rewrite take_drop. apply (Permutation_NoDup (l := map shop (entries stats))).
    + now apply Permutation_map, Permutation_sym.
    + rewrite entries_shops. apply (Permutation_NoDup (l := map fst stats)); [|exact ND].
      apply Permutation_sym, Object_keys_Permutation.
  - apply take_descending, sort_by_descending.
  - intros s I.
    assert (Is : In s (entries stats)).
    { apply (Permutation_in _ P). apply list_elem_of_In.
      apply list_elem_of_In, elem_of_take in I. destruct I as (i & L & _).
      now apply list_elem_of_lookup_2 in L. }
    apply entries_own in Is. specialize (Counts (shop s)). now rewrite Is in Counts.
Qed.

End DashboardProperties.

Module DashboardWitnesses.
Import Js Analytics Spec Aux Filing OrdersApi Samples MoreSamples AnalyticsApi.
Import DashboardSamples DashboardProperties.

Lemma undated_orders_count_as_today_witness :
  analytics_of Host.utc clock mixed = Returns mixed_dashboard
  /\ map dated mixed = [true; false; true]
  /\ map Analytics.totalOrders (dailySales mixed_dashboard) = [1; 1]%nat
  /\ todaysOrders mixed_dashboard = 2%nat
  /\ todaysOrders mixed_dashboard = length (List.filter (counted_today "2024-03-01") mixed).
Proof.
  split; [vm_compute; reflexivity|]. split; [reflexivity|]. split; [reflexivity|].
  split; [reflexivity|].
  apply (undated_orders_count_as_today Host.utc clock mixed mixed_dashboard "2024-03-01").
  - intros k. reflexivity.
  - vm_compute; reflexivity.
Defined.

Lemma top_shops_are_ranked_witness :
  analytics_of Host.utc clock mixed = Returns mixed_dashboard
  /\ map shop (topShops mixed_dashboard) = ["B"; "A"; "C"]
  /\ map revenue (topShops mixed_dashboard) = [20; 7; 5]%float
  /\ descending (topShops mixed_dashboard).
Proof.
  split; [vm_compute; reflexivity|]. split; [reflexivity|]. split; [reflexivity|].
  apply (top_shops_are_ranked Host.utc clock mixed mixed_dashboard).
  vm_compute; reflexivity.
Defined.

End DashboardWitnesses.

(** * The listing of the orders *)
Module ListingFacts.
Import Js Analytics OrdersApi CustomersApi OrdersListing JsFacts RevenueFacts.

Lemma filter_orders_sublist (p : object -> outcome bool) (l l' : list object) :
  filter_orders p l = Returns l' -> l' `sublist_of` l.
Proof.
  revert l'. induction l as [|o l IH]; cbn; intros l' H.
  - injection H as <-. constructor.
  - destruct (p o) as [keep| |]; cbn in H; try discriminate.
    destruct (filter_orders p l) as [kept| |]; cbn in H; try discriminate.
    injection H as <-. destruct keep; [apply sublist_skip|apply sublist_cons]; now apply IH.
Qed.

Lemma filter_sublist {A} (f : A -> bool) (l : list A) : List.filter f l `sublist_of` l.
Proof.
  induction l as [|x l IH]; cbn; [constructor|].
  destruct (f x); [now apply sublist_skip|now apply sublist_cons].
Qed.

Lemma filter_dates_sublist (rt : Runtime) now lo hi (l : list object) (k : nat) :
  filter_dates rt now lo hi l k `sublist_of` l.
Proof.
  revert k. induction l as [|o l IH]; intros k; cbn; [constructor|].
  destruct (orderDate rt now o k) as [date k'].
  destruct (in_dates rt lo hi date); [apply sublist_skip|apply sublist_cons]; apply IH.
Qed.

(** An order the date filter keeps has a date within the bounds. *)
Lemma filter_dates_In (rt : Runtime) now lo hi (l : list object) (k : nat) (o : object) :
  In o (filter_dates rt now lo hi l k) -> exists date, in_dates rt lo hi date = true.
Proof.
  revert k. induction l as [|x l IH]; intros k; cbn; [intros []|].
  destruct (orderDate rt now x k) as [date k'].
  destruct (in_dates rt lo hi date) eqn:D; [|apply IH].
  intros [_|I]; [now exists date|exact (IH _ I)].
Qed.

Lemma sublist_In {A} (l1 l2 : list A) (x : A) : l1 `sublist_of` l2 -> In x l1 -> In x l2.
Proof.
  intros S I. apply list_elem_of_In. apply list_elem_of_In in I.
  exact (elem_of_sublist _ _ _ I S).
Qed.

Lemma is_str_eq (s : string) (v : value) : is_str s v = true -> v = VStr s.
Proof.
  destruct v as [| |b|x|t]; cbn; try discriminate. intros E. apply String.eqb_eq in E.
  now subst.
Qed.

Lemma leb_nan_l (x y : float) : PrimFloat.is_nan x = true -> PrimFloat.leb x y = false.
Proof.
  rewrite is_nan_spec, FloatAxioms.leb_spec. intros ->. reflexivity.
Qed.

Lemma leb_nan_r (x y : float) : PrimFloat.is_nan y = true -> PrimFloat.leb x y = false.
Proof.
  rewrite is_nan_spec, FloatAxioms.leb_spec. intros ->. unfold SFleb.
  now destruct (Prim2SF x) as [[]|[]| |[]].
Qed.

(** ** The steps, one by one *)

Lemma by_search_sublist loc rt q (l l' : list object) :
  by_search loc rt q l = Returns l' -> l' `sublist_of` l.
Proof.
  unfold by_search. destruct (given (search q)); [apply filter_orders_sublist|].
  intros H. injection H as <-. reflexivity.
Qed.

Lemma by_text_sublist loc param key (l l' : list object) :
  by_text loc param key l = Returns l' -> l' `sublist_of` l.
Proof.
  unfold by_text. destruct (given param); [apply filter_orders_sublist|].
  intros H. injection H as <-. reflexivity.
Qed.

Lemma by_customerPhone_sublist q (l l' : list object) :
  by_customerPhone q l = Returns l' -> l' `sublist_of` l.
Proof.
  unfold by_customerPhone. destruct (given (customerPhone q)); [apply filter_orders_sublist|].
  intros H. injection H as <-. reflexivity.
Qed.

Lemma by_status_sublist q (l : list object) : by_status q l `sublist_of` l.
Proof. unfold by_status. destruct (given (status q)); [apply filter_sublist|reflexivity]. Qed.

Lemma by_paymentMethod_sublist q (l : list object) : by_paymentMethod q l `sublist_of` l.
Proof.
  unfold by_paymentMethod. destruct (given (paymentMethod q)); [apply filter_sublist|reflexivity].
Qed.

Lemma by_amount_sublist rt q (l : list object) : by_amount rt q l `sublist_of` l.
Proof.
  unfold by_amount.
  destruct (given (minAmount q)), (given (maxAmount q)); first [apply filter_sublist|reflexivity].
Qed.

Lemma by_date_sublist rt now q (l : list object) : by_date rt now q l `sublist_of` l.
Proof.
  unfold by_date.
  destruct (given (startDate q)), (given (endDate q));
    first [apply filter_dates_sublist|reflexivity].
Qed.

(** What the handler sends is part of what the four plain filters leave
    of the orders found. *)
Lemma get_orders_steps loc rt now q (orders l : list object) :
  get_orders loc rt now q orders = Returns l ->
  exists found,
    found `sublist_of` orders
    /\ l `sublist_of` by_date rt now q (by_amount rt q (by_paymentMethod q (by_status q found))).
Proof.
  unfold get_orders. intros H.
  destruct (by_search loc rt q orders) as [found| |] eqn:F; cbn in H; try discriminate.
  destruct (by_text loc (shopName q) "shopName" _) as [of_shop| |] eqn:S in H;
    cbn in H; try discriminate.
  destruct (by_text loc (customerName q) "customerName" of_shop) as [of_customer| |] eqn:C;
    cbn in H; try discriminate.
  exists found. split; [exact (by_search_sublist _ _ _ _ _ F)|].
  etransitivity; [exact (by_customerPhone_sublist _ _ _ H)|].
  etransitivity; [exact (by_text_sublist _ _ _ _ _ C)|].
  exact (by_text_sublist _ _ _ _ _ S).
Qed.

Lemma by_status_In q (l : list object) (o : object) (s : string) :
  In o (by_status q l) -> given (status q) = Some s -> get o "status" = VStr s.
Proof.
  unfold by_status. intros I G. rewrite G in I. apply filter_In in I. now apply is_str_eq.
Qed.

Lemma by_paymentMethod_In q (l : list object) (o : object) (s : string) :
  In o (by_paymentMethod q l) -> given (paymentMethod q) = Some s ->
  get o "paymentMethod" = VStr s.
Proof.
  unfold by_paymentMethod. intros I G. rewrite G in I. apply filter_In in I.
  now apply is_str_eq.
Qed.

Lemma by_amount_In rt q (l : list object) (o : object) :
  In o (by_amount rt q l) ->
  in_amounts rt (given (minAmount q)) (given (maxAmount q)) o = true.
Proof.
  unfold by_amount.
  destruct (given (minAmount q)), (given (maxAmount q)); intros I;
    first [now apply filter_In in I | reflexivity].
Qed.

Lemma by_date_In rt now q (l : list object) (o : object) :
  In o (by_date rt now q l) ->
  exists date, in_dates rt (given (startDate q)) (given (endDate q)) date = true.
Proof.
  unfold by_date.
  destruct (given (startDate q)), (given (endDate q)); intros I;
    first [exact (filter_dates_In _ _ _ _ _ _ _ I) | now exists None].
Qed.

(** A listed order passed each of the four plain filters. *)
Lemma listed loc rt now q (orders l : list object) (o : object) :
  get_orders loc rt now q orders = Returns l -> In o l ->
  (forall s, given (status q) = Some s -> get o "status" = VStr s)
  /\ (forall s, given (paymentMethod q) = Some s -> get o "paymentMethod" = VStr s)
  /\ in_amounts rt (given (minAmount q)) (given (maxAmount q)) o = true
  /\ exists date, in_dates rt (given (startDate q)) (given (endDate q)) date = true.
Proof.
  intros H I. destruct (get_orders_steps _ _ _ _ _ _ H) as (found & _ & S).
  pose proof (sublist_In _ _ _ S I) as I4.
  pose proof (sublist_In _ _ _ (by_date_sublist _ _ _ _) I4) as I3.
  pose proof (sublist_In _ _ _ (by_amount_sublist _ _ _) I3) as I2.
  pose proof (sublist_In _ _ _ (by_paymentMethod_sublist _ _) I2) as I1.
  split; [intros s G; exact (by_status_In _ _ _ _ I1 G)|].
  split; [intros s G; exact (by_paymentMethod_In _ _ _ _ I2 G)|].
  split; [exact (by_amount_In _ _ _ _ I3)|exact (by_date_In _ _ _ _ _ I4)].
Qed.

(** ** Callbacks that throw *)

Lemma or_else_inside (a b : outcome bool) :
  a <> OutsideModel -> b <> OutsideModel -> or_else a b <> OutsideModel.
Proof. unfold or_else. destruct a as [[]| |]; cbn; congruence. Qed.

Lemma lowered_includes_inside loc (v : value) (needle : string) :
  lowered_includes loc v needle <> OutsideModel.
Proof. now destruct v. Qed.

Lemma text_includes_inside (v : value) (needle : string) :
  text_includes v needle <> OutsideModel.
Proof. now destruct v. Qed.

Lemma printed_includes_inside rt (v : value) (needle : string) :
  printed_includes rt v needle <> OutsideModel.
Proof. now destruct v. Qed.

Lemma matches_search_inside loc rt (s : string) (o : object) :
  matches_search loc rt s o <> OutsideModel.
Proof.
  unfold matches_search.
  repeat first [apply or_else_inside | apply lowered_includes_inside
               | apply text_includes_inside | apply printed_includes_inside].
Qed.

(** A callback that throws on an order of the list makes the filter
    throw. *)
Lemma filter_orders_throws (p : object -> outcome bool) (l : list object) (o : object)
    (e : string) :
  (forall x, p x <> OutsideModel) -> In o l -> p o = Throws e ->
  exists e', filter_orders p l = Throws e'.
Proof.
  intros T I E. induction l as [|x l IH]; [destruct I|]. cbn [filter_orders].
  destruct I as [->|I].
  - rewrite E. now exists e.
  - destruct (IH I) as (e' & F). pose proof (T x) as Tx.
    destruct (p x) as [keep|e0|]; [|now exists e0|congruence].
    rewrite F. now exists e'.
Qed.

End ListingFacts.

Module ListingProperties.
Import Js Analytics OrdersApi CustomersApi OrdersListing JsFacts ListingFacts.

(** X25. GET /api/orders sends stored orders only, in the order of the
    ledger and none more often than the ledger has it; each order sent
    has exactly the status and the payment method asked for, and an
    amount that reads as a number within the bounds asked for, the bounds
    included. *)
Theorem listed_orders_are_stored_and_match (loc : Locale) (rt : Runtime) (now : nat -> Z)
    (q : Filters) (orders l : list object) :
  get_orders loc rt now q orders = Returns l ->
  l `sublist_of` orders
  /\ forall order, In order l ->
       (forall s, given (status q) = Some s -> get order "status" = VStr s)
       /\ (forall s, given (paymentMethod q) = Some s -> get order "paymentMethod" = VStr s)
       /\ (forall s, given (minAmount q) = Some s ->
             PrimFloat.leb (parseFloat_string rt s) (parseFloat rt (get order "totalAmount"))
             = true)
       /\ (forall s, given (maxAmount q) = Some s ->
             PrimFloat.leb (parseFloat rt (get order "totalAmount")) (parseFloat_string rt s)
             = true).
Proof.
  intros H. split.
  - destruct (get_orders_steps _ _ _ _ _ _ H) as (found & F & S).
    etransitivity; [exact S|]. etransitivity; [apply by_date_sublist|].
    etransitivity; [apply by_amount_sublist|]. etransitivity; [apply by_paymentMethod_sublist|].
    etransitivity; [apply by_status_sublist|exact F].
  - intros order I. destruct (listed _ _ _ _ _ _ _ H I) as (St & P & A & _).
    split; [exact St|]. split; [exact P|]. unfold in_amounts in A. split.
    + intros s G. rewrite G in A. destruct (given (maxAmount q)); [|exact A].
      now apply andb_true_iff in A.
    + intros s G. rewrite G in A. destruct (given (minAmount q)); [|exact A].
      now apply andb_true_iff in A.
Qed.

(** X26. A bound that cannot be read empties the listing: when minAmount
    or maxAmount is given and parseFloat makes NaN of it, or startDate or
    endDate is given and is no date, no order is sent. *)
Theorem unreadable_bound_lists_nothing (loc : Locale) (rt : Runtime) (now : nat -> Z)
    (q : Filters) (orders l : list object) (s : string) :
  get_orders loc rt now q orders = Returns l ->
  (given (minAmount q) = Some s \/ given (maxAmount q) = Some s)
  /\ PrimFloat.is_nan (parseFloat_string rt s) = true
  \/ (given (startDate q) = Some s \/ given (endDate q) = Some s)
     /\ Date_parse rt s = None ->
  l = [].
Proof.
  intros H U. destruct l as [|o l]; [reflexivity|exfalso].
  destruct (listed _ _ _ _ _ _ o H (or_introl eq_refl)) as (_ & _ & A & date & D).
  destruct U as [([G|G] & N)|([G|G] & N)].
  - unfold in_amounts in A. rewrite G in A.
    rewrite (leb_nan_l _ _ N) in A. now destruct (given (maxAmount q)).
  - unfold in_amounts in A. rewrite G in A. rewrite (leb_nan_r _ _ N) in A.
    destruct (given (minAmount q)); [|discriminate].
    now rewrite andb_false_r in A.
  - unfold in_dates in D. rewrite G, N in D. unfold ge_time in D.
    destruct date; destruct (given (endDate q)); discriminate.
  - unfold in_dates in D. rewrite G, N in D. unfold ge_time in D.
    destruct (given (startDate q)); [|discriminate].
    now rewrite andb_false_r in D.
Qed.

(** X28. One order whose shop name is a number or a boolean makes every
    search fail: the callback of the search guards the name against
    undefined and null only, so it throws on that order, or on an order
    before it, and the handler catches nothing. *)
Theorem search_fails_on_a_shop_name_that_is_no_text (loc : Locale) (rt : Runtime)
    (now : nat -> Z) (q : Filters) (orders : list object) (order : object) (s : string) :
  given (search q) = Some s ->
  In order orders ->
  (exists x, get order "shopName" = VNum x) \/ (exists b, get order "shopName" = VBool b) ->
  exists e, get_orders loc rt now q orders = Throws e.
Proof.
  intros G I N. unfold get_orders, by_search. rewrite G.
  destruct (filter_orders_throws (matches_search loc rt s) orders order
              "TypeError: toLowerCase is not a function") as (e & F).
  - apply matches_search_inside.
  - exact I.
  - unfold matches_search. now destruct N as [(x & ->)|(b & ->)].
  - rewrite F. now exists e.
Qed.

End ListingProperties.

Module ListingWitnesses.
Import Js Analytics OrdersApi CustomersApi OrdersListing Samples MoreSamples CustomerSamples
  DashboardSamples ListingSamples ListingProperties.

Lemma listed_orders_are_stored_and_match_witness :
  get_orders by_bytes Host.utc now pending_from_15 out_of_order
  = Returns [on_2_January; again_on_5_January]
  /\ [on_2_January; again_on_5_January] `sublist_of` out_of_order.
Proof.
  split; [vm_compute; reflexivity|].
  apply (listed_orders_are_stored_and_match by_bytes Host.utc now pending_from_15
           out_of_order [on_2_January; again_on_5_January]).
  vm_compute; reflexivity.
Defined.

Lemma unreadable_bound_lists_nothing_witness :
  get_orders by_bytes Host.utc now up_to_abc out_of_order = Returns []
  /\ PrimFloat.is_nan (parseFloat_string Host.utc "abc") = true
  /\ @nil object = [].
Proof.
  split; [vm_compute; reflexivity|]. split; [vm_compute; reflexivity|].
  apply (unreadable_bound_lists_nothing by_bytes Host.utc now up_to_abc out_of_order [] "abc").
  - vm_compute; reflexivity.
  - left. split; [right; reflexivity|vm_compute; reflexivity].
Defined.

Lemma search_fails_on_a_shop_name_that_is_no_text_witness :
  given (search searching_a) = Some "a"
  /\ get numbered_shop "shopName" = VNum 7%float
  /\ get_orders by_bytes Host.utc now searching_a [on_5_January; numbered_shop]
     = Throws "TypeError: toLowerCase is not a function"
  /\ exists e, get_orders by_bytes Host.utc now searching_a [on_5_January; numbered_shop]
               = Throws e.
Proof.
  split; [reflexivity|]. split; [reflexivity|]. split; [vm_compute; reflexivity|].
  apply (search_fails_on_a_shop_name_that_is_no_text by_bytes Host.utc now searching_a
           [on_5_January; numbered_shop] numbered_shop "a").
  - reflexivity.
  - right. now left.
  - left. now exists 7%float.
Defined.

End ListingWitnesses.

(** * The orders of the data file *)
Module LoadingFacts.
Import Js Analytics Spec Aux Filing Loading JsFacts AnalyticsFacts FilingFacts.

Lemma get_insert (o : object) (k : string) (v : value) : get (<[k := v]> o) k = v.
Proof. unfold get. now rewrite lookup_insert_eq. Qed.

Lemma add_createdAt_dated (clock : nat -> string) (order : object) (k : nat) :
  (forall i, clock i <> "") -> dated (add_createdAt clock order k).1.1 = true.
Proof.
  intros C. unfold add_createdAt, dated.
  destruct (truthy (get order "createdAt")) eqn:T; cbn [fst]; [exact T|].
  destruct (truthy (get order "deliveredAt")) eqn:D; cbn [fst]; rewrite get_insert;
    [exact D|].
  cbn [truthy]. apply negb_true_iff, String.eqb_neq, C.
Qed.

Lemma add_createdAt_kept (clock : nat -> string) (order : object) (k : nat) :
  dated order = true -> add_createdAt clock order k = (order, k, false).
Proof. unfold add_createdAt, dated. now intros ->. Qed.

Lemma add_createdAt_updated (clock : nat -> string) (order : object) (k : nat) :
  (add_createdAt clock order k).2 = negb (dated order).
Proof.
  unfold add_createdAt, dated. destruct (truthy (get order "createdAt")); [reflexivity|].
  now destruct (truthy (get order "deliveredAt")).
Qed.

Lemma stamp_orders_cons (clock : nat -> string) (order : object) (rest : list object)
    (k : nat) (u : bool) :
  stamp_orders clock (order :: rest) k u
  = let r := stamp_orders clock rest (add_createdAt clock order k).1.2
                 (u || (add_createdAt clock order k).2) in
    ((add_createdAt clock order k).1.1 :: r.1.1, r.1.2, r.2).
Proof.
  cbn [stamp_orders]. destruct (add_createdAt clock order k) as [[order' k'] u']. cbn [fst snd].
  now destruct (stamp_orders clock rest k' (u || u')) as [[rest' k''] updated'].
Qed.

Lemma stamp_orders_result (clock : nat -> string) (orders : list object) (k : nat) (u : bool) :
  (forall i, clock i <> "") ->
  let r := stamp_orders clock orders k u in
  Forall (fun o => dated o = true) r.1.1
  /\ length r.1.1 = length orders
  /\ r.2 = u || existsb (fun o => negb (dated o)) orders
  /\ (forall i o, orders !! i = Some o -> dated o = true -> r.1.1 !! i = Some o).
Proof.
  intros C. revert k u. induction orders as [|order rest IH]; intros k u.
  - cbn. split; [constructor|]. split; [reflexivity|]. split; [now rewrite orb_false_r|].
    intros i o L. now rewrite lookup_nil in L.
  - rewrite stamp_orders_cons. cbn zeta. cbn [fst snd].
    destruct (IH (add_createdAt clock order k).1.2 (u || (add_createdAt clock order k).2))
      as (F & L & U & K).
    split; [constructor; [now apply add_createdAt_dated|exact F]|].
    split; [cbn [length]; now rewrite L|].
    split; [rewrite U, add_createdAt_updated; cbn [existsb]; now rewrite orb_assoc|].
    intros [|i] o Lo D; cbn in Lo |- *.
    + injection Lo as ->. now rewrite add_createdAt_kept.
    + now apply K.
Qed.

(** Orders that all have a creation time are left as they are. *)
Lemma stamp_orders_dated (clock : nat -> string) (orders : list object) (k : nat) :
  Forall (fun o => dated o = true) orders -> stamp_orders clock orders k false = (orders, k, false).
Proof.
  induction 1 as [|order rest D F IH]; [reflexivity|].
  rewrite stamp_orders_cons, add_createdAt_kept by exact D. cbn [fst snd orb].
  now rewrite IH.
Qed.

(** The order counts of the daily and of the weekly entries add up to the
    number of dated orders. *)
Lemma counted (rt : Runtime) (clock : nat -> string) (orders : list object) (a : Analytics) :
  recalculateAnalytics rt clock orders = Returns a ->
  sum_nat (map totalOrders (dailySales a)) = length (List.filter dated orders)
  /\ sum_nat (map totalOrders (weeklySales a)) = length (List.filter dated orders).
Proof.
  intros R. destruct (recalculate_Returns rt _ _ _ R) as (byDate & byWeek & G & D & W).
  destruct (group_orders_files rt _ _ _ G) as (FD & FW).
  destruct (group_orders_keys rt _ _ _ G) as (KD & KW).
  destruct (keyed_dated rt _ _ G) as (LD & LW).
  destruct (sales_of_count rt _ _ _ _ _ FD KD D) as (_ & SD).
  destruct (sales_of_count rt _ _ _ _ _ FW KW W) as (_ & SW).
  unfold dates_of, weeks_of in *. split; congruence.
Qed.

Lemma filter_all {A} (f : A -> bool) (l : list A) :
  Forall (fun x => f x = true) l -> List.filter f l = l.
Proof.
  induction 1 as [|x l H F IH]; cbn; [reflexivity|]. now rewrite H, IH.
Qed.

End LoadingFacts.

Module LoadingProperties.
Import Js Analytics Spec Filing Loading JsFacts LoadingFacts.

(** X27. Every order loaded from the data file has a creation time: the
    loop that adds createdAt keeps the number and the places of the
    orders, leaves alone the orders that have a truthy createdAt, and
    makes the others dated; the file is saved again exactly when some
    order was not dated, and loading the result once more changes and
    saves nothing.  A recalculation that returns on the loaded orders
    therefore counts every order of the file, by day and by week. *)
Theorem loaded_orders_are_dated (clock : nat -> string) (orders : list object) :
  (forall i, clock i <> "") ->
  let loaded := loaded_orders clock orders in
  Forall (fun order => dated order = true) loaded
  /\ length loaded = length orders
  /\ (forall i order, orders !! i = Some order -> dated order = true ->
        loaded !! i = Some order)
  /\ saves clock orders = existsb (fun order => negb (dated order)) orders
  /\ (forall clock', loaded_orders clock' loaded = loaded /\ saves clock' loaded = false)
  /\ (forall rt clock' a, recalculateAnalytics rt clock' loaded = Returns a ->
        sum_nat (map totalOrders (dailySales a)) = length orders
        /\ sum_nat (map totalOrders (weeklySales a)) = length orders).
Proof.
  intros C loaded. destruct (stamp_orders_result clock orders 0 false C) as (F & L & U & K).
  fold (loaded_orders clock orders) in F, L, K. fold loaded in F, L, K.
  fold (saves clock orders) in U.
  split; [exact F|]. split; [exact L|]. split; [exact K|]. split; [exact U|]. split.
  - intros clock'. unfold loaded_orders, saves. now rewrite stamp_orders_dated by exact F.
  - intros rt clock' a R. destruct (counted rt clock' loaded a R) as (D & W).
    rewrite filter_all in D, W by exact F. now rewrite D, W, L.
Qed.

End LoadingProperties.

Module LoadingWitnesses.
Import Js Analytics Spec Filing Loading Samples MoreSamples DashboardSamples ListingSamples
  LoadingProperties.

Lemma loaded_orders_are_dated_witness :
  loaded_orders clock file_orders = file_orders_loaded
  /\ map dated file_orders = [true; false; false]
  /\ map (fun order => get order "createdAt") file_orders_loaded
     = [VStr "2024-01-02T10:00:00.000Z"; VStr "2024-03-01T09:30:00.000Z";
        VStr "2024-02-10T16:00:00.000Z"]
  /\ recalculateAnalytics Host.utc clock file_orders_loaded = Returns file_orders_result
  /\ map totalOrders (dailySales file_orders_result) = [1; 1; 1]%nat
  /\ Forall (fun order => dated order = true) (loaded_orders clock file_orders).
Proof.
  split; [vm_compute; reflexivity|]. split; [vm_compute; reflexivity|].
  split; [vm_compute; reflexivity|]. split; [vm_compute; reflexivity|].
  split; [vm_compute; reflexivity|].
  apply (loaded_orders_are_dated clock file_orders). intros i. discriminate.
Defined.

End LoadingWitnesses.
